(** * CVCS-LOCAL: the snapshot / version engine

    A shallow embedding of the Go sources of the repository (packages
    [core], [calculate] and [utils]) and the properties of its
    specification, settled against that embedding.

    Conventions of the embedding.
    - Go strings are [string]; [[]byte] is [list byte].
    - A Go [map] is a [gmap]; a slice is a [list].
    - [time.Time] is the instant as a [Z] (Unix nanoseconds);
      [a.After(b)] is [b < a].
    - A function that returns [error] is a computation of the monad [M]:
      it maps the state of the process and of its files to a result and
      the state after the call.  A Go function can have changed memory or
      files before it returns an error, so the state after a failed call
      is kept.
    - [uuid.NewString()] and [time.Now()] are inputs of the function that
      calls them.
    - A system call that modifies the file system takes its outcome from
      the head of [faults]; an empty list means that every such call
      succeeds.  Reading a file that exists succeeds. *)

From Stdlib Require Import ZArith String Ascii.
From stdpp Require Import gmap strings list fin_maps sorting pretty.

Open Scope string_scope.

Abbreviation bytes := (list Byte.byte).

(** The message of a Go [error]; [fmt.Errorf("ctx: %w", err)] is the
    concatenation of the context and the message of [err]. *)
Definition error := string.

Inductive res (A : Type) : Type :=
| Ok (a : A)
| Err (e : error).
Arguments Ok {A} a.
Arguments Err {A} e.

Definition is_Ok {A} (r : res A) : bool :=
  match r with Ok _ => true | Err _ => false end.

(* ------------------------------------------------------------------ *)
(** ** Strings and paths ([strings], [path/filepath] on Unix)          *)
(* ------------------------------------------------------------------ *)

Module Strings.

(** [strings.Split(s, "/")]. *)
Fixpoint Split (s : string) : list string :=
  match s with
  | EmptyString => [EmptyString]
  | String c r =>
      if Ascii.eqb c "/" then EmptyString :: Split r
      else match Split r with
           | h :: t => String c h :: t
           | [] => [String c EmptyString]
           end
  end.

(** [strings.Join(l, "/")]. *)
Definition Join (l : list string) : string := String.concat "/" l.

(** [strings.HasPrefix(s, p)]. *)
Definition HasPrefix (s p : string) : bool := String.prefix p s.

(** White space of [strings.TrimSpace] inside ASCII.  Go also trims the
    Unicode spaces outside ASCII, which are multi-byte here. *)
Definition isSpace (c : ascii) : bool :=
  let n := nat_of_ascii c in
  (n =? 32)%nat || ((9 <=? n)%nat && (n <=? 13)%nat).

Fixpoint TrimLeft (s : string) : string :=
  match s with
  | String c r => if isSpace c then TrimLeft r else s
  | EmptyString => EmptyString
  end.

(** [strings.TrimSpace]. *)
Definition TrimSpace (s : string) : string :=
  String.rev (TrimLeft (String.rev (TrimLeft s))).

(** [strings.ToLower] on ASCII letters. *)
Definition lower (c : ascii) : ascii :=
  let n := nat_of_ascii c in
  if ((65 <=? n)%nat && (n <=? 90)%nat)%bool then ascii_of_nat (n + 32) else c.

Fixpoint ToLower (s : string) : string :=
  match s with
  | EmptyString => EmptyString
  | String c r => String (lower c) (ToLower r)
  end.

(** [strings.Contains(s, substr)]. *)
Fixpoint Contains (s substr : string) : bool :=
  String.prefix substr s
  || match s with
     | EmptyString => false
     | String _ r => Contains r substr
     end.

End Strings.

Module Filepath.

(** One step of [filepath.Clean] on a path element; [st] holds the
    elements kept so far, last one first.  An empty element (doubled
    separator) and [.] are dropped; [..] removes the element before it
    when there is one that is not [..] itself, is dropped at the root of
    a rooted path, and is kept otherwise. *)
Definition clean_step (rooted : bool) (st : list string) (e : string)
  : list string :=
  if String.eqb e "" then st
  else if String.eqb e "." then st
  else if String.eqb e ".." then
    match st with
    | top :: below =>
        if String.eqb top ".." then e :: st else below
    | [] => if rooted then [] else [e]
    end
  else e :: st.

(** [filepath.Clean]. *)
Definition Clean (path : string) : string :=
  match path with
  | EmptyString => "."
  | String c _ =>
      let rooted := Ascii.eqb c "/" in
      let st := fold_left (clean_step rooted) (Strings.Split path) [] in
      if rooted then "/" ++ Strings.Join (rev st)
      else match st with
           | [] => "."
           | _ => Strings.Join (rev st)
           end
  end.

(** [filepath.Join(a, b)]: empty leading elements are ignored, the rest
    is joined with the separator and cleaned. *)
Definition Join (a b : string) : string :=
  if String.eqb a "" then
    if String.eqb b "" then "" else Clean b
  else Clean (a ++ "/" ++ b).

(** [filepath.Ext]: the suffix of the last element from its last dot. *)
Fixpoint Ext_go (s : string) (acc : string) : string :=
  match s with
  | EmptyString => acc
  | String c r =>
      if Ascii.eqb c "/" then Ext_go r ""
      else if Ascii.eqb c "." then Ext_go r s
      else Ext_go r acc
  end.
Definition Ext (path : string) : string := Ext_go path "".

(** [filepath.Base]: the last element of the path, trailing separators
    apart; [.] for the empty path and the separator for a path of
    separators only. *)
Definition Base (path : string) : string :=
  if String.eqb path "" then "."
  else match rev (List.filter (λ e, negb (String.eqb e ""))
                     (Strings.Split path)) with
       | last :: _ => last
       | [] => "/"
       end.

(** [filepath.ToSlash] on Unix. *)
Definition ToSlash (path : string) : string := path.

End Filepath.

(* ------------------------------------------------------------------ *)
(** ** Data model ([core/model.go], [core/jsonfile_provider.go])       *)
(* ------------------------------------------------------------------ *)

(** [LinkageType]: the two constants the code uses. *)
Inductive LinkageType : Type :=
| LinkageTypeSequential
| LinkageTypeBranchFrom.

Definition LinkageType_string (t : LinkageType) : string :=
  match t with
  | LinkageTypeSequential => "sequential"
  | LinkageTypeBranchFrom => "branch_from"
  end.

(** [float64(a) / float64(b)], kept as its two operands; [FZero] is the
    zero value of the field. *)
Inductive float_quot : Type :=
| FZero
| FDiv (num den : Z).

(** [int64] wrap-around. *)
Definition wrap64 (z : Z) : Z :=
  ((z + 2 ^ 63) mod 2 ^ 64 - 2 ^ 63)%Z.

Module Codebase.
Record t : Type := mk {
  ID : string;
  Name : string;
  Description : string;
  Branch : string;
  CreatedAt : Z;
  UpdatedAt : Z }.
Definition with_UpdatedAt (c : t) (u : Z) : t :=
  mk (ID c) (Name c) (Description c) (Branch c) (CreatedAt c) u.
End Codebase.

Module VersionStats.
Record t : Type := mk {
  TotalFiles : Z;
  TotalSize : Z;
  CompressedSize : Z;
  CompressionRatio : float_quot }.
Definition zero : t := mk 0 0 0 FZero.
End VersionStats.

Module Version.
Record t : Type := mk {
  ID : string;
  CodebaseID : string;
  Version : string;
  Branch : string;
  TreeID : string;
  Message : string;
  CreatedAt : Z;
  Stats : VersionStats.t }.
Definition with_CodebaseID (v : t) (c : string) : t :=
  mk (ID v) c (Version v) (Branch v) (TreeID v) (Message v) (CreatedAt v)
     (Stats v).
End Version.

Module File.
Record t : Type := mk {
  Path : string;
  Hash : string;
  Size : Z;
  CompressedSize : Z;
  StorageKey : string;
  Type_ : string }.
End File.

Module FileTree.
Record t : Type := mk {
  TreeID : string;
  VersionID : string;
  Files : list File.t;
  GeneratedAt : Z }.
End FileTree.

Module versionMappingRecord.
Record t : Type := mk {
  ID : string;
  CodebaseID : string;
  Branch : string;
  ChildVersionID : string;
  ParentVersionID : string;
  LinkageType_ : LinkageType }.
End versionMappingRecord.

Module VersionNode.
Record t : Type := mk {
  ID : string;
  Version : string;
  Branch : string;
  Message : string;
  CreatedAt : Z;
  Stats : VersionStats.t }.
End VersionNode.

Module VersionEdge.
Record t : Type := mk {
  From : string;
  To : string;
  LinkageType_ : LinkageType }.
End VersionEdge.

Module VersionMapResponse.
Record t : Type := mk {
  CodebaseID : string;
  Nodes : list VersionNode.t;
  Edges : list VersionEdge.t;
  Refs : gmap string string }.
End VersionMapResponse.

(** The maps [JSONFileProvider] keeps in memory.  The two indexes hold
    pointers to the records of [Versions] in Go; a version is not
    modified once [CreateVersion] has stored it, so the records are kept
    by value. *)
Record inMemoryCache : Type := mkCache {
  Codebases : gmap string Codebase.t;
  Versions : gmap string Version.t;
  FileIndexes : gmap string (list File.t);
  VersionMapping : gmap string versionMappingRecord.t;
  versionsByCodebase : gmap string (list Version.t);
  versionIDByBranchAndName : gmap string string }.

(** The files under [dbPath]: each collection as the value that [save]
    wrote last, and the documents of the [history_cache] directory by
    codebase id. *)
Record dbFiles : Type := mkDb {
  codebases_json : gmap string Codebase.t;
  versions_json : gmap string Version.t;
  file_indexes_json : gmap string (list File.t);
  version_mapping_json : gmap string versionMappingRecord.t;
  history_cache : gmap string bytes }.

(** The state of the process and of its files.
    - [cache], [db]: the [JSONFileProvider];
    - [basePath], [objects]: the [LocalStorage] and the regular files
      it sees, by cleaned path;
    - [faults]: the outcomes of the coming modifying system calls;
    - [spawned]: the goroutines started by [go RebuildHistoryCache(id)]
      that have not run yet. *)
Record World : Type := mkWorld {
  cache : inMemoryCache;
  db : dbFiles;
  basePath : string;
  objects : gmap string bytes;
  faults : list (option error);
  spawned : list string }.

Definition set_cache (c : inMemoryCache) (w : World) : World :=
  mkWorld c (db w) (basePath w) (objects w) (faults w) (spawned w).
Definition set_db (d : dbFiles) (w : World) : World :=
  mkWorld (cache w) d (basePath w) (objects w) (faults w) (spawned w).
Definition set_objects (o : gmap string bytes) (w : World) : World :=
  mkWorld (cache w) (db w) (basePath w) o (faults w) (spawned w).
Definition set_faults (f : list (option error)) (w : World) : World :=
  mkWorld (cache w) (db w) (basePath w) (objects w) f (spawned w).
Definition set_spawned (s : list string) (w : World) : World :=
  mkWorld (cache w) (db w) (basePath w) (objects w) (faults w) s.

Definition empty_cache : inMemoryCache := mkCache ∅ ∅ ∅ ∅ ∅ ∅.
Definition empty_db : dbFiles := mkDb ∅ ∅ ∅ ∅ ∅.

(** A fresh process on an empty storage root: [NewJSONFileProvider] and
    [NewLocalStorage] on directories without files. *)
Definition new_world (base : string) (f : list (option error)) : World :=
  mkWorld empty_cache empty_db base ∅ f [].

(* ------------------------------------------------------------------ *)
(** ** The monad of calls                                              *)
(* ------------------------------------------------------------------ *)

Definition M (A : Type) : Type := World → res A * World.

Definition ret {A} (a : A) : M A := λ w, (Ok a, w).
Definition fail {A} (e : error) : M A := λ w, (Err e, w).
Definition bind {A B} (c : M A) (k : A → M B) : M B :=
  λ w, match c w with
       | (Ok a, w') => k a w'
       | (Err e, w') => (Err e, w')
       end.

(** [if err != nil { return fmt.Errorf(ctx + "%w", err) }]. *)
Definition wrap {A} (ctx : string) (c : M A) : M A :=
  λ w, match c w with
       | (Ok a, w') => (Ok a, w')
       | (Err e, w') => (Err (ctx ++ e), w')
       end.

(** Runs [c] and hands its result, error or not, to the caller. *)
Definition attempt {A} (c : M A) : M (res A) :=
  λ w, let '(r, w') := c w in (Ok r, w').

Definition gets {A} (f : World → A) : M A := λ w, (Ok (f w), w).
Definition modify (f : World → World) : M unit := λ w, (Ok tt, f w).

Notation "'run' x <- c ; k" := (bind c (λ x, k))
  (at level 10, x name, c at level 100, k at level 200,
   format "'[v' 'run'  x  <-  c ; '/' k ']'").
Notation "'exec' c ; k" := (bind c (λ _, k))
  (at level 10, c at level 100, k at level 200,
   format "'[v' 'exec'  c ; '/' k ']'").

(** A modifying system call: it fails when the head of [faults] says
    so, and has then changed nothing. *)
Definition syscall : M unit :=
  λ w, match faults w with
       | [] => (Ok tt, w)
       | None :: f => (Ok tt, set_faults f w)
       | Some e :: f => (Err e, set_faults f w)
       end.

Definition modify_cache (f : inMemoryCache → inMemoryCache) : M unit :=
  modify (λ w, set_cache (f (cache w)) w).
Definition modify_db (f : dbFiles → dbFiles) : M unit :=
  modify (λ w, set_db (f (db w)) w).

(* ------------------------------------------------------------------ *)
(** ** Blob store ([core/local_storage.go])                            *)
(* ------------------------------------------------------------------ *)

(** [p] is [dir] or lies below it. *)
Definition under (dir p : string) : bool :=
  String.eqb p dir
  || Strings.HasPrefix p (if String.eqb dir "/" then dir else dir ++ "/").

(** [os.RemoveAll(dir)]: removes [dir] and everything below it; a path
    that does not exist is no error. *)
Definition RemoveAll (dir : string) : M unit :=
  exec syscall;
  modify (λ w, set_objects
                 (filter (λ kv, under dir kv.1 = false) (objects w)) w).

Module LocalStorage.

Definition PutObject (objectName : string) (data : bytes) : M unit :=
  run base <- gets basePath;
  let path := Filepath.Join base objectName in
  exec syscall;    (* os.MkdirAll(filepath.Dir(path)) *)
  exec syscall;    (* ioutil.WriteFile(path, data) *)
  modify (λ w, set_objects (<[path := data]> (objects w)) w).

Definition GetObject (objectName : string) : M bytes :=
  run base <- gets basePath;
  let path := Filepath.Join base objectName in
  run o <- gets objects;
  match o !! path with
  | None => fail ("object not found: " ++ objectName)
  | Some data => ret data
  end.

Definition DeleteObjectsWithPrefix (prefix : string) : M unit :=
  run base <- gets basePath;
  let dirPath := Filepath.Join base prefix in
  if String.eqb (Strings.TrimSpace prefix) ""
     || negb (Strings.HasPrefix dirPath base)
  then fail "not allowed to delete root directory or use empty prefix"
  else RemoveAll dirPath.

End LocalStorage.

(* ------------------------------------------------------------------ *)
(** ** Metadata store ([core/jsonfile_provider.go])                    *)
(* ------------------------------------------------------------------ *)

Definition After (a b : Z) : bool := (b <? a)%Z.

(** [sort.Slice(s, func(i, j) { s[i].CreatedAt.After(s[j].CreatedAt) })]
    as the insertion sort Go runs on slices of at most 12 elements: each
    element moves left past the elements created strictly before it.  On
    longer slices Go runs pdqsort, which returns the same slice when the
    instants are pairwise distinct and some slice sorted newest first
    otherwise. *)
Fixpoint insert_desc (x : Version.t) (l : list Version.t) : list Version.t :=
  match l with
  | [] => [x]
  | y :: ys =>
      if After (Version.CreatedAt x) (Version.CreatedAt y) then x :: l
      else y :: insert_desc x ys
  end.

Definition sort_Slice (l : list Version.t) : list Version.t :=
  fold_left (λ acc x, insert_desc x acc) l [].

(** [fmt.Sprintf("%s/%s/%s", codebaseID, branch, version)]. *)
Definition version_key (codebaseID branch version : string) : string :=
  codebaseID ++ "/" ++ branch ++ "/" ++ version.

Inductive dbFile : Type :=
| codebases_file | versions_file | file_indexes_file | version_mapping_file.

(** [p.save(filename, collection)]: one [ioutil.WriteFile] of the whole
    collection as it is in memory. *)
Definition save (f : dbFile) : M unit :=
  exec syscall;
  modify (λ w,
    let c := cache w in
    let d := db w in
    set_db
      match f with
      | codebases_file =>
          mkDb (Codebases c) (versions_json d) (file_indexes_json d)
               (version_mapping_json d) (history_cache d)
      | versions_file =>
          mkDb (codebases_json d) (Versions c) (file_indexes_json d)
               (version_mapping_json d) (history_cache d)
      | file_indexes_file =>
          mkDb (codebases_json d) (versions_json d) (FileIndexes c)
               (version_mapping_json d) (history_cache d)
      | version_mapping_file =>
          mkDb (codebases_json d) (versions_json d) (file_indexes_json d)
               (VersionMapping c) (history_cache d)
      end w).

Definition set_history_cache (h : gmap string bytes) (d : dbFiles) : dbFiles :=
  mkDb (codebases_json d) (versions_json d) (file_indexes_json d)
       (version_mapping_json d) h.

Module JSONFileProvider.

Definition CreateCodebase (codebase : Codebase.t) : M unit :=
  run c <- gets cache;
  match Codebases c !! Codebase.ID codebase with
  | Some _ => fail ("codebase " ++ Codebase.ID codebase ++ " already exists")
  | None =>
      exec modify_cache (λ c,
        mkCache (<[Codebase.ID codebase := codebase]> (Codebases c))
                (Versions c) (FileIndexes c) (VersionMapping c)
                (versionsByCodebase c) (versionIDByBranchAndName c));
      save codebases_file
  end.

Definition GetCodebaseByID (id : string) : M Codebase.t :=
  run c <- gets cache;
  match Codebases c !! id with
  | None => fail ("codebase " ++ id ++ " not found")
  | Some codebase => ret codebase
  end.

(** The body of the loop of [DeleteCodebaseByID] for one version. *)
Definition delete_version (c : inMemoryCache) (v : Version.t) : inMemoryCache :=
  mkCache (Codebases c)
          (delete (Version.ID v) (Versions c))
          (delete (Version.TreeID v) (FileIndexes c))
          (delete (Version.ID v) (VersionMapping c))
          (versionsByCodebase c)
          (delete (version_key (Version.CodebaseID v) (Version.Branch v)
                               (Version.Version v))
                  (versionIDByBranchAndName c)).

Definition delete_codebase (id : string) (c : inMemoryCache) : inMemoryCache :=
  let c0 := mkCache (delete id (Codebases c)) (Versions c) (FileIndexes c)
                    (VersionMapping c) (versionsByCodebase c)
                    (versionIDByBranchAndName c) in
  let relatedVersions := default [] (versionsByCodebase c !! id) in
  let c1 := fold_left delete_version relatedVersions c0 in
  mkCache (Codebases c1) (Versions c1) (FileIndexes c1) (VersionMapping c1)
          (delete id (versionsByCodebase c1)) (versionIDByBranchAndName c1).

Definition DeleteCodebaseByID (id : string) : M unit :=
  exec modify_cache (delete_codebase id);
  exec save codebases_file;
  exec save versions_file;
  exec save file_indexes_file;
  exec save version_mapping_file;
  (* os.Remove of the history cache file; a missing file is no error *)
  run d <- gets db;
  match history_cache d !! id with
  | None => ret tt
  | Some _ =>
      exec syscall;
      modify_db (λ d, set_history_cache (delete id (history_cache d)) d)
  end.

Definition UpdateCodebaseTimestamp (id : string) (t : Z) : M unit :=
  run c <- gets cache;
  match Codebases c !! id with
  | None => fail ("codebase " ++ id ++ " not found")
  | Some codebase =>
      exec modify_cache (λ c,
        mkCache (<[id := Codebase.with_UpdatedAt codebase t]> (Codebases c))
                (Versions c) (FileIndexes c) (VersionMapping c)
                (versionsByCodebase c) (versionIDByBranchAndName c));
      save codebases_file
  end.

Definition CreateVersion (version : Version.t) (files : list File.t) : M unit :=
  run c <- gets cache;
  match Versions c !! Version.ID version with
  | Some _ => fail ("version " ++ Version.ID version ++ " already exists")
  | None =>
      exec modify_cache (λ c,
        let cid := Version.CodebaseID version in
        mkCache (Codebases c)
                (<[Version.ID version := version]> (Versions c))
                (<[Version.TreeID version := files]> (FileIndexes c))
                (VersionMapping c)
                (<[cid := sort_Slice
                            (default [] (versionsByCodebase c !! cid)
                               ++ [version])]> (versionsByCodebase c))
                (<[version_key cid (Version.Branch version)
                               (Version.Version version)
                   := Version.ID version]> (versionIDByBranchAndName c)));
      exec save versions_file;
      save file_indexes_file
  end.

Definition GetVersion (codebaseID branch version : string) : M Version.t :=
  run c <- gets cache;
  match versionIDByBranchAndName c !! version_key codebaseID branch version with
  | None => fail ("version " ++ branch ++ "/" ++ version ++ " not found")
  | Some versionID =>
      match Versions c !! versionID with
      | None =>
          fail ("data inconsistency: version ID " ++ versionID ++ " not found")
      | Some v => ret v
      end
  end.

Definition GetFileIndexesByTreeID (treeID : string) : M (list File.t) :=
  run c <- gets cache;
  match FileIndexes c !! treeID with
  | None => fail ("tree " ++ treeID ++ " not found")
  | Some files => ret files
  end.

(** The loop of [FindLatestVersionInBranch]: the first version of the
    slice on [branch] whose id is not [excludeVersionID]. *)
Definition on_branch (branch excludeVersionID : string) (v : Version.t) : bool :=
  String.eqb (Version.Branch v) branch
  && negb (String.eqb (Version.ID v) excludeVersionID).

Definition FindLatestVersionInBranch (codebaseID branch excludeVersionID : string)
  : M (option Version.t) :=
  run c <- gets cache;
  match versionsByCodebase c !! codebaseID with
  | None => ret None
  | Some versions => ret (List.find (on_branch branch excludeVersionID) versions)
  end.

Definition IsNewBranch (codebaseID branch excludeVersionID : string) : M bool :=
  run c <- gets cache;
  match versionsByCodebase c !! codebaseID with
  | None => ret true
  | Some versions =>
      let count :=
        length (List.filter (on_branch branch excludeVersionID) versions) in
      ret (Nat.eqb count 0)
  end.

Definition FindLatestVersionInMain (codebaseID : string) : M (option Version.t) :=
  FindLatestVersionInBranch codebaseID "main" "".

(** [linkID] is the value of [uuid.NewString()]. *)
Definition CreateVersionLink (linkID : string)
  (codebaseID childID parentID branch : string) (linkType : LinkageType)
  : M unit :=
  run c <- gets cache;
  match VersionMapping c !! childID with
  | Some _ => ret tt
  | None =>
      exec modify_cache (λ c,
        mkCache (Codebases c) (Versions c) (FileIndexes c)
                (<[childID := versionMappingRecord.mk linkID codebaseID branch
                                childID parentID linkType]> (VersionMapping c))
                (versionsByCodebase c) (versionIDByBranchAndName c));
      save version_mapping_file
  end.

Definition node_of (v : Version.t) : VersionNode.t :=
  VersionNode.mk (Version.ID v) (Version.Version v) (Version.Branch v)
                 (Version.Message v) (Version.CreatedAt v) (Version.Stats v).

Definition GetAllVersionsForMap (codebaseID : string) : M (list VersionNode.t) :=
  run c <- gets cache;
  match versionsByCodebase c !! codebaseID with
  | None => ret []
  | Some versions => ret (map node_of versions)
  end.

(** A [for k, v := range m] over a Go map visits the entries in an order
    that Go leaves unspecified and randomises from one loop to the next.
    [range_order iter m] is the order of one such loop: the keys of [m]
    that [iter] names, in the order of [iter], and then the others.
    Every enumeration of [m] is [range_order iter m] for some [iter]. *)
Definition range_order {V} (iter : list string) (m : gmap string V)
  : list (string * V) :=
  omap (λ k, (λ v, (k, v)) <$> m !! k) (remove_dups iter)
  ++ filter (λ kv, kv.1 ∉ iter) (map_to_list m).

Definition edge_of (m : versionMappingRecord.t) : VersionEdge.t :=
  VersionEdge.mk (versionMappingRecord.ParentVersionID m)
                 (versionMappingRecord.ChildVersionID m)
                 (versionMappingRecord.LinkageType_ m).

(** [iter] fixes the order of this call's loop over [VersionMapping]. *)
Definition GetAllVersionEdgesForMap (iter : list string) (codebaseID : string)
  : M (list VersionEdge.t) :=
  run c <- gets cache;
  ret (map edge_of
         (List.filter
            (λ m, String.eqb (versionMappingRecord.CodebaseID m) codebaseID)
            (map snd (range_order iter (VersionMapping c))))).

Definition branch_heads (versions : list Version.t) : gmap string string :=
  fold_left
    (λ heads v,
       match heads !! Version.Branch v with
       | Some _ => heads
       | None => <[Version.Branch v := Version.ID v]> heads
       end)
    versions ∅.

Definition GetBranchHeadsForMap (codebaseID : string) : M (gmap string string) :=
  run c <- gets cache;
  match versionsByCodebase c !! codebaseID with
  | None => ret ∅
  | Some versions => ret (branch_heads versions)
  end.

(** [os.Stat] decides whether the cache file exists; reading a file
    that exists succeeds. *)
Definition GetHistoryCache (codebaseID : string) : M bytes :=
  run d <- gets db;
  match history_cache d !! codebaseID with
  | None => fail "cache not found"
  | Some data => ret data
  end.

Definition UpdateHistoryCache (codebaseID : string) (data : bytes) : M unit :=
  exec syscall;    (* os.MkdirAll(dir) *)
  exec syscall;    (* ioutil.WriteFile(path, data) *)
  modify_db (λ d, set_history_cache (<[codebaseID := data]> (history_cache d)) d).

End JSONFileProvider.

(* ------------------------------------------------------------------ *)
(** ** [json.Marshal] of the version graph                             *)
(* ------------------------------------------------------------------ *)

(** [encoding/json] writes the fields of a struct in the order of their
    declaration under their [json] tags, a slice as an array in the
    order of its elements ([null] for a nil slice), and a map as an
    object with its keys sorted.  Strings are quoted with the quote and
    the backslash escaped.  An instant and a float are written by
    stand-ins that are functions of the value, as Go's are: the decimal
    nanoseconds for [time.Time], the two operands for the quotient. *)
Module Json.

Definition quote_char : ascii := ascii_of_nat 34.
Definition backslash : ascii := ascii_of_nat 92.
Definition quote : string := String quote_char EmptyString.

Fixpoint escape (s : string) : string :=
  match s with
  | EmptyString => EmptyString
  | String c r =>
      if Ascii.eqb c quote_char || Ascii.eqb c backslash
      then String backslash (String c (escape r))
      else String c (escape r)
  end.

Definition str (s : string) : string := quote ++ escape s ++ quote.
Definition int (z : Z) : string := pretty z.
Definition time (t : Z) : string := str (pretty t).
Definition float (q : float_quot) : string :=
  match q with
  | FZero => "0"
  | FDiv n d => pretty n ++ "/" ++ pretty d
  end.

Definition array (l : list string) : string :=
  match l with
  | [] => "null"
  | _ => "[" ++ String.concat "," l ++ "]"
  end.

Definition object (fields : list (string * string)) : string :=
  "{" ++ String.concat "," (map (λ kv, str kv.1 ++ ":" ++ kv.2) fields) ++ "}".

Definition stats (s : VersionStats.t) : string :=
  object [("total_files", int (VersionStats.TotalFiles s));
          ("total_size", int (VersionStats.TotalSize s));
          ("compressed_size", int (VersionStats.CompressedSize s));
          ("compression_ratio", float (VersionStats.CompressionRatio s))].

Definition node (n : VersionNode.t) : string :=
  object [("id", str (VersionNode.ID n));
          ("version", str (VersionNode.Version n));
          ("branch", str (VersionNode.Branch n));
          ("message", str (VersionNode.Message n));
          ("created_at", time (VersionNode.CreatedAt n));
          ("stats", stats (VersionNode.Stats n))].

Definition edge (e : VersionEdge.t) : string :=
  object [("from", str (VersionEdge.From e));
          ("to", str (VersionEdge.To e));
          ("linkage_type", str (LinkageType_string (VersionEdge.LinkageType_ e)))].

Definition key_le (a b : string * string) : Prop := String.le a.1 b.1.

Definition refs (r : gmap string string) : string :=
  object (map (λ kv, (kv.1, str kv.2)) (merge_sort key_le (map_to_list r))).

Definition Marshal (m : VersionMapResponse.t) : bytes :=
  list_byte_of_string
    (object [("codebase_id", str (VersionMapResponse.CodebaseID m));
             ("nodes", array (map node (VersionMapResponse.Nodes m)));
             ("edges", array (map edge (VersionMapResponse.Edges m)));
             ("refs", refs (VersionMapResponse.Refs m))]).

End Json.

(* ------------------------------------------------------------------ *)
(** ** Lineage engine ([calculate]: [HistoryService])                  *)
(* ------------------------------------------------------------------ *)

Record VersionIdentifier : Type := mkVersionIdentifier {
  vi_Branch : string;
  vi_Version : string }.

Module HistoryService.
Import JSONFileProvider.

(** [iter]: the order of the loop over the links in this call. *)
Definition RebuildHistoryCache (iter : list string) (codebaseID : string)
  : M VersionMapResponse.t :=
  run nodes <- wrap "node query failed: " (GetAllVersionsForMap codebaseID);
  run edges <- wrap "edge query failed: "
                 (GetAllVersionEdgesForMap iter codebaseID);
  run refs <- wrap "reference query failed: " (GetBranchHeadsForMap codebaseID);
  let historyMap := VersionMapResponse.mk codebaseID nodes edges refs in
  let historyJSON := Json.Marshal historyMap in
  exec wrap "cache update failed: " (UpdateHistoryCache codebaseID historyJSON);
  ret historyMap.

Definition GetVersionMap (iter : list string) (codebaseID : string) : M bytes :=
  run r <- attempt (GetHistoryCache codebaseID);
  match r with
  | Ok historyJSON => ret historyJSON
  | Err _ =>
      exec wrap "failed to build history cache: "
             (RebuildHistoryCache iter codebaseID);
      wrap "failed to read newly built cache: " (GetHistoryCache codebaseID)
  end.

(** The statement [go s.RebuildHistoryCache(codebaseID)]: the goroutine is
    recorded and the caller goes on. *)
Definition go_RebuildHistoryCache (codebaseID : string) : M unit :=
  modify (λ w, set_spawned (spawned w ++ [codebaseID]) w).

Definition CreateVersionLinkWithType (linkID : string) (codebaseID : string)
  (child parent : VersionIdentifier) (linkageType : LinkageType) : M unit :=
  run childVersion <-
    wrap ("child version '" ++ vi_Version child ++ "' (branch: "
            ++ vi_Branch child ++ ") not found: ")
         (GetVersion codebaseID (vi_Branch child) (vi_Version child));
  run parentVersion <-
    wrap ("parent version '" ++ vi_Version parent ++ "' (branch: "
            ++ vi_Branch parent ++ ") not found: ")
         (GetVersion codebaseID (vi_Branch parent) (vi_Version parent));
  exec wrap "version link insertion failed: "
         (CreateVersionLink linkID codebaseID (Version.ID childVersion)
            (Version.ID parentVersion) (vi_Branch child) linkageType);
  exec go_RebuildHistoryCache codebaseID;
  ret tt.

(** The manual entry point ([POST /codebases/map/link]). *)
Definition CreateVersionLink (linkID : string) (codebaseID : string)
  (child parent : VersionIdentifier) : M unit :=
  CreateVersionLinkWithType linkID codebaseID child parent LinkageTypeSequential.

Definition AutoCreateSequentialLink (linkID : string)
  (codebaseID branch currentVersionID : string) : M unit :=
  run parentVersion <-
    wrap "failed to find parent version: "
         (FindLatestVersionInBranch codebaseID branch currentVersionID);
  match parentVersion with
  | None => ret tt
  | Some p =>
      wrap "failed to create sequential lineage relationship: "
           (JSONFileProvider.CreateVersionLink linkID codebaseID
              currentVersionID (Version.ID p) branch LinkageTypeSequential)
  end.

Definition AutoCreateBranchFromLink (linkID : string)
  (codebaseID newVersionID childBranch : string) (branchFrom : VersionIdentifier)
  : M unit :=
  run parentVersion <-
    wrap ("source version " ++ vi_Branch branchFrom ++ "/"
            ++ vi_Version branchFrom ++ " not found: ")
         (GetVersion codebaseID (vi_Branch branchFrom) (vi_Version branchFrom));
  wrap "failed to create branch lineage relationship: "
       (JSONFileProvider.CreateVersionLink linkID codebaseID newVersionID
          (Version.ID parentVersion) childBranch LinkageTypeBranchFrom).

Definition isNewBranch (codebaseID branch currentVersionID : string) : M bool :=
  IsNewBranch codebaseID branch currentVersionID.

Definition AutoCreateLinkForNewBranch (linkID : string)
  (codebaseID newVersionID childBranch : string) : M unit :=
  run parentVersion <-
    wrap "failed to find parent version in main branch: "
         (FindLatestVersionInMain codebaseID);
  match parentVersion with
  | None => ret tt
  | Some p =>
      wrap "failed to create 'branch_from' link for new branch: "
           (JSONFileProvider.CreateVersionLink linkID codebaseID newVersionID
              (Version.ID p) childBranch LinkageTypeBranchFrom)
  end.

(** A goroutine of [spawned] runs: its result is dropped. *)
Definition run_spawned (iter : list string) : M unit :=
  run s <- gets spawned;
  match s with
  | [] => ret tt
  | codebaseID :: rest =>
      exec modify (set_spawned rest);
      exec attempt (RebuildHistoryCache iter codebaseID);
      ret tt
  end.

End HistoryService.

(* ------------------------------------------------------------------ *)
(** ** Snapshot pipeline ([calculate/codebase.go]) and services        *)
(* ------------------------------------------------------------------ *)

(** What [header.Open()] and [io.ReadAll] give for an uploaded file. *)
Inductive FileHeader : Type :=
| Upload (data : bytes)
| OpenFails (e : error)
| ReadFails (e : error).

Definition imageExts : list string :=
  [".jpg"; ".jpeg"; ".png"; ".gif"; ".webp"; ".bmp"; ".tiff"].

Definition isImage (relativePath : string) : bool :=
  let ext := Strings.ToLower (Filepath.Ext relativePath) in
  existsb (String.eqb ext) imageExts.

Definition len64 (data : bytes) : Z := Z.of_nat (length data).

(** The values of [uuid.NewString()] and [time.Now()] and the order of
    the loop over the links that one request meets. *)
Module Rand.
Record t : Type := mk {
  versionID : string;
  treeID : string;
  linkID : string;
  createdAt : Z;
  generatedAt : Z;
  updatedAt : Z;
  respondedAt : Z;
  iter : list string }.
End Rand.

Module SnapshotResponse.
Record t : Type := mk {
  Codebase_ : Codebase.t;
  Version_ : Version.t;
  FileTree_ : FileTree.t;
  (* the JSON that was parsed into [VersionMap]; [None]: the zero value *)
  VersionMap : option bytes }.
End SnapshotResponse.

(** Modelled from the spec: [compressZlib] and [decompressZlib] of package
    [utils] are not among the sources; [utils.CompressData] and
    [utils.DecompressData] only call them.  The spec has them as the
    zlib-class compression of content before storage and its inverse,
    and they are parameters here, as is the SHA-256 of Go's
    [crypto/sha256] behind [utils.CalculateHash], the hexadecimal digest
    of the content. *)
Class Utils : Type := {
  CalculateHash : bytes → string;
  compressZlib : bytes → res bytes;
  decompressZlib : bytes → res bytes }.

Section Pipeline.
Context `{!Utils}.

Definition CompressData (data : bytes) : res bytes := compressZlib data.
Definition DecompressData (compressed : bytes) : res bytes :=
  decompressZlib compressed.

Definition lift_res {A} (r : res A) : M A := λ w, (r, w).

Definition processFile (relativePath : string) (header : FileHeader)
  (codebaseName : string) : M File.t :=
  match header with
  | OpenFails e =>
      fail ("打开上传的文件流失败 " ++ relativePath ++ ": " ++ e)
  | ReadFails e =>
      fail ("读取上传的文件流失败 " ++ relativePath ++ ": " ++ e)
  | Upload data =>
      let originalSize := len64 data in
      run up <-
        (if isImage relativePath then ret (data, originalSize, "image")
         else
           run compressedData <-
             wrap ("压缩文件失败 " ++ relativePath ++ ": ")
                  (lift_res (CompressData data));
           ret (compressedData, len64 compressedData, "other"));
      let '(contentToUpload, compressedSize, fileType) := up in
      let hash := CalculateHash data in
      let storageKey := codebaseName ++ "/" ++ hash in
      exec wrap ("存储上传失败 " ++ relativePath ++ ": ")
             (LocalStorage.PutObject storageKey contentToUpload);
      ret (File.mk (Filepath.ToSlash relativePath) hash originalSize
                   compressedSize storageKey fileType)
  end.

(** What the goroutines of [processFiles] have gathered: the files and
    the sums under the mutex, and the errors sent to [errChan]. *)
Record gathered : Type := mkGathered {
  processedFiles : list File.t;
  stats : VersionStats.t;
  errChan : list error }.

Definition add_file (g : gathered) (file : File.t) : gathered :=
  let s := stats g in
  mkGathered (processedFiles g ++ [file])
    (VersionStats.mk
       (wrap64 (VersionStats.TotalFiles s + 1))
       (wrap64 (VersionStats.TotalSize s + File.Size file))
       (wrap64 (VersionStats.CompressedSize s + File.CompressedSize file))
       (VersionStats.CompressionRatio s))
    (errChan g).

Definition add_error (g : gathered) (e : error) : gathered :=
  mkGathered (processedFiles g) (stats g) (errChan g ++ [e]).

(** The goroutines, one for each entry of [files].  They share the blob
    store, the accumulators and the channel only; [files] lists the
    entries of the Go map in the order in which their goroutines take
    effect.  Every goroutine runs, whatever the others return. *)
Fixpoint run_units (files : list (string * FileHeader)) (codebaseName : string)
  (g : gathered) : M gathered :=
  match files with
  | [] => ret g
  | (relPath, header) :: rest =>
      run r <- attempt (processFile relPath header codebaseName);
      run_units rest codebaseName
        match r with
        | Ok file => add_file g file
        | Err e => add_error g e
        end
  end.

Definition processFiles (files : list (string * FileHeader))
  (codebaseName : string) : M (list File.t * VersionStats.t) :=
  run g <- run_units files codebaseName
             (mkGathered [] VersionStats.zero []);
  match errChan g with
  | err :: _ => fail err
  | [] =>
      let s := stats g in
      let s' :=
        if (0 <? VersionStats.TotalSize s)%Z
        then VersionStats.mk (VersionStats.TotalFiles s)
               (VersionStats.TotalSize s) (VersionStats.CompressedSize s)
               (FDiv (VersionStats.CompressedSize s) (VersionStats.TotalSize s))
        else s in
      ret (processedFiles g, s')
  end.

(** [CreateSnapshot] returns the version and the file tree as JSON and
    [ProcessSnapshot] parses them back; the two records stand for their
    JSON here. *)
Definition CreateSnapshot (rnd : Rand.t) (files : list (string * FileHeader))
  (codebaseName branch version message : string)
  : M (Version.t * FileTree.t) :=
  let versionID := Rand.versionID rnd in
  let treeID := Rand.treeID rnd in
  run ps <- processFiles files codebaseName;
  let versionData :=
    Version.mk versionID "" version branch treeID message
               (Rand.createdAt rnd) ps.2 in
  let fileTree := FileTree.mk treeID versionID ps.1 (Rand.generatedAt rnd) in
  ret (versionData, fileTree).

End Pipeline.

Module UploadService.
Import JSONFileProvider.
Section WithUtils.
Context `{!Utils}.

Definition persistMetadata (now : Z) (codebase : Codebase.t)
  (version : Version.t) (fileTree : FileTree.t) : M unit :=
  exec wrap "failed to update codebase: "
         (UpdateCodebaseTimestamp (Codebase.ID codebase) now);
  wrap "failed to insert version and file indexes: "
       (CreateVersion version (FileTree.Files fileTree)).

Definition establishLinkage (linkID : string)
  (codebaseID versionID branch : string) (branchFrom : option VersionIdentifier)
  : M unit :=
  match branchFrom with
  | Some bf =>
      HistoryService.AutoCreateBranchFromLink linkID codebaseID versionID
        branch bf
  | None =>
      run isNew <-
        wrap "failed to check if new branch: "
             (HistoryService.isNewBranch codebaseID branch versionID);
      if isNew : bool
      then HistoryService.AutoCreateLinkForNewBranch linkID codebaseID
             versionID branch
      else HistoryService.AutoCreateSequentialLink linkID codebaseID branch
             versionID
  end.

Definition ProcessSnapshot (rnd : Rand.t)
  (codebaseID ver branch message : string)
  (files : list (string * FileHeader)) (branchFrom : option VersionIdentifier)
  (autoLinkage : bool) : M SnapshotResponse.t :=
  (* 1. Verify codebase exists *)
  run codebase <-
    wrap ("invalid codebase_id: " ++ codebaseID ++ ", error: ")
         (GetCodebaseByID codebaseID);
  let codebaseInfo := codebase in
  (* 2. Create snapshot *)
  run vt <- CreateSnapshot rnd files (Codebase.Name codebaseInfo) branch ver
              message;
  (* 4. Associate CodebaseID to new version *)
  let version := Version.with_CodebaseID vt.1 codebaseID in
  let fileTree := vt.2 in
  (* 5. Persist metadata *)
  exec persistMetadata (Rand.updatedAt rnd) codebase version fileTree;
  (* 6. Automatically establish lineage relationships (if enabled) *)
  exec (if autoLinkage
        then exec attempt (establishLinkage (Rand.linkID rnd) codebaseID
                             (Version.ID version) branch branchFrom);
             ret tt
        else ret tt);
  (* 7. Synchronously get updated version graph *)
  run h <- attempt (HistoryService.GetVersionMap (Rand.iter rnd) codebaseID);
  ret (SnapshotResponse.mk
         (Codebase.with_UpdatedAt codebaseInfo (Rand.respondedAt rnd))
         version fileTree
         match h with Ok historyJSON => Some historyJSON | Err _ => None end).

End WithUtils.
End UploadService.

Module DeleteService.
Import JSONFileProvider.

Definition DeleteCodebase (codebaseID : string) : M unit :=
  (* 1. Get codebase information from metadata *)
  run codebase <-
    wrap ("codebase with ID " ++ codebaseID ++ " not found: ")
         (GetCodebaseByID codebaseID);
  (* 2. Delete all related files from object storage *)
  let prefix := Codebase.Name codebase ++ "/" in
  exec wrap "failed to delete files from storage: "
         (LocalStorage.DeleteObjectsWithPrefix prefix);
  (* 3. Delete codebase record from metadata *)
  wrap "metadata deletion failed: " (DeleteCodebaseByID codebaseID).

End DeleteService.

Module ArchiveService.
Import JSONFileProvider.

Definition GetCodebaseName (codebaseID : string) : M string :=
  run codebase <- GetCodebaseByID codebaseID;
  ret (Codebase.Name codebase).

Definition getFilesForVersion (codebaseID branch version : string)
  : M (list File.t) :=
  run v <- wrap "specified version not found: "
             (GetVersion codebaseID branch version);
  wrap "file index query failed: " (GetFileIndexesByTreeID (Version.TreeID v)).

Section WithUtils.
Context `{!Utils}.

(** Steps 3 and 4 of [GetSingleFile], which the goroutine of
    [reconstructFiles] carries out for each file as well: download the
    blob and decompress it unless the file is an image. *)
Definition fetch (ctx_get ctx_dec : string) (f : File.t) : M bytes :=
  run content <- wrap ctx_get (LocalStorage.GetObject (File.StorageKey f));
  if String.eqb (File.Type_ f) "image" then ret content
  else wrap ctx_dec (lift_res (DecompressData content)).

Definition GetSingleFile (codebaseID branch version filePath : string)
  : M (bytes * string) :=
  (* 1. Get version information *)
  run v <- wrap "specified version not found: "
             (GetVersion codebaseID branch version);
  (* 2. Find specific file from file index *)
  run files <-
    wrap ("file index for tree_id " ++ Version.TreeID v ++ " not found: ")
         (GetFileIndexesByTreeID (Version.TreeID v));
  match List.find (λ f, String.eqb (File.Path f) filePath) files with
  | None =>
      fail ("file '" ++ filePath ++ "' not found in version " ++ version)
  | Some targetFile =>
      run content <-
        fetch "file download failed: " "file decompression failed: " targetFile;
      (* Return file content and original filename *)
      ret (content, Filepath.Base filePath)
  end.

(** The goroutine of [reconstructFiles] for one file: the content is
    fetched and written below the reconstruction directory. *)
Definition reconstruct_unit (f : File.t) : M bytes :=
  run content <-
    fetch ("download " ++ File.StorageKey f ++ " failed: ")
          ("decompression " ++ File.Path f ++ " failed: ") f;
  exec wrap ("directory creation for " ++ File.Path f ++ " failed: ") syscall;
  exec wrap ("file write " ++ File.Path f ++ " failed: ") syscall;
  ret content.

(** [reconstructFiles]: the files written below the reconstruction
    directory, by cleaned relative path, and the errors sent to the
    channel; [files] is in the order in which the goroutines take
    effect. *)
Fixpoint reconstruct_units (files : list File.t)
  (dir : gmap string bytes) (errs : list error)
  : M (gmap string bytes * list error) :=
  match files with
  | [] => ret (dir, errs)
  | f :: rest =>
      run r <- attempt (reconstruct_unit f);
      match r with
      | Ok content =>
          reconstruct_units rest
            (<[Filepath.Clean (File.Path f) := content]> dir) errs
      | Err e => reconstruct_units rest dir (errs ++ [e])
      end
  end.

Definition reconstructFiles (files : list File.t) : M (gmap string bytes) :=
  run de <- reconstruct_units files ∅ [];
  match de.2 with
  | e :: _ => fail e
  | [] => ret de.1
  end.

End WithUtils.
End ArchiveService.

(** [DeleteHandler.DeleteCodebase] of package [api], from the point where
    [ShouldBindJSON] has accepted the request: the status of the response
    and the text of its [error] or [message] field. *)
Module DeleteHandler.

Definition DeleteCodebase (codebaseID : string) : M (Z * string) :=
  run r <- attempt (DeleteService.DeleteCodebase codebaseID);
  match r with
  | Err err =>
      (* Distinguish between "not found" and "other internal errors" *)
      if Strings.Contains err "not found" || Strings.Contains err "找不到"
      then ret (404%Z, err)
      else ret (500%Z,
                "Internal error occurred while deleting codebase: " ++ err)
  | Ok _ =>
      ret (200%Z,
           "Codebase " ++ codebaseID ++ " has been successfully deleted")
  end.

End DeleteHandler.

Module InitService.

Definition InitializeCodebase (id : string) (now : Z)
  (name description branch : string) : M Codebase.t :=
  let codebase := Codebase.mk id name description branch now now in
  exec wrap "data storage error: " (JSONFileProvider.CreateCodebase codebase);
  ret codebase.

End InitService.

(* ------------------------------------------------------------------ *)
(** ** A concrete package [utils] for examples                         *)
(* ------------------------------------------------------------------ *)

(** [hex.EncodeToString]. *)
Definition hex_digit (n : N) : ascii :=
  ascii_of_N (if (n <? 10)%N then 48 + n else 87 + n).

Definition EncodeToString (data : bytes) : string :=
  string_of_list_ascii
    (flat_map (λ b, let n := Byte.to_N b in
                    [hex_digit (n / 16); hex_digit (n mod 16)]) data).

(** Modelled from the spec: the package for closed examples, since
    [compressZlib] and [decompressZlib] are not among the sources.  The
    spec asks of them that decompression gives back what was compressed;
    here a stream is the two bytes of a zlib header followed by the
    content as it is, and the digest of a content is its hexadecimal
    form. *)
Definition example_utils : Utils := {|
  CalculateHash := EncodeToString;
  compressZlib := λ data, Ok (Byte.x78 :: Byte.x01 :: data);
  decompressZlib := λ compressed,
    match compressed with
    | Byte.x78 :: Byte.x01 :: data => Ok data
    | _ => Err "zlib: invalid header"
    end |}.

(* ------------------------------------------------------------------ *)
(** ** Runs of the process                                             *)
(* ------------------------------------------------------------------ *)

(** [rebuildIndexes]: one loop over [Versions], then a sort of each
    slice. *)
Definition rebuildIndexes (iter : list string) (vs : gmap string Version.t)
  : gmap string (list Version.t) * gmap string string :=
  let visited := map snd (JSONFileProvider.range_order iter vs) in
  let byCodebase :=
    fold_left
      (λ (m : gmap string (list Version.t)) v,
         <[Version.CodebaseID v
           := (default [] (m !! Version.CodebaseID v) ++ [v])%list]> m)
      visited ∅ in
  let byName :=
    fold_left
      (λ (m : gmap string string) v,
         <[version_key (Version.CodebaseID v) (Version.Branch v)
                       (Version.Version v) := Version.ID v]> m)
      visited ∅ in
  (sort_Slice <$> byCodebase, byName).

(** [NewJSONFileProvider] on the files of [db], as a restart of the
    process runs it: the maps are loaded and the indexes rebuilt; the
    goroutines of the old process are gone. *)
Definition NewJSONFileProvider (iter : list string) : M unit :=
  modify (λ w,
    let d := db w in
    let ix := rebuildIndexes iter (versions_json d) in
    set_spawned []
      (set_cache
         (mkCache (codebases_json d) (versions_json d) (file_indexes_json d)
                  (version_mapping_json d) ix.1 ix.2) w)).

(** A method of the [DataProvider] or [Storage] interface called by
    itself. *)
Inductive store_call : Type :=
| CreateCodebase_ (codebase : Codebase.t)
| DeleteCodebaseByID_ (id : string)
| UpdateCodebaseTimestamp_ (id : string) (t : Z)
| CreateVersion_ (version : Version.t) (files : list File.t)
| CreateVersionLink_ (linkID codebaseID childID parentID branch : string)
    (linkType : LinkageType)
| UpdateHistoryCache_ (codebaseID : string) (data : bytes)
| PutObject_ (objectName : string) (data : bytes)
| DeleteObjectsWithPrefix_ (prefix : string).

(** What can happen to the state: a request to an entry point of the
    API, a goroutine that runs, a call of a store method, a change of
    the outcomes of system calls to come, a restart. *)
Inductive event : Type :=
| Initialize (id : string) (now : Z) (name description branch : string)
| Snapshot (rnd : Rand.t) (codebaseID ver branch message : string)
    (files : list (string * FileHeader)) (branchFrom : option VersionIdentifier)
    (autoLinkage : bool)
| GetMap (iter : list string) (codebaseID : string)
| Link (linkID codebaseID : string) (child parent : VersionIdentifier)
| Delete (codebaseID : string)
| GetFile (codebaseID branch version filePath : string)
| Goroutine (iter : list string)
| Store (c : store_call)
| Faults (f : list (option error))
| Restart (iter : list string).

Definition discard {A} (c : M A) : World → World := λ w, (c w).2.

Definition do_store_call (c : store_call) : World → World :=
  match c with
  | CreateCodebase_ cb => discard (JSONFileProvider.CreateCodebase cb)
  | DeleteCodebaseByID_ id => discard (JSONFileProvider.DeleteCodebaseByID id)
  | UpdateCodebaseTimestamp_ id t =>
      discard (JSONFileProvider.UpdateCodebaseTimestamp id t)
  | CreateVersion_ v files => discard (JSONFileProvider.CreateVersion v files)
  | CreateVersionLink_ l cid child parent branch ty =>
      discard (JSONFileProvider.CreateVersionLink l cid child parent branch ty)
  | UpdateHistoryCache_ cid data =>
      discard (JSONFileProvider.UpdateHistoryCache cid data)
  | PutObject_ k data => discard (LocalStorage.PutObject k data)
  | DeleteObjectsWithPrefix_ p => discard (LocalStorage.DeleteObjectsWithPrefix p)
  end.


Section Runs.
Context `{!Utils}.

Definition do_event (e : event) : World → World :=
  match e with
  | Initialize id now name description branch =>
      discard (InitService.InitializeCodebase id now name description branch)
  | Snapshot rnd cid ver branch message files bf auto =>
      discard (UploadService.ProcessSnapshot rnd cid ver branch message files
                 bf auto)
  | GetMap iter cid => discard (HistoryService.GetVersionMap iter cid)
  | Link l cid child parent =>
      discard (HistoryService.CreateVersionLink l cid child parent)
  | Delete cid => discard (DeleteService.DeleteCodebase cid)
  | GetFile cid branch version path =>
      discard (ArchiveService.GetSingleFile cid branch version path)
  | Goroutine iter => discard (HistoryService.run_spawned iter)
  | Store c => do_store_call c
  | Faults f => set_faults f
  | Restart iter => discard (NewJSONFileProvider iter)
  end.

(** The states the process can be in, from an empty storage root. *)
Inductive reachable : World → Prop :=
| reachable_new base f : reachable (new_world base f)
| reachable_event w e : reachable w → reachable (do_event e w).

(** The results of the goroutines of [processFiles], in the order in
    which they take effect from [w]. *)
Fixpoint unit_results (files : list (string * FileHeader))
  (codebaseName : string) (w : World) : list (res File.t) :=
  match files with
  | [] => []
  | (relPath, header) :: rest =>
      let '(r, w') := processFile relPath header codebaseName w in
      r :: unit_results rest codebaseName w'
  end.

End Runs.

Definition errors_of {A} (l : list (res A)) : list error :=
  omap (λ r, match r with Err e => Some e | Ok _ => None end) l.

Definition oks_of {A} (l : list (res A)) : list A :=
  omap (λ r, match r with Ok a => Some a | Err _ => None end) l.

(** The links whose child is [v]. *)
Definition links_of_child (v : string)
  (m : gmap string versionMappingRecord.t) : list versionMappingRecord.t :=
  List.filter (λ r, String.eqb (versionMappingRecord.ChildVersionID r) v)
              (map snd (map_to_list m)).

(** [parent] is the parent that the links record for [child]. *)
Definition parent_in (m : gmap string versionMappingRecord.t)
  (child parent : string) : Prop :=
  ∃ r, m !! child = Some r ∧ versionMappingRecord.ParentVersionID r = parent.

(** No version is among its own ancestors. *)
Definition acyclic (m : gmap string versionMappingRecord.t) : Prop :=
  ∀ v, ¬ tc (parent_in m) v v.

(** Newest first. *)
Definition newer_or_same (a b : Version.t) : Prop :=
  (Version.CreatedAt b <= Version.CreatedAt a)%Z.

(** Invariants of the metadata store. *)
Definition links_keyed (m : gmap string versionMappingRecord.t) : Prop :=
  ∀ k r, m !! k = Some r → versionMappingRecord.ChildVersionID r = k.

Definition versions_keyed (m : gmap string Version.t) : Prop :=
  ∀ k v, m !! k = Some v → Version.ID v = k.

Definition index_sound (c : inMemoryCache) : Prop :=
  ∀ cid l v, versionsByCodebase c !! cid = Some l → v ∈ l →
    Versions c !! Version.ID v = Some v ∧ Version.CodebaseID v = cid.

Definition index_sorted (c : inMemoryCache) : Prop :=
  ∀ cid l, versionsByCodebase c !! cid = Some l →
    StronglySorted newer_or_same l.

Definition cache_inv (c : inMemoryCache) : Prop :=
  links_keyed (VersionMapping c) ∧ versions_keyed (Versions c)
  ∧ index_sound c ∧ index_sorted c.

Definition db_inv (d : dbFiles) : Prop :=
  links_keyed (version_mapping_json d) ∧ versions_keyed (versions_json d).

Definition store_inv (w : World) : Prop :=
  cache_inv (cache w) ∧ db_inv (db w).

(** The key of a version in [versionIDByBranchAndName]. *)
Definition key_of (v : Version.t) : string :=
  version_key (Version.CodebaseID v) (Version.Branch v) (Version.Version v).

(** Every name of the index leads to a stored version with that key, and
    every stored version is in the slice of its codebase. *)
Definition names_sound (c : inMemoryCache) : Prop :=
  ∀ k id, versionIDByBranchAndName c !! k = Some id →
    ∃ v, Versions c !! id = Some v ∧ key_of v = k.

Definition index_complete (c : inMemoryCache) : Prop :=
  ∀ k v, Versions c !! k = Some v →
    v ∈ default [] (versionsByCodebase c !! Version.CodebaseID v).

Definition index_inv (w : World) : Prop :=
  store_inv w ∧ names_sound (cache w) ∧ index_complete (cache w).

Definition version_indexes (w : World) :=
  (Versions (cache w), versionsByCodebase (cache w),
   versionIDByBranchAndName (cache w)).

(* ------------------------------------------------------------------ *)
(** ** Vocabulary of the properties                                    *)
(* ------------------------------------------------------------------ *)

(** [c] preserves [I]: the state after the call satisfies [I] when the
    state before does, whatever the call returns. *)
Definition preserves {A} (I : World → Prop) (c : M A) : Prop :=
  ∀ w, I w → I (c w).2.

(** [c] leaves the part [f] of the state as it is. *)
Definition keeps {X A} (f : World → X) (c : M A) : Prop :=
  ∀ w, f (c w).2 = f w.

(** The metadata: what the provider holds in memory and in its files. *)
Definition metadata (w : World) : inMemoryCache * dbFiles := (cache w, db w).

(** The graph that [RebuildHistoryCache] assembles from the state of the
    provider, with [iter] as the order of its loop over the links. *)
Definition graph_of (iter : list string) (codebaseID : string)
  (c : inMemoryCache) : VersionMapResponse.t :=
  let versions := default [] (versionsByCodebase c !! codebaseID) in
  VersionMapResponse.mk codebaseID
    (map JSONFileProvider.node_of versions)
    (map JSONFileProvider.edge_of
       (List.filter
          (λ m, String.eqb (versionMappingRecord.CodebaseID m) codebaseID)
          (map snd (JSONFileProvider.range_order iter (VersionMapping c)))))
    (JSONFileProvider.branch_heads versions).

(** The versions of a codebase, as the index has them. *)
Definition versions_of (codebaseID : string) (w : World) : list Version.t :=
  default [] (versionsByCodebase (cache w) !! codebaseID).

(** The parts of the state that a request can leave alone. *)
Definition graph_cache (w : World) : gmap string bytes * list string :=
  (history_cache (db w), spawned w).
Definition version_store (w : World)
  : gmap string Version.t * gmap string (list Version.t) :=
  (Versions (cache w), versionsByCodebase (cache w)).



Definition sum_sizes (l : list Z) : Z := foldr Z.add 0%Z l.

(** The sums of [processFiles] agree with the files gathered so far. *)
Definition sums_ok (g : gathered) : Prop :=
  let s := stats g in
  let fs := processedFiles g in
  VersionStats.TotalFiles s = wrap64 (Z.of_nat (length fs))
  ∧ VersionStats.TotalSize s = wrap64 (sum_sizes (map File.Size fs))
  ∧ VersionStats.CompressedSize s
    = wrap64 (sum_sizes (map File.CompressedSize fs))
  ∧ VersionStats.CompressionRatio s = FZero.


(** A path element that [filepath.Clean] keeps as it is: not empty,
    neither [.] nor [..], and without a separator. *)
Definition no_separator (e : string) : bool :=
  forallb (λ c, negb (Ascii.eqb c "/")) (list_ascii_of_string e).

Definition plain (e : string) : bool :=
  negb (String.eqb e "") && negb (String.eqb e ".")
  && negb (String.eqb e "..") && no_separator e.

(** A path of plain elements, relative or below the root. *)
Definition plain_path (p : string) : bool :=
  match p with
  | EmptyString => false
  | String c r =>
      if Ascii.eqb c "/" then forallb plain (Strings.Split r)
      else forallb plain (Strings.Split p)
  end.

(** The parts of the state that the requests after [CreateVersion] leave
    alone. *)
Definition stored (w : World) :=
  (Versions (cache w), FileIndexes (cache w),
   versionIDByBranchAndName (cache w), objects w, basePath w).

(* ------------------------------------------------------------------ *)
(** ** Example states                                                  *)
(* ------------------------------------------------------------------ *)

(** A blob store with the objects of two codebases. *)
Definition two_codebases_store : World :=
  mkWorld empty_cache empty_db "cvcs_data/oss"
    (<["cvcs_data/oss/proj/6162" := [Byte.x61; Byte.x62]]>
       (<["cvcs_data/oss/other/63" := [Byte.x63]]> ∅))
    [] [].

(** A codebase whose name is [".."]: the prefix of its objects resolves
    above the store root. *)
Definition dotdot_codebase : Codebase.t :=
  Codebase.mk "cb1" ".." "" "main" 1 1.

Definition dotdot_world : World :=
  (InitService.InitializeCodebase "cb1" 1 ".." "" "main"
     (new_world "cvcs_data/oss" [])).2.

(** The state after a snapshot of ["proj"] and the initialisation of a
    second codebase whose name is ["."]. *)
Definition dot_codebase_world : World :=
  (InitService.InitializeCodebase "cb2" 500 "." "" "main"
     (UploadService.ProcessSnapshot (H := example_utils)
        (Rand.mk "v1" "t1" "l1" 200 201 202 203 []) "cb1" "v1" "main" ""
        [("a.png", Upload [Byte.x61; Byte.x62])] None true
        (InitService.InitializeCodebase "cb1" 100 "proj" "" "main"
           (new_world "cvcs_data/oss" [])).2).2).2.

(** A codebase ["proj"] with default branch ["main"], just initialised
    on an empty storage root. *)
Definition proj_codebase : Codebase.t :=
  Codebase.mk "cb1" "proj" "" "main" 100 100.

Definition proj_world : World :=
  (InitService.InitializeCodebase "cb1" 100 "proj" "" "main"
     (new_world "cvcs_data/oss" [])).2.

(** The random values of three requests. *)
Definition rnd1 : Rand.t := Rand.mk "v1" "t1" "l1" 200 201 202 203 [].
Definition rnd2 : Rand.t := Rand.mk "v2" "t2" "l2" 300 301 302 303 [].
Definition rnd3 : Rand.t := Rand.mk "v3" "t3" "l3" 400 401 402 403 [].

Definition ab : bytes := [Byte.x61; Byte.x62].

(** An upload of two files of which the second cannot be opened. *)
Definition one_bad_file : list (string * FileHeader) :=
  [("a.png", Upload ab); ("b.txt", OpenFails "unexpected EOF")].

(** An upload of the same bytes under an image name and under another
    name. *)
Definition same_bytes_two_forms : list (string * FileHeader) :=
  [("logo.png", Upload ab); ("logo.bak", Upload ab)].

(** The first file of the upload, stored from [proj_world]. *)
Definition a_png_file : File.t :=
  File.mk "a.png" "6162" 2 2 "proj/6162" "image".

Definition a_png_world : World :=
  (processFile (H := example_utils) "a.png" (Upload ab) "proj" proj_world).2.

(** Three snapshots of ["proj"] on a branch ["dev"], one image each,
    with automatic linkage. *)
Definition dev_snapshot (rnd : Rand.t) (ver : string) : event :=
  Snapshot rnd "cb1" ver "dev" "" [("a.png", Upload ab)] None true.

Definition dev1_world : World :=
  do_event (H := example_utils) (dev_snapshot rnd1 "v1") proj_world.
Definition dev2_world : World :=
  do_event (H := example_utils) (dev_snapshot rnd2 "v2") dev1_world.
Definition dev3_world : World :=
  do_event (H := example_utils) (dev_snapshot rnd3 "v3") dev2_world.

(** After the second snapshot, a link requested by hand from the first
    version to the second one. *)
Definition cycle_world : World :=
  do_event (H := example_utils)
    (Link "l9" "cb1" (mkVersionIdentifier "dev" "v1")
       (mkVersionIdentifier "dev" "v2")) dev2_world.

(** A version of ["proj"] on ["main"] with one file. *)
Definition v1_main : Version.t :=
  Version.mk "v1" "cb1" "v1" "main" "t1" "first" 200
    (VersionStats.mk 1 2 2 (FDiv 2 2)).

Definition v1_main_world : World :=
  (JSONFileProvider.CreateVersion v1_main [a_png_file] proj_world).2.

(** [proj_world] when the next write to a file fails. *)
Definition full_disk_world : World :=
  set_faults [Some "no space left on device"] proj_world.

(** [proj_world] after a first read of the graph. *)
Definition main0_world : World :=
  (HistoryService.GetVersionMap [] "cb1" proj_world).2.

(** Two snapshots of ["proj"] on ["main"] without automatic linkage, and
    the link from the second to the first requested by hand. *)
Definition main_snapshot (rnd : Rand.t) (ver : string) : event :=
  Snapshot rnd "cb1" ver "main" "" [("a.png", Upload ab)] None false.

Definition main1_world : World :=
  do_event (H := example_utils) (main_snapshot rnd1 "v1") proj_world.
Definition main2_world : World :=
  do_event (H := example_utils) (main_snapshot rnd2 "v2") main1_world.
Definition linked_world : World :=
  (HistoryService.CreateVersionLink "l9" "cb1"
     (mkVersionIdentifier "main" "v2") (mkVersionIdentifier "main" "v1")
     main2_world).2.
Definition rebuilt_world : World :=
  (HistoryService.RebuildHistoryCache [] "cb1" linked_world).2.




(* ================================================================== *)
(** * Properties                                                       *)
(* ================================================================== *)

(** ** Reasoning about calls *)

Lemma preserves_ret {A} I (a : A) : preserves I (ret a).
Proof. intros w H. exact H. Qed.

Lemma preserves_fail {A} I e : preserves I (@fail A e).
Proof. intros w H. exact H. Qed.

Lemma preserves_gets {A} I (f : World → A) : preserves I (gets f).
Proof. intros w H. exact H. Qed.

Lemma preserves_lift_res {A} I (r : res A) : preserves I (lift_res r).
Proof. intros w H. exact H. Qed.

Lemma preserves_bind {A B} I (c : M A) (k : A → M B) :
  preserves I c → (∀ a, preserves I (k a)) → preserves I (bind c k).
Proof.
  intros Hc Hk w HI. unfold bind. specialize (Hc w HI).
  destruct (c w) as [[a|e] w']; simpl in *; [by apply Hk | done].
Qed.

Lemma preserves_wrap {A} I ctx (c : M A) :
  preserves I c → preserves I (wrap ctx c).
Proof.
  intros Hc w HI. unfold wrap. specialize (Hc w HI).
  by destruct (c w) as [[a|e] w'].
Qed.

Lemma preserves_attempt {A} I (c : M A) :
  preserves I c → preserves I (attempt c).
Proof.
  intros Hc w HI. unfold attempt. specialize (Hc w HI).
  by destruct (c w) as [r w'].
Qed.

Lemma preserves_modify I (f : World → World) :
  (∀ w, I w → I (f w)) → preserves I (modify f).
Proof. intros Hf w HI. by apply Hf. Qed.

Lemma preserves_syscall I :
  (∀ f w, I w → I (set_faults f w)) → preserves I syscall.
Proof.
  intros Hf w HI. unfold syscall.
  destruct (faults w) as [|[e|] f]; simpl; auto.
Qed.

Create HintDb go_calls.

#[export] Hint Unfold
  RemoveAll LocalStorage.PutObject LocalStorage.GetObject
  LocalStorage.DeleteObjectsWithPrefix save modify_cache modify_db
  JSONFileProvider.CreateCodebase JSONFileProvider.GetCodebaseByID
  JSONFileProvider.DeleteCodebaseByID JSONFileProvider.UpdateCodebaseTimestamp
  JSONFileProvider.CreateVersion JSONFileProvider.GetVersion
  JSONFileProvider.GetFileIndexesByTreeID
  JSONFileProvider.FindLatestVersionInBranch JSONFileProvider.IsNewBranch
  JSONFileProvider.FindLatestVersionInMain JSONFileProvider.CreateVersionLink
  JSONFileProvider.GetAllVersionsForMap JSONFileProvider.GetAllVersionEdgesForMap
  JSONFileProvider.GetBranchHeadsForMap JSONFileProvider.GetHistoryCache
  JSONFileProvider.UpdateHistoryCache
  HistoryService.RebuildHistoryCache HistoryService.GetVersionMap
  HistoryService.go_RebuildHistoryCache HistoryService.CreateVersionLinkWithType
  HistoryService.CreateVersionLink HistoryService.AutoCreateSequentialLink
  HistoryService.AutoCreateBranchFromLink HistoryService.isNewBranch
  HistoryService.AutoCreateLinkForNewBranch HistoryService.run_spawned
  CompressData DecompressData processFile processFiles CreateSnapshot
  UploadService.persistMetadata UploadService.establishLinkage
  UploadService.ProcessSnapshot DeleteService.DeleteCodebase
  ArchiveService.fetch ArchiveService.GetSingleFile
  ArchiveService.reconstruct_unit ArchiveService.reconstructFiles InitService.InitializeCodebase
  NewJSONFileProvider : go_calls.

(** One step through the structure of a call. *)
Ltac pres_step :=
  lazymatch goal with
  | |- preserves _ (bind _ _) => apply preserves_bind; [| intros ?]
  | |- preserves _ (wrap _ _) => apply preserves_wrap
  | |- preserves _ (attempt _) => apply preserves_attempt
  | |- preserves _ (ret _) => apply preserves_ret
  | |- preserves _ (fail _) => apply preserves_fail
  | |- preserves _ (gets _) => apply preserves_gets
  | |- preserves _ (lift_res _) => apply preserves_lift_res
  | |- preserves _ syscall =>
      apply preserves_syscall; intros ? ? ?; simpl; assumption
  | |- preserves _ (modify _) =>
      apply preserves_modify; intros ? ?; simpl; assumption
  | |- preserves _ (match ?x with _ => _ end) => destruct x
  end.

(** Calls that leave a part of the state as it is: every primitive
    step keeps the predicate by computation. *)
Create HintDb go_pres.

Ltac frame :=
  repeat (first [ assumption
                | solve [auto 1 with go_pres nocore]
                | pres_step
                | progress autounfold with go_calls ]).

Lemma keeps_intro {X A} (f : World → X) (c : M A) :
  (∀ x, preserves (λ w, f w = x) c) → keeps f c.
Proof. intros H w. by apply H. Qed.

Lemma bind_Ok {A B} (c : M A) (k : A → M B) w a w' :
  c w = (Ok a, w') → bind c k w = k a w'.
Proof. intros E. unfold bind. by rewrite E. Qed.

Lemma bind_Err {A B} (c : M A) (k : A → M B) w e w' :
  c w = (Err e, w') → bind c k w = (Err e, w').
Proof. intros E. unfold bind. by rewrite E. Qed.

Lemma wrap_Ok {A} ctx (c : M A) w a w' :
  c w = (Ok a, w') → wrap ctx c w = (Ok a, w').
Proof. intros E. unfold wrap. by rewrite E. Qed.

Lemma wrap_Err {A} ctx (c : M A) w e w' :
  c w = (Err e, w') → wrap ctx c w = (Err (ctx ++ e), w').
Proof. intros E. unfold wrap. by rewrite E. Qed.

Lemma bind_Ok_inv {A B} (c : M A) (k : A → M B) w b w' :
  bind c k w = (Ok b, w') → ∃ a w1, c w = (Ok a, w1) ∧ k a w1 = (Ok b, w').
Proof.
  unfold bind. destruct (c w) as [[a|e] w1]; [|done]. intros E. by exists a, w1.
Qed.

Lemma wrap_Ok_inv {A} ctx (c : M A) w a w' :
  wrap ctx c w = (Ok a, w') → c w = (Ok a, w').
Proof.
  unfold wrap. destruct (c w) as [[a'|e] w1]; [|done]. by intros [= -> ->].
Qed.

Lemma syscall_Ok w w1 :
  syscall w = (Ok tt, w1) →
  cache w1 = cache w ∧ db w1 = db w ∧ basePath w1 = basePath w
  ∧ objects w1 = objects w ∧ spawned w1 = spawned w.
Proof.
  unfold syscall. destruct (faults w) as [|[e|] f]; intros E; by simplify_eq.
Qed.

(** Right cancellation of the concatenation of strings. *)
Lemma list_ascii_of_string_app s t :
  list_ascii_of_string (s ++ t)
  = (list_ascii_of_string s ++ list_ascii_of_string t)%list.
Proof. induction s as [|c s IH]; simpl; [done | by rewrite IH]. Qed.

Lemma string_app_inv_tail s1 s2 t : s1 ++ t = s2 ++ t → s1 = s2.
Proof.
  intros E. apply (f_equal list_ascii_of_string) in E.
  rewrite !list_ascii_of_string_app in E. apply (inj (.++ _)) in E.
  apply (f_equal string_of_list_ascii) in E.
  by rewrite !string_of_list_ascii_of_string in E.
Qed.

(* ------------------------------------------------------------------ *)
(** ** Blob store: deletion by prefix                                  *)
(* ------------------------------------------------------------------ *)

(** C8.  The guard of [DeleteObjectsWithPrefix] lets the prefix ["."]
    through: it is not empty, and joined to the store root it resolves to
    the root itself, which has the root as a prefix.  The call succeeds
    and removes every object of the store, those of all codebases. *)
Theorem DeleteObjectsWithPrefix_dot_removes_the_root :
  Strings.TrimSpace "." ≠ ""
  ∧ Filepath.Join (basePath two_codebases_store) "."
    = basePath two_codebases_store
  ∧ LocalStorage.DeleteObjectsWithPrefix "." two_codebases_store
    = (Ok tt, set_objects ∅ two_codebases_store).
Proof. split; [ discriminate | split; vm_compute; reflexivity ]. Qed.

(** The same holds for ["/"], and a prefix that leaves the root for a
    sibling directory whose name extends the root's passes too. *)
Lemma DeleteObjectsWithPrefix_other_accepted_prefixes :
  (LocalStorage.DeleteObjectsWithPrefix "/" two_codebases_store).1 = Ok tt
  ∧ objects (LocalStorage.DeleteObjectsWithPrefix "/" two_codebases_store).2 = ∅
  ∧ Filepath.Join "cvcs_data/oss" "../oss-old" = "cvcs_data/oss-old"
  ∧ (LocalStorage.DeleteObjectsWithPrefix "../oss-old" two_codebases_store).1
    = Ok tt.
Proof. repeat split; vm_compute; reflexivity. Qed.

(** The prefix reaches the guard through the API: the deletion of a
    codebase named ["."] asks for the prefix ["./"], succeeds, and takes
    the objects of the other codebase with it, whose version stays in
    the metadata. *)
Lemma DeleteCodebase_named_dot_empties_the_store :
  objects dot_codebase_world !! "cvcs_data/oss/proj/6162"
  = Some [Byte.x61; Byte.x62]
  ∧ (DeleteService.DeleteCodebase "cb2" dot_codebase_world).1 = Ok tt
  ∧ objects (DeleteService.DeleteCodebase "cb2" dot_codebase_world).2 = ∅
  ∧ is_Some (Versions
               (cache (DeleteService.DeleteCodebase "cb2" dot_codebase_world).2)
               !! "v1").
Proof.
  split; [vm_compute; reflexivity|]. split; [vm_compute; reflexivity|].
  split; [vm_compute; reflexivity|]. vm_compute. by eexists.
Qed.

(** On every store under that root, with no failing system call, the
    prefix ["."] removes all that lies in the root. *)
Lemma DeleteObjectsWithPrefix_dot_any_store (w : World) :
  basePath w = "cvcs_data/oss" → faults w = [] →
  LocalStorage.DeleteObjectsWithPrefix "." w
  = (Ok tt,
     set_objects
       (filter (λ kv, under "cvcs_data/oss" kv.1 = false) (objects w)) w).
Proof.
  intros Hb Hf.
  unfold LocalStorage.DeleteObjectsWithPrefix, bind, gets. rewrite Hb.
  change (Filepath.Join "cvcs_data/oss" ".") with "cvcs_data/oss".
  cbn [orb negb]. change (Strings.TrimSpace "." =? "") with false.
  change (Strings.HasPrefix "cvcs_data/oss" "cvcs_data/oss") with true.
  cbn [orb negb]. unfold RemoveAll, bind, syscall, modify. by rewrite Hf.
Qed.

(** What the guard does reject: the empty and the blank prefix, and a
    prefix that resolves above the root. *)
Lemma DeleteObjectsWithPrefix_rejected_prefixes (w : World) :
  basePath w = "cvcs_data/oss" →
  ∀ prefix, prefix ∈ [""; "   "; ".."; "../.."; "proj/../.."] →
  LocalStorage.DeleteObjectsWithPrefix prefix w
  = (Err "not allowed to delete root directory or use empty prefix", w).
Proof.
  intros Hb prefix Hin. unfold LocalStorage.DeleteObjectsWithPrefix, bind, gets.
  rewrite Hb. repeat (apply elem_of_cons in Hin as [-> | Hin]; [reflexivity |]).
  by apply elem_of_nil in Hin.
Qed.

(* ------------------------------------------------------------------ *)
(** ** Deletion of a codebase                                          *)
(* ------------------------------------------------------------------ *)

Lemma DeleteObjectsWithPrefix_keeps_metadata prefix :
  keeps metadata (LocalStorage.DeleteObjectsWithPrefix prefix).
Proof. apply keeps_intro; intros x. frame. Qed.

Lemma GetCodebaseByID_found id w codebase :
  Codebases (cache w) !! id = Some codebase →
  JSONFileProvider.GetCodebaseByID id w = (Ok codebase, w).
Proof.
  intros E. unfold JSONFileProvider.GetCodebaseByID, bind, gets. by rewrite E.
Qed.

Lemma GetCodebaseByID_missing id w :
  Codebases (cache w) !! id = None →
  JSONFileProvider.GetCodebaseByID id w
  = (Err ("codebase " ++ id ++ " not found"), w).
Proof.
  intros E. unfold JSONFileProvider.GetCodebaseByID, bind, gets. by rewrite E.
Qed.

(** C9.  [DeleteCodebase] deletes from the blob store first, in the
    state it is called in.  When that deletion fails, the call returns its
    error and the metadata, in memory and in the files, is as before.
    When it succeeds, the metadata is still untouched at that point, and
    the call goes on with the deletion of the metadata from there. *)
Theorem DeleteCodebase_storage_before_metadata
  (codebaseID : string) (w : World) (codebase : Codebase.t) :
  Codebases (cache w) !! codebaseID = Some codebase →
  let prefix := Codebase.Name codebase ++ "/" in
  (∀ e w1,
     LocalStorage.DeleteObjectsWithPrefix prefix w = (Err e, w1) →
     DeleteService.DeleteCodebase codebaseID w
     = (Err ("failed to delete files from storage: " ++ e), w1)
     ∧ metadata w1 = metadata w)
  ∧ (∀ w1,
     LocalStorage.DeleteObjectsWithPrefix prefix w = (Ok tt, w1) →
     metadata w1 = metadata w
     ∧ DeleteService.DeleteCodebase codebaseID w
       = wrap "metadata deletion failed: "
           (JSONFileProvider.DeleteCodebaseByID codebaseID) w1).
Proof.
  intros Hcb prefix.
  assert (Hget : wrap ("codebase with ID " ++ codebaseID ++ " not found: ")
                   (JSONFileProvider.GetCodebaseByID codebaseID) w
                 = (Ok codebase, w)).
  { apply wrap_Ok. by apply GetCodebaseByID_found. }
  split.
  - intros e w1 Hdel. split.
    + unfold DeleteService.DeleteCodebase.
      rewrite (bind_Ok _ _ _ _ _ Hget).
      apply bind_Err. by apply wrap_Err.
    + pose proof (DeleteObjectsWithPrefix_keeps_metadata prefix w) as Hk.
      by rewrite Hdel in Hk.
  - intros w1 Hdel. split.
    + pose proof (DeleteObjectsWithPrefix_keeps_metadata prefix w) as Hk.
      by rewrite Hdel in Hk.
    + unfold DeleteService.DeleteCodebase.
      rewrite (bind_Ok _ _ _ _ _ Hget).
      by rewrite (bind_Ok _ _ _ _ _ (wrap_Ok _ _ _ _ _ Hdel)).
Qed.

(** The theorem at a codebase whose objects cannot be deleted. *)
Lemma DeleteCodebase_storage_before_metadata_witness :
  DeleteService.DeleteCodebase "cb1" dotdot_world
  = (Err ("failed to delete files from storage: "
            ++ "not allowed to delete root directory or use empty prefix"),
     dotdot_world)
  ∧ metadata dotdot_world = metadata dotdot_world.
Proof.
  exact (proj1 (DeleteCodebase_storage_before_metadata "cb1" dotdot_world
                  dotdot_codebase eq_refl)
           "not allowed to delete root directory or use empty prefix"
           dotdot_world eq_refl).
Defined.

(** A call that changes the metadata has deleted from the blob store
    with success before. *)
Lemma DeleteCodebase_metadata_change_needs_storage codebaseID w :
  metadata (DeleteService.DeleteCodebase codebaseID w).2 ≠ metadata w →
  ∃ codebase w1,
    Codebases (cache w) !! codebaseID = Some codebase
    ∧ LocalStorage.DeleteObjectsWithPrefix (Codebase.Name codebase ++ "/") w
      = (Ok tt, w1).
Proof.
  intros Hne.
  destruct (Codebases (cache w) !! codebaseID) as [codebase|] eqn:Hcb.
  - exists codebase.
    destruct (DeleteCodebase_storage_before_metadata codebaseID w codebase Hcb)
      as [Hfail Hok].
    destruct (LocalStorage.DeleteObjectsWithPrefix
                (Codebase.Name codebase ++ "/") w) as [[[]|e] w1] eqn:Hdel.
    + by exists w1.
    + destruct (Hfail e w1 eq_refl) as [Hr Hm].
      rewrite Hr in Hne. simpl in Hne. by rewrite Hm in Hne.
  - exfalso. apply Hne. unfold DeleteService.DeleteCodebase.
    erewrite bind_Err; [done |].
    apply wrap_Err. by apply GetCodebaseByID_missing.
Qed.

(* ------------------------------------------------------------------ *)
(** ** Snapshot pipeline                                               *)
(* ------------------------------------------------------------------ *)

Section PipelineFacts.
Context `{!Utils}.

Lemma processFile_keeps_metadata relPath header codebaseName :
  keeps metadata (processFile relPath header codebaseName).
Proof. apply keeps_intro; intros x. frame. Qed.

Lemma processFile_keeps_basePath relPath header codebaseName :
  keeps basePath (processFile relPath header codebaseName).
Proof. apply keeps_intro; intros x. frame. Qed.

(** The goroutines never fail as a whole: each result goes to the
    accumulators or to the channel, in the order of the run. *)
Lemma run_units_gathers files codebaseName :
  ∀ g w, ∃ g' w',
    run_units files codebaseName g w = (Ok g', w')
    ∧ errChan g'
      = (errChan g ++ errors_of (unit_results files codebaseName w))%list
    ∧ processedFiles g'
      = (processedFiles g ++ oks_of (unit_results files codebaseName w))%list
    ∧ metadata w' = metadata w
    ∧ basePath w' = basePath w.
Proof.
  induction files as [|[relPath header] rest IH]; intros g w.
  - exists g, w. simpl. by rewrite !app_nil_r.
  - simpl. unfold bind at 1, attempt.
    pose proof (processFile_keeps_metadata relPath header codebaseName w) as Hm.
    pose proof (processFile_keeps_basePath relPath header codebaseName w) as Hb.
    destruct (processFile relPath header codebaseName w) as [r w1].
    simpl in Hm, Hb.
    destruct r as [file|e].
    + destruct (IH (add_file g file) w1) as (g' & w' & E & He & Hp & Hm' & Hb').
      exists g', w'. rewrite E, He, Hp. simpl.
      rewrite <- (assoc_L (++)). simpl. by rewrite Hm', Hb', Hm, Hb.
    + destruct (IH (add_error g e) w1) as (g' & w' & E & He & Hp & Hm' & Hb').
      exists g', w'. rewrite E, He, Hp. simpl.
      rewrite <- (assoc_L (++)). simpl. by rewrite Hm', Hb', Hm, Hb.
Qed.

Lemma failed_unit_head_error {A} (l : list (res A)) r :
  r ∈ l → is_Ok r = false → ∃ e, head (errors_of l) = Some e.
Proof.
  intros Hin Hr. destruct r as [a|e]; [done|].
  assert (Hin' : e ∈ errors_of l).
  { apply list_elem_of_omap. by exists (Err e). }
  destruct (errors_of l) as [|e0 l0]; [by apply elem_of_nil in Hin' |].
  by exists e0.
Qed.

(** When the channel holds an error, [processFiles] returns the first
    one; the metadata is as before. *)
Lemma processFiles_first_error files codebaseName w e :
  head (errors_of (unit_results files codebaseName w)) = Some e →
  ∃ w', processFiles files codebaseName w = (Err e, w')
        ∧ metadata w' = metadata w ∧ basePath w' = basePath w.
Proof.
  intros Hhead. unfold processFiles.
  destruct (run_units_gathers files codebaseName
              (mkGathered [] VersionStats.zero []) w)
    as (g & w' & E & He & _ & Hm & Hb).
  exists w'. rewrite (bind_Ok _ _ _ _ _ E). simpl in He. rewrite He.
  destruct (errors_of (unit_results files codebaseName w)) as [|e0 l]; [done|].
  simpl in Hhead. injection Hhead as ->. by repeat split.
Qed.

(** An error of [processFiles] is the error of the request, which ends
    there. *)
Lemma ProcessSnapshot_processFiles_Err rnd codebaseID ver branch message files
  branchFrom autoLinkage w codebase e w' :
  Codebases (cache w) !! codebaseID = Some codebase →
  processFiles files (Codebase.Name codebase) w = (Err e, w') →
  CreateSnapshot rnd files (Codebase.Name codebase) branch ver message w
  = (Err e, w')
  ∧ UploadService.ProcessSnapshot rnd codebaseID ver branch message files
      branchFrom autoLinkage w = (Err e, w').
Proof.
  intros Hcb Hp.
  assert (Hcs : CreateSnapshot rnd files (Codebase.Name codebase) branch ver
                  message w = (Err e, w')).
  { unfold CreateSnapshot. by apply bind_Err. }
  split; [done|].
  unfold UploadService.ProcessSnapshot.
  erewrite bind_Ok; [| apply wrap_Ok; by apply GetCodebaseByID_found].
  by apply bind_Err.
Qed.

(** C3.  When a goroutine of the pipeline fails, [CreateSnapshot] and
    with it [ProcessSnapshot] return the first error sent to the channel,
    and the metadata, in memory and in the files, is as it was before the
    request: neither a version nor a file tree has been written.  The
    write of the metadata comes after [CreateSnapshot] has returned
    without error. *)
Theorem ProcessSnapshot_unit_failure_commits_nothing
  (rnd : Rand.t) (codebaseID ver branch message : string)
  (files : list (string * FileHeader)) (branchFrom : option VersionIdentifier)
  (autoLinkage : bool) (w : World) (codebase : Codebase.t) (r : res File.t) :
  Codebases (cache w) !! codebaseID = Some codebase →
  r ∈ unit_results files (Codebase.Name codebase) w →
  is_Ok r = false →
  ∃ e w',
    head (errors_of (unit_results files (Codebase.Name codebase) w)) = Some e
    ∧ CreateSnapshot rnd files (Codebase.Name codebase) branch ver message w
      = (Err e, w')
    ∧ UploadService.ProcessSnapshot rnd codebaseID ver branch message files
        branchFrom autoLinkage w = (Err e, w')
    ∧ cache w' = cache w
    ∧ db w' = db w.
Proof.
  intros Hcb Hin Hr.
  destruct (failed_unit_head_error _ _ Hin Hr) as [e He].
  destruct (processFiles_first_error _ _ _ _ He) as (w' & Hp & Hm & _).
  exists e, w'.
  destruct (ProcessSnapshot_processFiles_Err rnd codebaseID ver branch message
              files branchFrom autoLinkage w codebase e w' Hcb Hp)
    as [Hcs Hps].
  split; [done|]. split; [done|]. split; [done|].
  unfold metadata in Hm. by simplify_eq.
Qed.

(** [CreateSnapshot] returns a version only when no goroutine has
    failed. *)
Lemma CreateSnapshot_Ok_all_units_Ok rnd files codebaseName branch ver message
  w vt w' :
  CreateSnapshot rnd files codebaseName branch ver message w = (Ok vt, w') →
  errors_of (unit_results files codebaseName w) = [].
Proof.
  intros E.
  destruct (errors_of (unit_results files codebaseName w)) as [|e l] eqn:He;
    [done|].
  destruct (processFiles_first_error files codebaseName w e) as (w1 & Hp & _).
  { by rewrite He. }
  unfold CreateSnapshot in E. by rewrite (bind_Err _ _ _ _ _ Hp) in E.
Qed.

End PipelineFacts.

(** The theorem at an upload whose second file cannot be opened. *)
Lemma ProcessSnapshot_unit_failure_commits_nothing_witness :
  ∃ e w',
    head (errors_of (unit_results (H := example_utils) one_bad_file
                       (Codebase.Name proj_codebase) proj_world)) = Some e
    ∧ CreateSnapshot (H := example_utils) rnd1 one_bad_file
        (Codebase.Name proj_codebase) "main" "v1" "first" proj_world
      = (Err e, w')
    ∧ UploadService.ProcessSnapshot (H := example_utils) rnd1 "cb1" "v1" "main"
        "first" one_bad_file None true proj_world = (Err e, w')
    ∧ cache w' = cache proj_world
    ∧ db w' = db proj_world.
Proof.
  eapply (ProcessSnapshot_unit_failure_commits_nothing (H := example_utils)
            rnd1 "cb1" "v1" "main" "first" one_bad_file None true proj_world
            proj_codebase).
  - reflexivity.
  - vm_compute. apply list_elem_of_further, list_elem_of_here.
  - reflexivity.
Defined.

Section PipelineFacts2.
Context `{!Utils}.

Lemma PutObject_Ok k data w w1 :
  LocalStorage.PutObject k data w = (Ok tt, w1) →
  objects w1 = <[Filepath.Join (basePath w) k := data]> (objects w)
  ∧ basePath w1 = basePath w.
Proof.
  unfold LocalStorage.PutObject, bind, gets, modify.
  destruct (syscall w) as [[[]|e] wa] eqn:E1; [|done].
  destruct (syscall wa) as [[[]|e] wb] eqn:E2; [|done].
  apply syscall_Ok in E1 as (_ & _ & Hb1 & Ho1 & _).
  apply syscall_Ok in E2 as (_ & _ & Hb2 & Ho2 & _).
  intros E; simplify_eq. simpl. by rewrite Ho2, Ho1, Hb2, Hb1.
Qed.

(** A goroutine that succeeds has read the upload, has stored the
    content or its compressed form under the key made of the codebase
    name and the hash of the content, and returns the record of it. *)
Lemma processFile_Ok relPath header codebaseName w file w1 :
  processFile relPath header codebaseName w = (Ok file, w1) →
  ∃ data content,
    header = Upload data
    ∧ (if isImage relPath then content = data
       else compressZlib data = Ok content)
    ∧ file = File.mk (Filepath.ToSlash relPath) (CalculateHash data)
               (len64 data) (len64 content)
               (codebaseName ++ "/" ++ CalculateHash data)
               (if isImage relPath then "image" else "other")
    ∧ objects w1
      = <[Filepath.Join (basePath w)
            (codebaseName ++ "/" ++ CalculateHash data) := content]> (objects w).
Proof.
  unfold processFile. destruct header as [data|e|e]; [|done..].
  intros E. exists data.
  destruct (isImage relPath) eqn:Himg.
  - exists data. unfold bind at 1 in E. simpl in E.
    apply bind_Ok_inv in E as ([] & w2 & Hput & E).
    apply wrap_Ok_inv, PutObject_Ok in Hput as [Ho _].
    by injection E as <- <-.
  - apply bind_Ok_inv in E as ([[content csize] ty] & w2 & Hc & E).
    apply bind_Ok_inv in Hc as (c' & w3 & Hc & Hr).
    apply wrap_Ok_inv in Hc. unfold lift_res, CompressData in Hc.
    injection Hr as <- <- <- <-. injection Hc as Hc <-.
    exists c'.
    apply bind_Ok_inv in E as ([] & w4 & Hput & E).
    apply wrap_Ok_inv, PutObject_Ok in Hput as [Ho _].
    by injection E as <- <-.
Qed.

(** C4.  For an uploaded file that the pipeline stores, the recorded hash
    is the hash of the uploaded bytes, whether the stored object is these
    bytes (an image) or their compressed form, and the storage key is the
    codebase name, a slash and that hash.  The same bytes stored again
    under the same codebase name get the same key and add no object to
    the store; stored under another codebase name they get another key. *)
Theorem storage_key_from_name_and_hash_of_upload
  (relPath codebaseName : string) (data : bytes) (w w1 : World) (file : File.t) :
  processFile relPath (Upload data) codebaseName w = (Ok file, w1) →
  File.Hash file = CalculateHash data
  ∧ File.StorageKey file = codebaseName ++ "/" ++ CalculateHash data
  ∧ (∃ content,
       objects w1 !! Filepath.Join (basePath w) (File.StorageKey file)
       = Some content
       ∧ if isImage relPath then content = data
         else compressZlib data = Ok content)
  ∧ (∀ relPath' file' w2,
       processFile relPath' (Upload data) codebaseName w1 = (Ok file', w2) →
       File.StorageKey file' = File.StorageKey file
       ∧ dom (objects w2) = dom (objects w1))
  ∧ (∀ relPath' codebaseName' w' file' w2,
       codebaseName' ≠ codebaseName →
       processFile relPath' (Upload data) codebaseName' w' = (Ok file', w2) →
       File.StorageKey file' ≠ File.StorageKey file).
Proof.
  intros E.
  pose proof (processFile_keeps_basePath relPath (Upload data) codebaseName w)
    as Hbase. rewrite E in Hbase. simpl in Hbase.
  apply processFile_Ok in E as (d & content & Hu & Hc & -> & Ho).
  injection Hu as <-. cbn [File.Hash File.StorageKey].
  split; [done|]. split; [done|]. split; [| split].
  - exists content. rewrite Ho, lookup_insert_eq. done.
  - intros relPath' file' w2 E'.
    apply processFile_Ok in E' as (d' & content' & Hu & Hc' & -> & Ho').
    injection Hu as <-. cbn [File.StorageKey]. split; [done|].
    by rewrite Ho', Hbase, Ho, insert_insert_eq, !dom_insert_L.
  - intros relPath' codebaseName' w' file' w2 Hne E'.
    apply processFile_Ok in E' as (d' & content' & Hu & Hc' & -> & Ho').
    injection Hu as <-. cbn [File.StorageKey]. intros Heq. apply Hne.
    by apply string_app_inv_tail in Heq.
Qed.

End PipelineFacts2.

(** The theorem at the first file of an upload. *)
Lemma storage_key_from_name_and_hash_of_upload_witness :
  File.Hash a_png_file = "6162" ∧ File.StorageKey a_png_file = "proj/6162".
Proof.
  destruct (storage_key_from_name_and_hash_of_upload (H := example_utils)
              "a.png" "proj" ab proj_world a_png_world a_png_file eq_refl)
    as (Hh & Hk & _).
  exact (conj Hh Hk).
Defined.

(* ------------------------------------------------------------------ *)
(** ** Blobs of a snapshot that fails                                  *)
(* ------------------------------------------------------------------ *)

Section PipelineFacts3.
Context `{!Utils}.

Lemma PutObject_objects_mono p k data :
  preserves (λ w, is_Some (objects w !! p)) (LocalStorage.PutObject k data).
Proof.
  unfold LocalStorage.PutObject. frame.
  apply preserves_modify. intros w Hs. simpl.
  apply lookup_insert_is_Some'. by right.
Qed.

#[local] Hint Resolve PutObject_objects_mono : go_pres.

Lemma processFile_objects_mono p relPath header codebaseName :
  preserves (λ w, is_Some (objects w !! p))
    (processFile relPath header codebaseName).
Proof. unfold processFile. frame. Qed.

Lemma run_units_objects_mono p files codebaseName :
  ∀ g, preserves (λ w, is_Some (objects w !! p))
         (run_units files codebaseName g).
Proof.
  induction files as [|[relPath header] rest IH]; intros g; simpl.
  - apply preserves_ret.
  - apply preserves_bind.
    + apply preserves_attempt, processFile_objects_mono.
    + intros r. apply IH.
Qed.

(** The object of every goroutine that has succeeded is in the store
    when all goroutines are done. *)
Lemma run_units_stores files codebaseName :
  ∀ g w file,
    Ok file ∈ unit_results files codebaseName w →
    is_Some (objects (run_units files codebaseName g w).2
               !! Filepath.Join (basePath w) (File.StorageKey file)).
Proof.
  induction files as [|[relPath header] rest IH]; intros g w file Hin.
  - by apply elem_of_nil in Hin.
  - simpl in Hin. simpl. unfold bind at 1, attempt.
    pose proof (processFile_keeps_basePath relPath header codebaseName w) as Hb.
    destruct (processFile relPath header codebaseName w) as [r w1] eqn:E.
    simpl in Hb.
    apply elem_of_cons in Hin as [<- | Hin].
    + apply run_units_objects_mono.
      apply processFile_Ok in E as (d & content & _ & _ & -> & ->). simpl.
      rewrite lookup_insert_eq. by eexists.
    + rewrite <- Hb. by apply IH.
Qed.

Lemma processFiles_world files codebaseName w :
  (processFiles files codebaseName w).2
  = (run_units files codebaseName (mkGathered [] VersionStats.zero []) w).2.
Proof.
  unfold processFiles. unfold bind at 1.
  destruct (run_units_gathers files codebaseName
              (mkGathered [] VersionStats.zero []) w) as (g & wg & -> & _).
  by destruct (errChan g).
Qed.

(** C10.  When a goroutine of the pipeline has stored its file and
    another one fails, the request returns an error and commits no
    metadata, and the stored object is in the blob store afterwards:
    nothing removes what the goroutines have written.  There is an upload
    for which the request fails and the blob store has changed. *)
Theorem failed_snapshot_keeps_written_blobs :
  (∀ (rnd : Rand.t) (codebaseID ver branch message : string)
     (files : list (string * FileHeader))
     (branchFrom : option VersionIdentifier) (autoLinkage : bool)
     (w : World) (codebase : Codebase.t) (file : File.t) (r : res File.t),
     Codebases (cache w) !! codebaseID = Some codebase →
     Ok file ∈ unit_results files (Codebase.Name codebase) w →
     r ∈ unit_results files (Codebase.Name codebase) w →
     is_Ok r = false →
     let out := UploadService.ProcessSnapshot rnd codebaseID ver branch message
                  files branchFrom autoLinkage w in
     is_Ok out.1 = false
     ∧ metadata out.2 = metadata w
     ∧ is_Some (objects out.2
                  !! Filepath.Join (basePath w) (File.StorageKey file)))
  ∧ (∃ rnd codebaseID ver branch message files branchFrom autoLinkage w,
       let out := UploadService.ProcessSnapshot rnd codebaseID ver branch
                    message files branchFrom autoLinkage w in
       is_Ok out.1 = false ∧ objects out.2 ≠ objects w).
Proof.
  assert (Hall : ∀ (rnd : Rand.t) (codebaseID ver branch message : string)
     (files : list (string * FileHeader))
     (branchFrom : option VersionIdentifier) (autoLinkage : bool)
     (w : World) (codebase : Codebase.t) (file : File.t) (r : res File.t),
     Codebases (cache w) !! codebaseID = Some codebase →
     Ok file ∈ unit_results files (Codebase.Name codebase) w →
     r ∈ unit_results files (Codebase.Name codebase) w →
     is_Ok r = false →
     let out := UploadService.ProcessSnapshot rnd codebaseID ver branch message
                  files branchFrom autoLinkage w in
     is_Ok out.1 = false
     ∧ metadata out.2 = metadata w
     ∧ is_Some (objects out.2
                  !! Filepath.Join (basePath w) (File.StorageKey file))).
  { intros rnd codebaseID ver branch message files branchFrom autoLinkage w
      codebase file r Hcb Hfile Hin Hr out.
    destruct (failed_unit_head_error _ _ Hin Hr) as [e He].
    destruct (processFiles_first_error _ _ _ _ He) as (w' & Hp & Hm & _).
    destruct (ProcessSnapshot_processFiles_Err rnd codebaseID ver branch
                message files branchFrom autoLinkage w codebase e w' Hcb Hp)
      as [_ Hps].
    subst out. rewrite Hps. simpl. split; [done|]. split; [done|].
    pose proof (run_units_stores files (Codebase.Name codebase)
                  (mkGathered [] VersionStats.zero []) w file Hfile) as Hs.
    rewrite <- processFiles_world in Hs. by rewrite Hp in Hs. }
  split; [exact Hall|].
  exists rnd1, "cb1", "v1", "main", "first", one_bad_file, None, true, proj_world.
  intros out.
  destruct (Hall rnd1 "cb1" "v1" "main" "first" one_bad_file None true
              proj_world proj_codebase
              (File.mk "a.png" (CalculateHash ab) 2 2
                       ("proj/" ++ CalculateHash ab) "image")
              (Err ("打开上传的文件流失败 " ++ "b.txt" ++ ": " ++ "unexpected EOF")))
    as (Hr & _ & Hs).
  - reflexivity.
  - vm_compute. apply list_elem_of_here.
  - vm_compute. apply list_elem_of_further, list_elem_of_here.
  - reflexivity.
  - split; [exact Hr|]. intros Heq. fold out in Hs. rewrite Heq in Hs.
    by destruct Hs as [? Hs].
Qed.

End PipelineFacts3.

(** The theorem at an upload whose second file cannot be opened. *)
Lemma failed_snapshot_keeps_written_blobs_witness :
  let out := UploadService.ProcessSnapshot (H := example_utils) rnd1 "cb1" "v1"
               "main" "first" one_bad_file None true proj_world in
  is_Ok out.1 = false
  ∧ metadata out.2 = metadata proj_world
  ∧ is_Some (objects out.2
               !! Filepath.Join (basePath proj_world)
                    (File.StorageKey a_png_file)).
Proof.
  apply (proj1 (failed_snapshot_keeps_written_blobs (H := example_utils))
           rnd1 "cb1" "v1" "main" "first" one_bad_file None true proj_world
           proj_codebase a_png_file
           (Err ("打开上传的文件流失败 " ++ "b.txt" ++ ": " ++ "unexpected EOF"))).
  - reflexivity.
  - vm_compute. apply list_elem_of_here.
  - vm_compute. apply list_elem_of_further, list_elem_of_here.
  - reflexivity.
Defined.

(* ------------------------------------------------------------------ *)
(** ** Retrieval of stored files                                       *)
(* ------------------------------------------------------------------ *)

Section RoundTrip.
Context `{!Utils}.

Lemma GetObject_found k w content :
  objects w !! Filepath.Join (basePath w) k = Some content →
  LocalStorage.GetObject k w = (Ok content, w).
Proof.
  intros E. unfold LocalStorage.GetObject, bind, gets. by rewrite E.
Qed.

(** What [fetch] returns for a file whose key holds [content]. *)
Lemma fetch_found ctx_get ctx_dec (f : File.t) w content :
  objects w !! Filepath.Join (basePath w) (File.StorageKey f) = Some content →
  ArchiveService.fetch ctx_get ctx_dec f w
  = if String.eqb (File.Type_ f) "image" then (Ok content, w)
    else wrap ctx_dec (lift_res (DecompressData content)) w.
Proof.
  intros E. unfold ArchiveService.fetch.
  erewrite bind_Ok; [| by apply wrap_Ok, GetObject_found].
  by destruct (String.eqb (File.Type_ f) "image").
Qed.


(** The same bytes stored first under an image name and then under
    another name share their key; the second goroutine replaces the blob
    by the compressed form, and the image comes back compressed. *)
Lemma image_blob_replaced_by_compressed_form
  image other data codebaseName w file1 w1 file2 w2 ctx_get ctx_dec :
  isImage image = true → isImage other = false →
  processFile image (Upload data) codebaseName w = (Ok file1, w1) →
  processFile other (Upload data) codebaseName w1 = (Ok file2, w2) →
  ∃ compressed,
    compressZlib data = Ok compressed
    ∧ File.StorageKey file1 = File.StorageKey file2
    ∧ ArchiveService.fetch ctx_get ctx_dec file1 w2 = (Ok compressed, w2).
Proof.
  intros Hi Ho E1 E2.
  pose proof (processFile_keeps_basePath image (Upload data) codebaseName w)
    as Hb1. rewrite E1 in Hb1. simpl in Hb1.
  pose proof (processFile_keeps_basePath other (Upload data) codebaseName w1)
    as Hb2. rewrite E2 in Hb2. simpl in Hb2.
  apply processFile_Ok in E1 as (d1 & c1 & Hu1 & Hc1 & Hf1 & Hobj1).
  apply processFile_Ok in E2 as (d2 & c2 & Hu2 & Hc2 & Hf2 & Hobj2).
  injection Hu1 as <-. injection Hu2 as <-.
  rewrite Hi in *. rewrite Ho in *.
  assert (Hk1 : File.StorageKey file1
                = codebaseName ++ "/" ++ CalculateHash data) by (by subst file1).
  assert (Hk2 : File.StorageKey file2
                = codebaseName ++ "/" ++ CalculateHash data) by (by subst file2).
  assert (Hty : File.Type_ file1 = "image") by (by subst file1).
  exists c2. split; [done|]. split; [by rewrite Hk1, Hk2|].
  assert (Hstored : objects w2
                      !! Filepath.Join (basePath w2) (File.StorageKey file1)
                    = Some c2).
  { by rewrite Hobj2, Hb2, Hk1, lookup_insert_eq. }
  by rewrite (fetch_found ctx_get ctx_dec file1 w2 c2 Hstored), Hty.
Qed.

End RoundTrip.

(** C5.  An upload that holds the same bytes under an image name and
    under another name is stored with success, and one of the two files
    does not come back as uploaded, in whichever order the two goroutines
    have written the shared key: the image comes back as the compressed
    stream, or the other file cannot be decompressed. *)
Theorem same_bytes_in_two_storage_forms_not_returned_as_uploaded :
  let stored files :=
    UploadService.ProcessSnapshot (H := example_utils) rnd1 "cb1" "v1" "main"
      "first" files None true proj_world in
  is_Ok (stored same_bytes_two_forms).1 = true
  ∧ (ArchiveService.GetSingleFile (H := example_utils) "cb1" "main" "v1"
       "logo.png" (stored same_bytes_two_forms).2).1
    = Ok (Byte.x78 :: Byte.x01 :: ab, "logo.png")
  ∧ is_Ok (stored (rev same_bytes_two_forms)).1 = true
  ∧ (ArchiveService.GetSingleFile (H := example_utils) "cb1" "main" "v1"
       "logo.bak" (stored (rev same_bytes_two_forms)).2).1
    = Err "file decompression failed: zlib: invalid header".
Proof. repeat split; vm_compute; reflexivity. Qed.

(* ------------------------------------------------------------------ *)
(** ** The sort of the version index                                   *)
(* ------------------------------------------------------------------ *)

Lemma insert_desc_perm x l : insert_desc x l ≡ₚ x :: l.
Proof.
  induction l as [|y ys IH]; simpl; [done|].
  destruct (After _ _); [done|]. rewrite IH. apply Permutation_swap.
Qed.

Lemma fold_insert_desc_perm l : ∀ acc,
  fold_left (λ acc x, insert_desc x acc) l acc ≡ₚ (acc ++ l)%list.
Proof.
  induction l as [|x l IH]; intros acc; simpl.
  - by rewrite app_nil_r.
  - rewrite IH, insert_desc_perm. simpl. apply Permutation_middle.
Qed.

Lemma sort_Slice_perm l : sort_Slice l ≡ₚ l.
Proof. unfold sort_Slice. by rewrite fold_insert_desc_perm. Qed.

Lemma elem_of_sort_Slice v l : v ∈ sort_Slice l ↔ v ∈ l.
Proof. by rewrite sort_Slice_perm. Qed.

Lemma insert_desc_sorted x l :
  StronglySorted newer_or_same l → StronglySorted newer_or_same (insert_desc x l).
Proof.
  induction 1 as [|y ys Hs IH Hall]; simpl.
  - repeat constructor.
  - unfold After. destruct (Z.ltb_spec (Version.CreatedAt y) (Version.CreatedAt x)).
    + constructor; [by constructor|]. constructor.
      * unfold newer_or_same. lia.
      * eapply Forall_impl; [exact Hall|]. intros z Hz.
        unfold newer_or_same in *. lia.
    + constructor; [done|]. rewrite insert_desc_perm. by constructor.
Qed.

Lemma fold_insert_desc_sorted l : ∀ acc,
  StronglySorted newer_or_same acc →
  StronglySorted newer_or_same (fold_left (λ acc x, insert_desc x acc) l acc).
Proof.
  induction l as [|x l IH]; intros acc Hs; simpl; [done|].
  by apply IH, insert_desc_sorted.
Qed.

Lemma sort_Slice_sorted l : StronglySorted newer_or_same (sort_Slice l).
Proof. apply fold_insert_desc_sorted. constructor. Qed.

(** On a slice that is sorted already, the sort of [CreateVersion] puts
    the appended version in its place. *)
Lemma sort_Slice_append l v :
  sort_Slice (l ++ [v]) = insert_desc v (sort_Slice l).
Proof. unfold sort_Slice. by rewrite fold_left_app. Qed.

(* ------------------------------------------------------------------ *)
(** ** Invariants of the metadata store                                *)
(* ------------------------------------------------------------------ *)

Lemma store_inv_ext w w' :
  cache w' = cache w → db w' = db w → store_inv w → store_inv w'.
Proof. unfold store_inv. by intros -> ->. Qed.

Lemma keeps_metadata_preserves_inv {A} (c : M A) :
  keeps metadata c → preserves store_inv c.
Proof.
  intros Hk w Hi. specialize (Hk w). unfold metadata in Hk.
  injection Hk as Hc Hd. by apply (store_inv_ext w).
Qed.

Lemma syscall_preserves_inv : preserves store_inv syscall.
Proof. apply preserves_syscall. intros f w Hi. exact Hi. Qed.

Lemma save_preserves_inv f : preserves store_inv (save f).
Proof.
  unfold save. apply preserves_bind; [apply syscall_preserves_inv|].
  intros _. apply preserves_modify. intros w [Hc Hd].
  destruct Hc as (Hl & Hv & Hs & Hso), Hd as (Hlj & Hvj).
  destruct f; (split; [exact (conj Hl (conj Hv (conj Hs Hso))) | split; assumption]).
Qed.

Lemma modify_cache_preserves_inv (g : inMemoryCache → inMemoryCache) :
  (∀ c, cache_inv c → cache_inv (g c)) → preserves store_inv (modify_cache g).
Proof.
  intros Hg. apply preserves_modify. intros w [Hc Hd]. split; [by apply Hg | done].
Qed.

Lemma modify_db_history_preserves_inv (g : gmap string bytes → gmap string bytes) :
  preserves store_inv (modify_db (λ d, set_history_cache (g (history_cache d)) d)).
Proof. apply preserves_modify. intros w Hi. exact Hi. Qed.

Create HintDb go_inv.
#[local] Hint Resolve syscall_preserves_inv save_preserves_inv modify_db_history_preserves_inv : go_inv.

Ltac head_of t := lazymatch t with ?f _ => head_of f | _ => t end.
Ltac unfold_head :=
  lazymatch goal with
  | |- preserves _ ?c =>
      let h := head_of c in
      lazymatch h with
      | modify_cache => fail
      | modify_db => fail
      | modify => fail
      | syscall => fail
      | _ => unfold h
      end
  end.
Ltac inv_step :=
  lazymatch goal with
  | |- preserves _ (bind _ _) => apply preserves_bind; [| intros ?]
  | |- preserves _ (wrap _ _) => apply preserves_wrap
  | |- preserves _ (attempt _) => apply preserves_attempt
  | |- preserves _ (ret _) => apply preserves_ret
  | |- preserves _ (fail _) => apply preserves_fail
  | |- preserves _ (gets _) => apply preserves_gets
  | |- preserves _ (lift_res _) => apply preserves_lift_res
  | |- preserves _ (match ?x with _ => _ end) => destruct x
  end.
Ltac keep_inv :=
  repeat (first [ assumption | solve [auto 1 with go_inv nocore] | inv_step | unfold_head ]).

Lemma CreateCodebase_preserves_inv cb : preserves store_inv (JSONFileProvider.CreateCodebase cb).
Proof.
  unfold JSONFileProvider.CreateCodebase. keep_inv.
  apply modify_cache_preserves_inv. intros c0 Hc. exact Hc.
Qed.

Lemma UpdateCodebaseTimestamp_preserves_inv id t :
  preserves store_inv (JSONFileProvider.UpdateCodebaseTimestamp id t).
Proof.
  unfold JSONFileProvider.UpdateCodebaseTimestamp. keep_inv.
  apply modify_cache_preserves_inv. intros c0 Hc. exact Hc.
Qed.

Lemma CreateVersionLink_preserves_inv l cid child parent branch ty :
  preserves store_inv (JSONFileProvider.CreateVersionLink l cid child parent branch ty).
Proof.
  unfold JSONFileProvider.CreateVersionLink. keep_inv.
  apply modify_cache_preserves_inv. intros c0 (Hl & Hv & Hs & Hso).
  split; [| exact (conj Hv (conj Hs Hso))].
  intros k r. simpl. rewrite lookup_insert. case_decide as Hk.
  - by intros [= <-].
  - apply Hl.
Qed.

Lemma UpdateHistoryCache_preserves_inv cid data :
  preserves store_inv (JSONFileProvider.UpdateHistoryCache cid data).
Proof.
  unfold JSONFileProvider.UpdateHistoryCache. keep_inv.
Qed.

Lemma CreateVersion_preserves_inv v files :
  preserves store_inv (JSONFileProvider.CreateVersion v files).
Proof.
  intros w Hi. unfold JSONFileProvider.CreateVersion. unfold bind at 1, gets.
  destruct (Versions (cache w) !! Version.ID v) eqn:Hfresh; [exact Hi|].
  unfold bind at 1, modify_cache, modify.
  match goal with
  | |- store_inv (?k ?w').2 =>
      assert (Hrest : preserves store_inv k) by keep_inv;
      apply Hrest
  end.
  destruct Hi as [(Hl & Hv & Hs & Hso) Hd]. split; [|exact Hd].
  split; [exact Hl|]. split; [| split].
  - intros k u. simpl. rewrite lookup_insert. case_decide as Hk.
    + by intros [= <-].
    + apply Hv.
  - intros cid l u. simpl. rewrite lookup_insert. case_decide as Hc.
    + intros [= <-]. rewrite elem_of_sort_Slice, elem_of_app, list_elem_of_singleton.
      intros [Hu | ->].
      * destruct (versionsByCodebase (cache w) !! Version.CodebaseID v)
          as [l0|] eqn:El; simpl in Hu; [| by apply elem_of_nil in Hu].
        destruct (Hs _ _ _ El Hu) as [Hlook Hcid]. split; [|by rewrite Hcid].
        rewrite lookup_insert_ne; [done|]. intros Heq. by rewrite <- Heq, Hfresh in Hlook.
      * by rewrite lookup_insert_eq.
    + intros El Hu. destruct (Hs _ _ _ El Hu) as [Hlook Hcid]. split; [|done].
      rewrite lookup_insert_ne; [done|]. intros Heq. by rewrite <- Heq, Hfresh in Hlook.
  - intros cid l. simpl. rewrite lookup_insert. case_decide as Hc.
    + intros [= <-]. apply sort_Slice_sorted.
    + apply Hso.
Qed.

#[local] Hint Resolve CreateCodebase_preserves_inv UpdateCodebaseTimestamp_preserves_inv
  CreateVersionLink_preserves_inv UpdateHistoryCache_preserves_inv
  CreateVersion_preserves_inv : go_inv.

Lemma fold_delete_version l : ∀ c,
  let c' := fold_left JSONFileProvider.delete_version l c in
  versionsByCodebase c' = versionsByCodebase c
  ∧ (∀ k, Versions c' !! k
          = if decide (k ∈ map Version.ID l) then None else Versions c !! k)
  ∧ (∀ k r, VersionMapping c' !! k = Some r → VersionMapping c !! k = Some r).
Proof.
  induction l as [|v l IH]; intros c.
  - split; [done|]. split; [|done]. intros k.
    destruct (decide (k ∈ map Version.ID [])) as [Hk|Hk]; [|done].
    by apply elem_of_nil in Hk.
  - destruct (IH (JSONFileProvider.delete_version c v)) as (Hi & Hv & Hm).
    split; [exact Hi|]. split.
    + intros k. cbn [fold_left]. rewrite Hv. cbn [JSONFileProvider.delete_version Versions].
      destruct (decide (k ∈ map Version.ID l)) as [H1|H1];
        destruct (decide (k ∈ map Version.ID (v :: l))) as [H2|H2]; try done.
      * exfalso. apply H2. by right.
      * apply elem_of_cons in H2 as [-> | H2]; [|done]. apply lookup_delete_eq.
      * apply lookup_delete_ne. intros <-. apply H2. by left.
    + intros k r Hk. apply Hm in Hk. cbn [JSONFileProvider.delete_version VersionMapping] in Hk.
      apply lookup_delete_Some in Hk. tauto.
Qed.

Lemma delete_codebase_inv id c :
  cache_inv c → cache_inv (JSONFileProvider.delete_codebase id c).
Proof.
  intros (Hl & Hv & Hs & Hso). unfold JSONFileProvider.delete_codebase.
  set (c0 := mkCache (delete id (Codebases c)) (Versions c) (FileIndexes c)
               (VersionMapping c) (versionsByCodebase c)
               (versionIDByBranchAndName c)).
  destruct (fold_delete_version (default [] (versionsByCodebase c !! id)) c0)
    as (Hi & Hvs & Hm).
  set (c1 := fold_left JSONFileProvider.delete_version
               (default [] (versionsByCodebase c !! id)) c0) in *.
  split; [| split; [| split]]; simpl.
  - intros k r Hk. apply Hl. by apply Hm in Hk.
  - intros k u. rewrite Hvs. case_decide; [done|]. apply Hv.
  - intros cid l u. simpl. rewrite Hi. simpl.
    intros Hcid Hu. apply lookup_delete_Some in Hcid as [Hne El].
    destruct (Hs _ _ _ El Hu) as [Hlook Hc]. split; [|done].
    rewrite Hvs. simpl. case_decide as Hin; [|done].
    exfalso. apply list_elem_of_fmap in Hin as (u' & Hid & Hu').
    destruct (versionsByCodebase c !! id) as [l0|] eqn:El0; simpl in Hu';
      [| by apply elem_of_nil in Hu'].
    destruct (Hs _ _ _ El0 Hu') as [Hlook' Hc'].
    rewrite Hid, Hlook' in Hlook. injection Hlook as ->. congruence.
  - intros cid l. rewrite Hi. simpl. intros Hcid.
    apply lookup_delete_Some in Hcid as [_ El]. by apply (Hso cid).
Qed.

Lemma DeleteCodebaseByID_preserves_inv id :
  preserves store_inv (JSONFileProvider.DeleteCodebaseByID id).
Proof.
  unfold JSONFileProvider.DeleteCodebaseByID. keep_inv.
  - apply modify_cache_preserves_inv, delete_codebase_inv.
Qed.

#[local] Hint Resolve DeleteCodebaseByID_preserves_inv : go_inv.

(* ------------------------------------------------------------------ *)
(** ** Loops over maps and the restart                                 *)
(* ------------------------------------------------------------------ *)

Lemma elem_of_range_order {V} (iter : list string) (m : gmap string V) k v :
  (k, v) ∈ JSONFileProvider.range_order iter m ↔ m !! k = Some v.
Proof.
  unfold JSONFileProvider.range_order.
  rewrite elem_of_app, list_elem_of_omap, list_elem_of_filter, elem_of_map_to_list.
  split.
  - intros [(k' & Hk' & Hf) | [_ Hm]]; [|done].
    destruct (m !! k') as [v'|] eqn:E; simpl in Hf; [|done].
    by injection Hf as -> ->.
  - intros Hm. destruct (decide (k ∈ iter)) as [Hin|Hin].
    + left. exists k. rewrite elem_of_remove_dups. split; [done|]. by rewrite Hm.
    + right. by split.
Qed.

Lemma range_order_NoDup {V} (iter : list string) (m : gmap string V) :
  NoDup (JSONFileProvider.range_order iter m).
Proof.
  unfold JSONFileProvider.range_order. apply NoDup_app. split; [| split].
  - assert (Hnd : NoDup (remove_dups iter)) by apply NoDup_remove_dups.
    induction Hnd as [|k l Hk Hnd IH]; simpl; [constructor|].
    destruct (m !! k) as [v|]; simpl; [|done].
    constructor; [|done]. rewrite list_elem_of_omap.
    intros (k' & Hk' & Hf). destruct (m !! k'); simpl in Hf; [|done].
    injection Hf as -> _. done.
  - intros [k v]. rewrite list_elem_of_omap, list_elem_of_filter.
    intros (k' & Hk' & Hf) [Hnot _].
    destruct (m !! k'); simpl in Hf; [|done]. injection Hf as -> _.
    apply Hnot. simpl. by apply elem_of_remove_dups.
  - apply NoDup_filter, NoDup_map_to_list.
Qed.

Lemma range_order_perm {V} (iter : list string) (m : gmap string V) :
  JSONFileProvider.range_order iter m ≡ₚ map_to_list m.
Proof.
  apply NoDup_Permutation.
  - apply range_order_NoDup.
  - apply NoDup_map_to_list.
  - intros [k v]. by rewrite elem_of_range_order, elem_of_map_to_list.
Qed.

Lemma group_by_codebase visited : ∀ (m : gmap string (list Version.t)) cid l v,
  fold_left
    (λ (m : gmap string (list Version.t)) v,
       <[Version.CodebaseID v
         := (default [] (m !! Version.CodebaseID v) ++ [v])%list]> m)
    visited m !! cid = Some l →
  v ∈ l →
  (∃ l0, m !! cid = Some l0 ∧ v ∈ l0)
  ∨ (v ∈ visited ∧ Version.CodebaseID v = cid).
Proof.
  induction visited as [|u visited IH]; intros m cid l v Hl Hv; simpl in Hl.
  - left. by exists l.
  - destruct (IH _ _ _ _ Hl Hv) as [(l0 & Hl0 & Hv0) | [Hin Hc]].
    + rewrite lookup_insert in Hl0. case_decide as Hk.
      * injection Hl0 as <-. apply elem_of_app in Hv0 as [Hv0 | Hv0].
        -- left. destruct (m !! Version.CodebaseID u) as [l1|] eqn:E;
             simpl in Hv0; [| by apply elem_of_nil in Hv0].
           exists l1. by rewrite <- Hk.
        -- apply list_elem_of_singleton in Hv0 as ->. right. split; [by left | done].
      * left. by exists l0.
    + right. split; [by right | done].
Qed.

Lemma NewJSONFileProvider_preserves_inv iter :
  preserves store_inv (NewJSONFileProvider iter).
Proof.
  unfold NewJSONFileProvider. apply preserves_modify.
  intros w [_ [Hlj Hvj]]. split; [| by split].
  split; [exact Hlj|]. split; [exact Hvj|]. split.
  - intros cid l v. cbn. rewrite lookup_fmap. intros Hl Hv.
    destruct (_ !! cid) as [l0|] eqn:El0; simpl in Hl; [|done].
    injection Hl as <-. rewrite elem_of_sort_Slice in Hv.
    destruct (group_by_codebase _ _ _ _ _ El0 Hv) as [(l1 & Hl1 & _) | [Hin Hc]].
    { by rewrite lookup_empty in Hl1. }
    split; [|done].
    apply list_elem_of_fmap in Hin as ([k v'] & -> & Hkv). simpl.
    apply elem_of_range_order in Hkv. by rewrite (Hvj _ _ Hkv).
  - intros cid l. cbn. rewrite lookup_fmap. intros Hl.
    destruct (_ !! cid) as [l0|]; simpl in Hl; [|done].
    injection Hl as <-. apply sort_Slice_sorted.
Qed.

#[local] Hint Resolve NewJSONFileProvider_preserves_inv : go_inv.

Lemma PutObject_preserves_inv k data :
  preserves store_inv (LocalStorage.PutObject k data).
Proof. apply keeps_metadata_preserves_inv, keeps_intro. intros x. frame. Qed.

Lemma GetObject_preserves_inv k :
  preserves store_inv (LocalStorage.GetObject k).
Proof. apply keeps_metadata_preserves_inv, keeps_intro. intros x. frame. Qed.

Lemma DeleteObjectsWithPrefix_preserves_inv prefix :
  preserves store_inv (LocalStorage.DeleteObjectsWithPrefix prefix).
Proof. apply keeps_metadata_preserves_inv, DeleteObjectsWithPrefix_keeps_metadata. Qed.

Lemma modify_spawned_preserves_inv (g : World → list string) :
  preserves store_inv (modify (λ w, set_spawned (g w) w)).
Proof. apply preserves_modify. intros w Hi. exact Hi. Qed.

#[local] Hint Resolve PutObject_preserves_inv GetObject_preserves_inv
  DeleteObjectsWithPrefix_preserves_inv modify_spawned_preserves_inv : go_inv.

Section Services.
Context `{!Utils}.

Lemma run_units_preserves_inv files name : ∀ g, preserves store_inv (run_units files name g).
Proof.
  induction files as [|[p h] rest IH]; intros g; simpl; [apply preserves_ret|].
  apply preserves_bind.
  - apply preserves_attempt. unfold processFile. keep_inv.
  - intros r. apply IH.
Qed.

#[local] Hint Resolve run_units_preserves_inv : go_inv.

Lemma do_event_preserves_inv e w : store_inv w → store_inv (do_event e w).
Proof.
  revert w. change (∀ w, store_inv w → store_inv (do_event e w)) .
  destruct e as [id now name d b| rnd cid ver b msg files bf auto | iter cid
                | l cid ch pa | cid | cid b v p | iter | c | f | iter];
    unfold do_event, discard.
  - fold (preserves store_inv (InitService.InitializeCodebase id now name d b)). keep_inv.
  - fold (preserves store_inv (UploadService.ProcessSnapshot rnd cid ver b msg files bf auto)). keep_inv.
  - fold (preserves store_inv (HistoryService.GetVersionMap iter cid)). keep_inv.
  - fold (preserves store_inv (HistoryService.CreateVersionLink l cid ch pa)). keep_inv.
  - fold (preserves store_inv (DeleteService.DeleteCodebase cid)). keep_inv.
  - fold (preserves store_inv (ArchiveService.GetSingleFile cid b v p)). keep_inv.
  - fold (preserves store_inv (HistoryService.run_spawned iter)). keep_inv.
  - destruct c; unfold do_store_call, discard;
      match goal with |- ∀ w, store_inv w → store_inv (?c w).2 =>
        fold (preserves store_inv c) end; auto 1 with go_inv nocore.
  - intros w Hi. exact Hi.
  - fold (preserves store_inv (NewJSONFileProvider iter)). keep_inv.
Qed.

Lemma reachable_inv w : reachable w → store_inv w.
Proof.
  induction 1 as [base f | w e _ IH].
  - unfold store_inv, cache_inv, db_inv, links_keyed, versions_keyed,
      index_sound, index_sorted. cbn.
    repeat match goal with |- _ ∧ _ => split end; intros;
      match goal with H : ∅ !! _ = Some _ |- _ => by rewrite lookup_empty in H end.
  - by apply do_event_preserves_inv.
Qed.
End Services.

(* ------------------------------------------------------------------ *)
(** ** Lineage links: one parent at most                               *)
(* ------------------------------------------------------------------ *)

Lemma no_key_no_link (l : list (string * versionMappingRecord.t)) v :
  (∀ k r, (k, r) ∈ l → versionMappingRecord.ChildVersionID r = k) →
  v ∉ l.*1 →
  List.filter (λ r, String.eqb (versionMappingRecord.ChildVersionID r) v)
              (map snd l) = [].
Proof.
  induction l as [|[k r] l IH]; intros Hkey Hv; simpl; [done|].
  rewrite (Hkey k r) by left.
  destruct (String.eqb_spec k v) as [->|Hne].
  - exfalso. apply Hv. simpl. by left.
  - apply IH.
    + intros k' r' Hin. apply Hkey. by right.
    + intros Hin. apply Hv. simpl. by right.
Qed.

Lemma keyed_links_at_most_one (l : list (string * versionMappingRecord.t)) v :
  NoDup l.*1 →
  (∀ k r, (k, r) ∈ l → versionMappingRecord.ChildVersionID r = k) →
  (List.length (List.filter
            (λ r, String.eqb (versionMappingRecord.ChildVersionID r) v)
            (map snd l)) ≤ 1)%nat.
Proof.
  induction l as [|[k r] l IH]; intros Hnd Hkey; simpl; [lia|].
  apply NoDup_cons in Hnd as [Hk Hnd].
  rewrite (Hkey k r) by left.
  destruct (String.eqb_spec k v) as [->|Hne].
  - rewrite no_key_no_link; [simpl; lia | | done].
    intros k' r' Hin. apply Hkey. by right.
  - apply IH; [done|]. intros k' r' Hin. apply Hkey. by right.
Qed.

Lemma links_keyed_at_most_one m v :
  links_keyed m → (List.length (links_of_child v m) ≤ 1)%nat.
Proof.
  intros Hl. unfold links_of_child. apply keyed_links_at_most_one.
  - apply NoDup_fst_map_to_list.
  - intros k r Hin. apply (Hl k r). by apply elem_of_map_to_list.
Qed.

Lemma CreateVersionLink_existing linkID codebaseID childID parentID branch linkType w existing :
  VersionMapping (cache w) !! childID = Some existing →
  JSONFileProvider.CreateVersionLink linkID codebaseID childID parentID branch linkType w = (Ok tt, w).
Proof.
  intros E. unfold JSONFileProvider.CreateVersionLink, bind, gets. by rewrite E.
Qed.

Section AtMostOneParent.
Context `{!Utils}.

(** C2.  In every state the process can reach, at most one link has a
    given version as its child, in memory and in the file of the links:
    each version has at most one parent.  [CreateVersionLink] for a child
    that has a link returns without error and leaves the whole state, and
    so the link, as it is.  That the links have no cycle is not part of
    the statement: a link requested by hand can close one. *)
Theorem each_version_has_at_most_one_parent (w : World) :
  reachable w →
  (∀ v, (List.length (links_of_child v (VersionMapping (cache w))) ≤ 1)%nat)
  ∧ (∀ v, (List.length (links_of_child v (version_mapping_json (db w))) ≤ 1)%nat)
  ∧ (∀ linkID codebaseID childID parentID branch linkType existing,
       VersionMapping (cache w) !! childID = Some existing →
       JSONFileProvider.CreateVersionLink linkID codebaseID childID parentID
         branch linkType w = (Ok tt, w)).
Proof.
  intros Hr. apply reachable_inv in Hr as [(Hl & _) (Hlj & _)].
  split; [| split].
  - intros v. by apply links_keyed_at_most_one.
  - intros v. by apply links_keyed_at_most_one.
  - intros. by eapply CreateVersionLink_existing.
Qed.
End AtMostOneParent.

Lemma dev3_world_reachable : reachable (H := example_utils) dev3_world.
Proof.
  do 3 apply reachable_event.
  exact (reachable_event (H := example_utils) _
           (Initialize "cb1" 100 "proj" "" "main") (reachable_new "cvcs_data/oss" [])).
Qed.

(** The links need not form a forest.  [CreateVersionLinkWithType] looks
    the two versions up and [CreateVersionLink] looks for a link of the
    child; neither compares the new link with the links of the parent.
    The second snapshot on the branch was linked to the first; a request
    to link the first, which has no link, to the second is carried out,
    and each of the two versions is then the parent of the other. *)
Lemma manual_links_can_close_a_cycle :
  reachable (H := example_utils) cycle_world
  ∧ VersionMapping (cache cycle_world) !! "v1"
    = Some (versionMappingRecord.mk "l9" "cb1" "dev" "v1" "v2"
              LinkageTypeSequential)
  ∧ VersionMapping (cache cycle_world) !! "v2"
    = Some (versionMappingRecord.mk "l2" "cb1" "dev" "v2" "v1"
              LinkageTypeSequential)
  ∧ ¬ acyclic (VersionMapping (cache cycle_world)).
Proof.
  assert (H1 : VersionMapping (cache cycle_world) !! "v1"
               = Some (versionMappingRecord.mk "l9" "cb1" "dev" "v1" "v2"
                         LinkageTypeSequential))
    by (vm_compute; reflexivity).
  assert (H2 : VersionMapping (cache cycle_world) !! "v2"
               = Some (versionMappingRecord.mk "l2" "cb1" "dev" "v2" "v1"
                         LinkageTypeSequential))
    by (vm_compute; reflexivity).
  split; [| split; [exact H1 | split; [exact H2 |]]].
  - do 3 apply reachable_event.
    exact (reachable_event (H := example_utils) _
             (Initialize "cb1" 100 "proj" "" "main")
             (reachable_new "cvcs_data/oss" [])).
  - intros Hac. apply (Hac "v1"). apply (tc_l _ _ "v2").
    + eexists. split; [exact H1 | reflexivity].
    + apply tc_once. eexists. split; [exact H2 | reflexivity].
Qed.

(** The theorem after three snapshots on one branch. *)
Lemma each_version_has_at_most_one_parent_witness :
  (List.length (links_of_child "v3" (VersionMapping (cache dev3_world))) ≤ 1)%nat
  ∧ JSONFileProvider.CreateVersionLink "l9" "cb1" "v3" "v1" "dev"
      LinkageTypeBranchFrom dev3_world = (Ok tt, dev3_world).
Proof.
  destruct (each_version_has_at_most_one_parent (H := example_utils) dev3_world
              dev3_world_reachable) as (H1 & _ & H3).
  split; [apply H1|].
  apply (H3 "l9" "cb1" "v3" "v1" "dev" LinkageTypeBranchFrom
            (versionMappingRecord.mk "l3" "cb1" "dev" "v3" "v2"
               LinkageTypeSequential)).
  reflexivity.
Defined.

(* ------------------------------------------------------------------ *)
(** ** The version graph and its cache                                 *)
(* ------------------------------------------------------------------ *)

Lemma graph_queries iter codebaseID w :
  JSONFileProvider.GetAllVersionsForMap codebaseID w
  = (Ok (VersionMapResponse.Nodes (graph_of iter codebaseID (cache w))), w)
  ∧ JSONFileProvider.GetAllVersionEdgesForMap iter codebaseID w
    = (Ok (VersionMapResponse.Edges (graph_of iter codebaseID (cache w))), w)
  ∧ JSONFileProvider.GetBranchHeadsForMap codebaseID w
    = (Ok (VersionMapResponse.Refs (graph_of iter codebaseID (cache w))), w).
Proof.
  unfold JSONFileProvider.GetAllVersionsForMap,
    JSONFileProvider.GetAllVersionEdgesForMap,
    JSONFileProvider.GetBranchHeadsForMap, graph_of, bind, gets, ret.
  cbn [VersionMapResponse.Nodes VersionMapResponse.Edges VersionMapResponse.Refs].
  by destruct (versionsByCodebase (cache w) !! codebaseID).
Qed.

Lemma UpdateHistoryCache_Ok codebaseID data w w' :
  JSONFileProvider.UpdateHistoryCache codebaseID data w = (Ok tt, w') →
  cache w' = cache w
  ∧ history_cache (db w') = <[codebaseID := data]> (history_cache (db w))
  ∧ spawned w' = spawned w.
Proof.
  unfold JSONFileProvider.UpdateHistoryCache, bind, modify_db, modify.
  destruct (syscall w) as [[[]|e] wa] eqn:E1; [|done].
  destruct (syscall wa) as [[[]|e] wb] eqn:E2; [|done].
  apply syscall_Ok in E1 as (Hc1 & Hd1 & _ & _ & Hs1).
  apply syscall_Ok in E2 as (Hc2 & Hd2 & _ & _ & Hs2).
  intros [= <-]. simpl. by rewrite Hc2, Hc1, Hd2, Hd1, Hs2, Hs1.
Qed.

Lemma RebuildHistoryCache_Ok iter codebaseID w g w' :
  HistoryService.RebuildHistoryCache iter codebaseID w = (Ok g, w') →
  g = graph_of iter codebaseID (cache w)
  ∧ cache w' = cache w
  ∧ history_cache (db w')
    = <[codebaseID := Json.Marshal g]> (history_cache (db w))
  ∧ spawned w' = spawned w.
Proof.
  unfold HistoryService.RebuildHistoryCache.
  destruct (graph_queries iter codebaseID w) as (Hn & He & Hr).
  rewrite (bind_Ok _ _ _ _ _ (wrap_Ok _ _ _ _ _ Hn)).
  rewrite (bind_Ok _ _ _ _ _ (wrap_Ok _ _ _ _ _ He)).
  rewrite (bind_Ok _ _ _ _ _ (wrap_Ok _ _ _ _ _ Hr)).
  intros E. apply bind_Ok_inv in E as ([] & w1 & Hu & E).
  apply wrap_Ok_inv, UpdateHistoryCache_Ok in Hu as (Hc & Hh & Hs).
  injection E as <- <-. done.
Qed.

Lemma List_filter_perm {A} (f : A → bool) (l1 l2 : list A) :
  l1 ≡ₚ l2 → List.filter f l1 ≡ₚ List.filter f l2.
Proof.
  induction 1 as [|x l1 l2 _ IH|x y l|l1 l2 l3 _ IH1 _ IH2]; simpl.
  - done.
  - destruct (f x); [by constructor | done].
  - destruct (f x), (f y); try done. apply Permutation_swap.
  - by etrans.
Qed.

Lemma graph_of_edges_perm iter1 iter2 codebaseID c :
  VersionMapResponse.Edges (graph_of iter1 codebaseID c)
  ≡ₚ VersionMapResponse.Edges (graph_of iter2 codebaseID c).
Proof.
  unfold graph_of. simpl. apply fmap_Permutation, List_filter_perm, fmap_Permutation.
  by rewrite !range_order_perm.
Qed.

Lemma perm_short {A} (l1 l2 : list A) :
  l1 ≡ₚ l2 → (List.length l1 ≤ 1)%nat → l1 = l2.
Proof.
  intros Hp Hl. destruct l1 as [|x [|y l1]]; simpl in Hl; [| | lia].
  - by apply Permutation_nil_l in Hp.
  - by apply Permutation_singleton_l in Hp.
Qed.

(** C7, as amended.  Two rebuilds of the graph of a codebase, the second
    from the state the first has left, write graphs with the same
    codebase id, the same nodes in the same order, the same refs and the
    same edges up to their order.  The two cache contents are the same
    bytes when the loops over the links visit them in the same order, or
    when there is one edge at most. *)
Theorem rebuild_twice_same_graph_up_to_edge_order
  (iter1 iter2 : list string) (codebaseID : string) (w w1 w2 : World)
  (g1 g2 : VersionMapResponse.t) :
  HistoryService.RebuildHistoryCache iter1 codebaseID w = (Ok g1, w1) →
  HistoryService.RebuildHistoryCache iter2 codebaseID w1 = (Ok g2, w2) →
  history_cache (db w1) !! codebaseID = Some (Json.Marshal g1)
  ∧ history_cache (db w2) !! codebaseID = Some (Json.Marshal g2)
  ∧ VersionMapResponse.CodebaseID g1 = VersionMapResponse.CodebaseID g2
  ∧ VersionMapResponse.Nodes g1 = VersionMapResponse.Nodes g2
  ∧ VersionMapResponse.Refs g1 = VersionMapResponse.Refs g2
  ∧ VersionMapResponse.Edges g1 ≡ₚ VersionMapResponse.Edges g2
  ∧ (iter1 = iter2
     ∨ (List.length (VersionMapResponse.Edges g1) ≤ 1)%nat →
     history_cache (db w1) !! codebaseID = history_cache (db w2) !! codebaseID).
Proof.
  intros E1 E2.
  apply RebuildHistoryCache_Ok in E1 as (Hg1 & Hc1 & Hh1 & _).
  apply RebuildHistoryCache_Ok in E2 as (Hg2 & Hc2 & Hh2 & _).
  rewrite Hc1 in Hg2.
  rewrite Hh1, Hh2, !lookup_insert_eq.
  assert (Hp : VersionMapResponse.Edges g1 ≡ₚ VersionMapResponse.Edges g2).
  { subst g1 g2. apply graph_of_edges_perm. }
  do 5 (split; [by subst g1 g2|]).
  split; [done|].
  intros Hsame. f_equal. f_equal.
  destruct Hsame as [-> | Hlen]; [by subst g1 g2|].
  apply (perm_short _ _ Hp) in Hlen.
  subst g1 g2. unfold graph_of in *. simpl in Hlen. by rewrite Hlen.
Qed.

(** C7 as stated fails: after three snapshots on one branch there are
    two links; two rebuilds in a row, with nothing written in between,
    whose loops meet the links in different orders, leave different
    bytes in the cache. *)
Lemma rebuild_twice_bytes_differ :
  let first := HistoryService.RebuildHistoryCache ["v2"; "v3"] "cb1" dev3_world in
  let second := HistoryService.RebuildHistoryCache ["v3"; "v2"] "cb1" first.2 in
  is_Ok first.1 = true
  ∧ is_Ok second.1 = true
  ∧ cache first.2 = cache dev3_world
  ∧ history_cache (db first.2) !! "cb1" ≠ history_cache (db second.2) !! "cb1".
Proof.
  split; [vm_compute; reflexivity|]. split; [vm_compute; reflexivity|].
  split; [vm_compute; reflexivity|].
  vm_compute. intros H. discriminate H.
Qed.

(** The amended theorem at the two rebuilds of the counterexample. *)
Lemma rebuild_twice_same_graph_up_to_edge_order_witness :
  VersionMapResponse.Edges (graph_of ["v2"; "v3"] "cb1" (cache dev3_world))
  ≡ₚ VersionMapResponse.Edges (graph_of ["v3"; "v2"] "cb1" (cache dev3_world)).
Proof.
  set (first := HistoryService.RebuildHistoryCache ["v2"; "v3"] "cb1" dev3_world).
  set (second := HistoryService.RebuildHistoryCache ["v3"; "v2"] "cb1" first.2).
  assert (E1 : first
               = (Ok (graph_of ["v2"; "v3"] "cb1" (cache dev3_world)), first.2))
    by (vm_compute; reflexivity).
  assert (E2 : second
               = (Ok (graph_of ["v3"; "v2"] "cb1" (cache dev3_world)), second.2))
    by (vm_compute; reflexivity).
  exact (proj1 (proj2 (proj2 (proj2 (proj2 (proj2
           (rebuild_twice_same_graph_up_to_edge_order
              ["v2"; "v3"] ["v3"; "v2"] "cb1" dev3_world first.2 second.2
              (graph_of ["v2"; "v3"] "cb1" (cache dev3_world))
              (graph_of ["v3"; "v2"] "cb1" (cache dev3_world)) E1 E2))))))).
Defined.

Lemma GetHistoryCache_hit codebaseID w blob :
  history_cache (db w) !! codebaseID = Some blob →
  JSONFileProvider.GetHistoryCache codebaseID w = (Ok blob, w).
Proof.
  intros E. unfold JSONFileProvider.GetHistoryCache, bind, gets. by rewrite E.
Qed.

Lemma GetHistoryCache_miss codebaseID w :
  history_cache (db w) !! codebaseID = None →
  JSONFileProvider.GetHistoryCache codebaseID w = (Err "cache not found", w).
Proof.
  intros E. unfold JSONFileProvider.GetHistoryCache, bind, gets. by rewrite E.
Qed.

Lemma GetVersionMap_hit iter codebaseID w blob :
  history_cache (db w) !! codebaseID = Some blob →
  HistoryService.GetVersionMap iter codebaseID w = (Ok blob, w).
Proof.
  intros E. unfold HistoryService.GetVersionMap, bind at 1, attempt.
  by rewrite (GetHistoryCache_hit _ _ _ E).
Qed.

Lemma GetVersionMap_miss iter codebaseID w :
  history_cache (db w) !! codebaseID = None →
  HistoryService.GetVersionMap iter codebaseID w
  = (exec wrap "failed to build history cache: "
            (HistoryService.RebuildHistoryCache iter codebaseID);
     wrap "failed to read newly built cache: "
          (JSONFileProvider.GetHistoryCache codebaseID)) w.
Proof.
  intros E. unfold HistoryService.GetVersionMap at 1. unfold bind at 1, attempt.
  by rewrite (GetHistoryCache_miss _ _ E).
Qed.

Section CacheCoherence.
Context `{!Utils}.

Lemma establishLinkage_keeps_graph_cache linkID cid vid branch bf :
  keeps graph_cache (UploadService.establishLinkage linkID cid vid branch bf).
Proof. apply keeps_intro; intros x. frame. Qed.

Lemma establishLinkage_keeps_version_store linkID cid vid branch bf :
  keeps version_store (UploadService.establishLinkage linkID cid vid branch bf).
Proof. apply keeps_intro; intros x. frame. Qed.

Lemma CreateSnapshot_keeps_graph_cache rnd files name branch ver msg :
  keeps graph_cache (CreateSnapshot rnd files name branch ver msg).
Proof.
  apply keeps_intro; intros x.
  assert (Hu : ∀ g, preserves (λ w, graph_cache w = x) (run_units files name g)).
  { induction files as [|[p h] rest IH]; intros g; simpl; frame. }
  unfold CreateSnapshot, processFiles. frame.
Qed.

Lemma CreateSnapshot_keeps_version_store rnd files name branch ver msg :
  keeps version_store (CreateSnapshot rnd files name branch ver msg).
Proof.
  apply keeps_intro; intros x.
  assert (Hu : ∀ g, preserves (λ w, version_store w = x) (run_units files name g)).
  { induction files as [|[p h] rest IH]; intros g; simpl; frame. }
  unfold CreateSnapshot, processFiles. frame.
Qed.

Lemma persistMetadata_keeps_graph_cache now cb v ft :
  keeps graph_cache (UploadService.persistMetadata now cb v ft).
Proof. apply keeps_intro; intros x. frame. Qed.

Lemma UpdateCodebaseTimestamp_keeps_version_store id t :
  keeps version_store (JSONFileProvider.UpdateCodebaseTimestamp id t).
Proof. apply keeps_intro; intros x. frame. Qed.


Lemma save_keeps_cache f : keeps cache (save f).
Proof. apply keeps_intro; intros x. destruct f; frame. Qed.

Lemma saves_keep_cache f1 f2 : keeps cache (exec save f1; save f2).
Proof. apply keeps_intro; intros x. destruct f1, f2; frame. Qed.

Lemma CreateVersion_Ok v files w w' :
  JSONFileProvider.CreateVersion v files w = (Ok tt, w') →
  Versions (cache w) !! Version.ID v = None
  ∧ Versions (cache w') !! Version.ID v = Some v
  ∧ v ∈ versions_of (Version.CodebaseID v) w'
  ∧ graph_cache w' = graph_cache w.
Proof.
  intros E.
  assert (Hg : keeps graph_cache (JSONFileProvider.CreateVersion v files)).
  { apply keeps_intro; intros x. frame. }
  specialize (Hg w). rewrite E in Hg. simpl in Hg.
  unfold JSONFileProvider.CreateVersion in E. unfold bind at 1, gets in E.
  destruct (Versions (cache w) !! Version.ID v) eqn:Hfresh; [done|].
  split; [done|].
  unfold bind at 1, modify_cache, modify in E.
  match type of E with
  | ?k ?w0 = _ => pose proof (saves_keep_cache versions_file file_indexes_file w0) as Hk
  end.
  rewrite E in Hk. simpl in Hk. unfold versions_of. rewrite Hk. simpl.
  rewrite !lookup_insert_eq. simpl.
  split; [done|]. split; [|done].
  rewrite elem_of_sort_Slice, elem_of_app, list_elem_of_singleton. by right.
Qed.

Lemma ProcessSnapshot_Ok_inv rnd cid ver branch msg files bf auto w resp w' :
  UploadService.ProcessSnapshot rnd cid ver branch msg files bf auto w
  = (Ok resp, w') →
  ∃ cb vt w1 w2 h,
    Codebases (cache w) !! cid = Some cb
    ∧ CreateSnapshot rnd files (Codebase.Name cb) branch ver msg w = (Ok vt, w1)
    ∧ UploadService.persistMetadata (Rand.updatedAt rnd) cb
        (Version.with_CodebaseID vt.1 cid) vt.2 w1 = (Ok tt, w2)
    ∧ HistoryService.GetVersionMap (Rand.iter rnd) cid
        (if auto
         then (UploadService.establishLinkage (Rand.linkID rnd) cid
                 (Version.ID (Version.with_CodebaseID vt.1 cid)) branch bf w2).2
         else w2) = (h, w')
    ∧ resp = SnapshotResponse.mk
               (Codebase.with_UpdatedAt cb (Rand.respondedAt rnd))
               (Version.with_CodebaseID vt.1 cid) vt.2
               match h with Ok j => Some j | Err _ => None end.
Proof.
  intros E. unfold UploadService.ProcessSnapshot in E.
  apply bind_Ok_inv in E as (cb & w0 & Hcb & E).
  apply wrap_Ok_inv in Hcb.
  assert (Hcb' : Codebases (cache w) !! cid = Some cb ∧ w0 = w).
  { unfold JSONFileProvider.GetCodebaseByID, bind, gets in Hcb.
    destruct (Codebases (cache w) !! cid); [|done]. by injection Hcb as -> ->. }
  destruct Hcb' as [Hcb' ->].
  apply bind_Ok_inv in E as (vt & w1 & Hcs & E).
  apply bind_Ok_inv in E as ([] & w2 & Hpm & E).
  apply bind_Ok_inv in E as ([] & w3 & Hlink & E).
  apply bind_Ok_inv in E as (h & w4 & Hmap & E).
  injection E as <- <-.
  exists cb, vt, w1, w2, h. repeat (split; [done|]). split; [|done].
  unfold attempt in Hmap.
  destruct auto.
  - apply bind_Ok_inv in Hlink as (r & w5 & Hl & Hret).
    injection Hret as Hw. unfold attempt in Hl.
    destruct (UploadService.establishLinkage (Rand.linkID rnd) cid
                (Version.ID (Version.with_CodebaseID vt.1 cid)) branch bf w2)
      as [r' w6].
    injection Hl as _ Hw'. simpl. subst w6 w3.
    destruct (HistoryService.GetVersionMap (Rand.iter rnd) cid w5) as [h' w7].
    by injection Hmap as <- <-.
  - injection Hlink as <-.
    destruct (HistoryService.GetVersionMap (Rand.iter rnd) cid w2) as [h' w7].
    by injection Hmap as <- <-.
Qed.

Lemma CreateSnapshot_Ok_ID rnd files name branch ver msg w vt w1 :
  CreateSnapshot rnd files name branch ver msg w = (Ok vt, w1) →
  Version.ID vt.1 = Rand.versionID rnd.
Proof.
  unfold CreateSnapshot. intros E.
  apply bind_Ok_inv in E as (ps & w0 & _ & E). by injection E as <- _.
Qed.

Lemma node_ids iter cid (w : World) :
  map VersionNode.ID (VersionMapResponse.Nodes (graph_of iter cid (cache w)))
  = map Version.ID (versions_of cid w).
Proof.
  unfold graph_of, versions_of. simpl. rewrite map_map. done.
Qed.

Lemma manual_link_schedules_rebuild linkID cid child parent w w' :
  HistoryService.CreateVersionLink linkID cid child parent w = (Ok tt, w') →
  spawned w' = (spawned w ++ [cid])%list
  ∧ history_cache (db w') = history_cache (db w).
Proof.
  unfold HistoryService.CreateVersionLink, HistoryService.CreateVersionLinkWithType.
  intros E.
  apply bind_Ok_inv in E as (cv & w1 & Hc & E).
  apply bind_Ok_inv in E as (pv & w2 & Hp & E).
  apply bind_Ok_inv in E as ([] & w3 & Hl & E).
  apply bind_Ok_inv in E as ([] & w4 & Hgo & E).
  injection E as <-.
  unfold HistoryService.go_RebuildHistoryCache, modify in Hgo.
  injection Hgo as <-. simpl.
  assert (K1 : keeps graph_cache
                 (JSONFileProvider.GetVersion cid (vi_Branch child) (vi_Version child)))
    by (apply keeps_intro; intros x; frame).
  assert (K2 : keeps graph_cache
                 (JSONFileProvider.GetVersion cid (vi_Branch parent) (vi_Version parent)))
    by (apply keeps_intro; intros x; frame).
  assert (K3 : keeps graph_cache
                 (JSONFileProvider.CreateVersionLink linkID cid (Version.ID cv)
                    (Version.ID pv) (vi_Branch child) LinkageTypeSequential))
    by (apply keeps_intro; intros x; frame).
  apply wrap_Ok_inv in Hc, Hp, Hl.
  specialize (K1 w). rewrite Hc in K1. specialize (K2 w1). rewrite Hp in K2.
  specialize (K3 w2). rewrite Hl in K3. simpl in *.
  unfold graph_cache in *.
  injection K1 as A1 B1. injection K2 as A2 B2. injection K3 as A3 B3.
  by rewrite B3, B2, B1, A3, A2, A1.
Qed.

(** Of the requests and store calls, only the manual creation of a link
    starts a goroutine. *)
Lemma rebuilds_are_spawned_by_manual_links_only e w :
  match e with
  | Link _ _ _ _ | Goroutine _ | Restart _ => True
  | _ => spawned (do_event e w) = spawned w
  end.
Proof.
  destruct e as [id now name d b| rnd cid ver b msg files bf auto | iter cid
                | l cid ch pa | cid | cid b v p | iter | c | f | iter];
    try done; unfold do_event, discard.
  - assert (K : keeps spawned (InitService.InitializeCodebase id now name d b))
      by (apply keeps_intro; intros x; frame).
    apply K.
  - assert (K : keeps spawned
                  (UploadService.ProcessSnapshot rnd cid ver b msg files bf auto)).
    { apply keeps_intro; intros x.
      assert (Hu : ∀ g n, preserves (λ w, spawned w = x) (run_units files n g)).
      { induction files as [|[p h] rest IH]; intros g n; simpl; frame. }
      unfold UploadService.ProcessSnapshot, CreateSnapshot, processFiles. frame. }
    apply K.
  - assert (K : keeps spawned (HistoryService.GetVersionMap iter cid))
      by (apply keeps_intro; intros x; frame).
    apply K.
  - assert (K : keeps spawned (DeleteService.DeleteCodebase cid))
      by (apply keeps_intro; intros x; frame).
    apply K.
  - assert (K : keeps spawned (ArchiveService.GetSingleFile cid b v p))
      by (apply keeps_intro; intros x; frame).
    apply K.
  - destruct c; unfold do_store_call, discard;
      match goal with |- spawned (?c w).2 = spawned w =>
        assert (K : keeps spawned c) by (apply keeps_intro; intros x; frame);
        apply K end.
Qed.

(** C6.  [GetVersionMap] returns the cached bytes as they are when the
    cache file of the codebase exists, and leaves the state alone; when
    it does not exist, it rebuilds the graph and reads the cache again.
    The automatic linkage of a snapshot writes neither the cache nor a
    goroutine; the manual creation of a link returns with a rebuild
    scheduled and the cache not yet written, and no other request or
    store call schedules one.  So a snapshot with
    automatic linkage taken while the cache exists answers with the cache
    as it was, which later reads return too, although the new version is
    stored: the graph of the state before the request has no node for
    it, the graph of the state after has one. *)
Theorem cache_hit_is_served_as_is_and_snapshots_do_not_refresh_it :
  (∀ iter codebaseID w blob,
     history_cache (db w) !! codebaseID = Some blob →
     HistoryService.GetVersionMap iter codebaseID w = (Ok blob, w))
  ∧ (∀ iter codebaseID w,
       history_cache (db w) !! codebaseID = None →
       HistoryService.GetVersionMap iter codebaseID w
       = (exec wrap "failed to build history cache: "
                 (HistoryService.RebuildHistoryCache iter codebaseID);
          wrap "failed to read newly built cache: "
               (JSONFileProvider.GetHistoryCache codebaseID)) w)
  ∧ (∀ linkID codebaseID versionID branch branchFrom w,
       let w' := (UploadService.establishLinkage linkID codebaseID versionID
                    branch branchFrom w).2 in
       history_cache (db w') = history_cache (db w) ∧ spawned w' = spawned w)
  ∧ (∀ linkID codebaseID child parent w w',
       HistoryService.CreateVersionLink linkID codebaseID child parent w
       = (Ok tt, w') →
       spawned w' = (spawned w ++ [codebaseID])%list
       ∧ history_cache (db w') = history_cache (db w))
  ∧ (∀ e w,
       match e with
       | Link _ _ _ _ | Goroutine _ | Restart _ => True
       | _ => spawned (do_event e w) = spawned w
       end)
  ∧ (∀ rnd codebaseID ver branch message files branchFrom w resp w' blob,
       reachable w →
       history_cache (db w) !! codebaseID = Some blob →
       UploadService.ProcessSnapshot rnd codebaseID ver branch message files
         branchFrom true w = (Ok resp, w') →
       SnapshotResponse.VersionMap resp = Some blob
       ∧ spawned w' = spawned w
       ∧ (∀ iter, HistoryService.GetVersionMap iter codebaseID w'
                  = (Ok blob, w'))
       ∧ Versions (cache w') !! Rand.versionID rnd
         = Some (SnapshotResponse.Version_ resp)
       ∧ (∀ iter, Rand.versionID rnd
                  ∉ map VersionNode.ID
                      (VersionMapResponse.Nodes
                         (graph_of iter codebaseID (cache w))))
       ∧ (∀ iter, Rand.versionID rnd
                  ∈ map VersionNode.ID
                      (VersionMapResponse.Nodes
                         (graph_of iter codebaseID (cache w'))))).
Proof.
  split; [exact GetVersionMap_hit|]. split; [exact GetVersionMap_miss|].
  split.
  { intros linkID codebaseID versionID branch branchFrom w w'.
    pose proof (establishLinkage_keeps_graph_cache linkID codebaseID versionID
                  branch branchFrom w) as Hk.
    unfold graph_cache in Hk. fold w' in Hk. by injection Hk as -> ->. }
  split; [exact manual_link_schedules_rebuild|].
  split; [exact rebuilds_are_spawned_by_manual_links_only|].
  intros rnd cid ver branch message files bf w resp w' blob Hreach Hblob E.
  apply reachable_inv in Hreach as [(_ & _ & Hsound & _) _].
  apply ProcessSnapshot_Ok_inv in E
    as (cb & vt & w1 & w2 & h & Hcb & Hcs & Hpm & Hmap & ->).
  set (version := Version.with_CodebaseID vt.1 cid) in *.
  assert (Hid : Version.ID version = Rand.versionID rnd).
  { subst version. simpl. by eapply CreateSnapshot_Ok_ID. }
  (* the snapshot and the write of the metadata *)
  pose proof (CreateSnapshot_keeps_graph_cache rnd files (Codebase.Name cb)
                branch ver message w) as G1.
  pose proof (CreateSnapshot_keeps_version_store rnd files (Codebase.Name cb)
                branch ver message w) as V1.
  rewrite Hcs in G1, V1. simpl in G1, V1.
  pose proof (persistMetadata_keeps_graph_cache (Rand.updatedAt rnd) cb version
                vt.2 w1) as G2.
  rewrite Hpm in G2. simpl in G2.
  unfold UploadService.persistMetadata in Hpm.
  apply bind_Ok_inv in Hpm as ([] & w1a & Hts & Hcv).
  apply wrap_Ok_inv in Hts, Hcv.
  pose proof (UpdateCodebaseTimestamp_keeps_version_store (Codebase.ID cb)
                (Rand.updatedAt rnd) w1) as V2.
  rewrite Hts in V2. simpl in V2.
  apply CreateVersion_Ok in Hcv as (Hfresh & Hnew & Hin & _).
  (* the linkage and the read of the graph *)
  set (w3 := (UploadService.establishLinkage (Rand.linkID rnd) cid
                (Version.ID version) branch bf w2).2) in *.
  pose proof (establishLinkage_keeps_graph_cache (Rand.linkID rnd) cid
                (Version.ID version) branch bf w2) as G3.
  pose proof (establishLinkage_keeps_version_store (Rand.linkID rnd) cid
                (Version.ID version) branch bf w2) as V3.
  fold w3 in G3, V3.
  assert (Hblob3 : history_cache (db w3) !! cid = Some blob).
  { unfold graph_cache in *. injection G1 as G1 _. injection G2 as G2 _.
    injection G3 as G3 _. by rewrite G3, G2, G1. }
  rewrite (GetVersionMap_hit _ _ _ _ Hblob3) in Hmap.
  injection Hmap as <- <-.
  cbn [SnapshotResponse.VersionMap SnapshotResponse.Version_].
  split; [done|]. split.
  { unfold graph_cache in *. injection G1 as _ G1. injection G2 as _ G2.
    injection G3 as _ G3. by rewrite G3, G2, G1. }
  split; [intros iter; by apply GetVersionMap_hit|].
  unfold version_store in *.
  injection V1 as V1 V1'. injection V2 as V2 V2'. injection V3 as V3 V3'.
  split; [by rewrite V3, <- Hid|]. split.
  - intros iter. rewrite node_ids. intros Hmem.
    apply list_elem_of_fmap in Hmem as (v & Hv & Hvin).
    unfold versions_of in Hvin.
    destruct (versionsByCodebase (cache w) !! cid) as [l|] eqn:El;
      simpl in Hvin; [| by apply elem_of_nil in Hvin].
    destruct (Hsound _ _ _ El Hvin) as [Hlook _].
    rewrite <- Hv, <- Hid, <- V1, <- V2, Hfresh in Hlook. done.
  - intros iter. rewrite node_ids, <- Hid.
    apply list_elem_of_fmap. exists version. split; [done|].
    unfold versions_of in *. rewrite V3'. by subst version.
Qed.
End CacheCoherence.

Lemma dev1_world_reachable : reachable (H := example_utils) dev1_world.
Proof.
  apply reachable_event.
  exact (reachable_event (H := example_utils) _
           (Initialize "cb1" 100 "proj" "" "main")
           (reachable_new "cvcs_data/oss" [])).
Qed.

(** The theorem at the second snapshot on the branch: the cache written
    at the first one is served. *)
Lemma cache_hit_is_served_as_is_and_snapshots_do_not_refresh_it_witness :
  ∃ resp blob,
    (UploadService.ProcessSnapshot (H := example_utils) rnd2 "cb1" "v2" "dev"
       "" [("a.png", Upload ab)] None true dev1_world).1 = Ok resp
    ∧ history_cache (db dev1_world) !! "cb1" = Some blob
    ∧ SnapshotResponse.VersionMap resp = Some blob
    ∧ "v2" ∉ map VersionNode.ID
               (VersionMapResponse.Nodes
                  (graph_of [] "cb1" (cache dev1_world))).
Proof.
  assert (E : ∃ resp,
             UploadService.ProcessSnapshot (H := example_utils) rnd2 "cb1" "v2"
               "dev" "" [("a.png", Upload ab)] None true dev1_world
             = (Ok resp, dev2_world))
    by (vm_compute; eexists; reflexivity).
  destruct E as [resp E].
  assert (Hb : ∃ blob, history_cache (db dev1_world) !! "cb1" = Some blob)
    by (vm_compute; eexists; reflexivity).
  destruct Hb as [blob Hb].
  exists resp, blob. split; [by rewrite E|]. split; [done|].
  destruct (proj2 (proj2 (proj2 (proj2 (proj2
              (cache_hit_is_served_as_is_and_snapshots_do_not_refresh_it
                 (H := example_utils))))))
              rnd2 "cb1" "v2" "dev" "" [("a.png", Upload ab)] None dev1_world
              resp dev2_world blob dev1_world_reachable Hb E)
    as (Hmap & _ & _ & _ & Hnot & _).
  split; [exact Hmap | exact (Hnot [])].
Defined.

(* ------------------------------------------------------------------ *)
(** ** Automatic linkage                                               *)
(* ------------------------------------------------------------------ *)

Lemma find_newest (f : Version.t → bool) l p :
  StronglySorted newer_or_same l →
  List.find f l = Some p →
  f p = true ∧ p ∈ l ∧ ∀ u, u ∈ l → f u = true → newer_or_same p u.
Proof.
  induction 1 as [|x l Hs IH Hall]; simpl; [done|].
  destruct (f x) eqn:Hx.
  - intros [= <-]. split; [done|]. split; [by left|].
    intros u Hu _. apply elem_of_cons in Hu as [-> | Hu].
    + unfold newer_or_same. lia.
    + by apply (proj1 (Forall_forall _ _) Hall).
  - intros Hf. destruct (IH Hf) as (Hp & Hin & Hnew).
    split; [done|]. split; [by right|].
    intros u Hu Hfu. apply elem_of_cons in Hu as [-> | Hu]; [congruence|].
    by apply Hnew.
Qed.

Lemma find_none_filter {A} (f : A → bool) l :
  Nat.eqb (List.length (List.filter f l)) 0
  = match List.find f l with None => true | Some _ => false end.
Proof. induction l as [|x l IH]; simpl; [done|]. by destruct (f x). Qed.

Lemma IsNewBranch_value codebaseID branch excludeVersionID w :
  JSONFileProvider.IsNewBranch codebaseID branch excludeVersionID w
  = (Ok match List.find (JSONFileProvider.on_branch branch excludeVersionID)
                (versions_of codebaseID w) with
        | None => true
        | Some _ => false
        end, w).
Proof.
  unfold JSONFileProvider.IsNewBranch, versions_of, bind, gets, ret.
  destruct (versionsByCodebase (cache w) !! codebaseID) as [l|]; simpl; [|done].
  by rewrite find_none_filter.
Qed.

Lemma FindLatestVersionInBranch_value codebaseID branch excludeVersionID w :
  JSONFileProvider.FindLatestVersionInBranch codebaseID branch excludeVersionID w
  = (Ok (List.find (JSONFileProvider.on_branch branch excludeVersionID)
           (versions_of codebaseID w)), w).
Proof.
  unfold JSONFileProvider.FindLatestVersionInBranch, versions_of, bind, gets, ret.
  by destruct (versionsByCodebase (cache w) !! codebaseID).
Qed.

Lemma CreateVersionLink_new linkID codebaseID childID parentID branch linkType w :
  VersionMapping (cache w) !! childID = None →
  VersionMapping
    (cache (JSONFileProvider.CreateVersionLink linkID codebaseID childID
              parentID branch linkType w).2)
  = <[childID := versionMappingRecord.mk linkID codebaseID branch childID
                   parentID linkType]> (VersionMapping (cache w)).
Proof.
  intros E. unfold JSONFileProvider.CreateVersionLink. unfold bind at 1, gets.
  rewrite E. unfold bind at 1, modify_cache, modify.
  by rewrite (save_keeps_cache version_mapping_file).
Qed.

Lemma wrap_world {A} ctx (c : M A) w : (wrap ctx c w).2 = (c w).2.
Proof. unfold wrap. by destruct (c w) as [[a|e] w']. Qed.

Lemma on_branch_true branch exclude v :
  JSONFileProvider.on_branch branch exclude v = true
  ↔ Version.Branch v = branch ∧ Version.ID v ≠ exclude.
Proof.
  unfold JSONFileProvider.on_branch.
  rewrite andb_true_iff, negb_true_iff, String.eqb_eq, String.eqb_neq. done.
Qed.

(** The link that the automatic linkage creates for a version without
    link, when no source is named. *)
Lemma establishLinkage_auto linkID codebaseID versionID branch w :
  index_sorted (cache w) →
  VersionMapping (cache w) !! versionID = None →
  let w' := (UploadService.establishLinkage linkID codebaseID versionID branch
               None w).2 in
  let link parent ty :=
    <[versionID := versionMappingRecord.mk linkID codebaseID branch versionID
                     (Version.ID parent) ty]> (VersionMapping (cache w)) in
  match List.find (JSONFileProvider.on_branch branch versionID)
          (versions_of codebaseID w) with
  | Some p =>
      VersionMapping (cache w') = link p LinkageTypeSequential
      ∧ p ∈ versions_of codebaseID w
      ∧ Version.Branch p = branch ∧ Version.ID p ≠ versionID
      ∧ ∀ u, u ∈ versions_of codebaseID w →
             Version.Branch u = branch → Version.ID u ≠ versionID →
             (Version.CreatedAt u <= Version.CreatedAt p)%Z
  | None =>
      match List.find (JSONFileProvider.on_branch "main" "")
              (versions_of codebaseID w) with
      | Some p =>
          VersionMapping (cache w') = link p LinkageTypeBranchFrom
          ∧ p ∈ versions_of codebaseID w
          ∧ Version.Branch p = "main"
          ∧ ∀ u, u ∈ versions_of codebaseID w →
                 Version.Branch u = "main" → Version.ID u ≠ "" →
                 (Version.CreatedAt u <= Version.CreatedAt p)%Z
      | None => VersionMapping (cache w') = VersionMapping (cache w)
      end
  end.
Proof.
  intros Hsorted Hfree w' link.
  assert (Hs : StronglySorted newer_or_same (versions_of codebaseID w)).
  { unfold versions_of.
    destruct (versionsByCodebase (cache w) !! codebaseID) as [l|] eqn:El; simpl.
    - by apply (Hsorted codebaseID).
    - constructor. }
  subst w'. unfold UploadService.establishLinkage, HistoryService.isNewBranch.
  erewrite bind_Ok; [| apply wrap_Ok, IsNewBranch_value].
  destruct (List.find (JSONFileProvider.on_branch branch versionID)
              (versions_of codebaseID w)) as [p|] eqn:Hfind.
  - unfold HistoryService.AutoCreateSequentialLink.
    erewrite bind_Ok; [| apply wrap_Ok, FindLatestVersionInBranch_value].
    rewrite Hfind, wrap_world, (CreateVersionLink_new _ _ _ _ _ _ _ Hfree).
    destruct (find_newest _ _ _ Hs Hfind) as (Hp & Hin & Hnew).
    apply on_branch_true in Hp as [Hb Hid].
    repeat (split; [done|]).
    intros u Hu Hub Hui. apply (Hnew u Hu). by apply on_branch_true.
  - unfold HistoryService.AutoCreateLinkForNewBranch,
      JSONFileProvider.FindLatestVersionInMain.
    erewrite bind_Ok; [| apply wrap_Ok, FindLatestVersionInBranch_value].
    destruct (List.find (JSONFileProvider.on_branch "main" "")
                (versions_of codebaseID w)) as [p|] eqn:Hmain; [|done].
    rewrite wrap_world, (CreateVersionLink_new _ _ _ _ _ _ _ Hfree).
    destruct (find_newest _ _ _ Hs Hmain) as (Hp & Hin & Hnew).
    apply on_branch_true in Hp as [Hb Hid].
    repeat (split; [done|]).
    intros u Hu Hub Hui. apply (Hnew u Hu). by apply on_branch_true.
Qed.

(** With a source named, the link goes to the version of that name, if
    there is one. *)
Lemma establishLinkage_branch_from linkID codebaseID versionID branch bf w :
  VersionMapping (cache w) !! versionID = None →
  let out := UploadService.establishLinkage linkID codebaseID versionID branch
               (Some bf) w in
  match JSONFileProvider.GetVersion codebaseID (vi_Branch bf) (vi_Version bf) w
  with
  | (Ok p, _) =>
      VersionMapping (cache out.2)
      = <[versionID := versionMappingRecord.mk linkID codebaseID branch
                         versionID (Version.ID p) LinkageTypeBranchFrom]>
          (VersionMapping (cache w))
  | (Err _, _) =>
      is_Ok out.1 = false
      ∧ VersionMapping (cache out.2) = VersionMapping (cache w)
  end.
Proof.
  intros Hfree out. subst out.
  unfold UploadService.establishLinkage, HistoryService.AutoCreateBranchFromLink.
  assert (Hw : (JSONFileProvider.GetVersion codebaseID (vi_Branch bf)
                  (vi_Version bf) w).2 = w).
  { unfold JSONFileProvider.GetVersion, bind, gets.
    destruct (versionIDByBranchAndName (cache w) !! _) as [vid|]; [|done].
    by destruct (Versions (cache w) !! vid). }
  destruct (JSONFileProvider.GetVersion codebaseID (vi_Branch bf)
              (vi_Version bf) w) as [[p|e] w0] eqn:Hg; simpl in Hw; subst w0.
  - erewrite bind_Ok; [| by apply wrap_Ok].
    by rewrite wrap_world, (CreateVersionLink_new _ _ _ _ _ _ _ Hfree).
  - erewrite bind_Err; [| by apply wrap_Err]. done.
Qed.

(** The first version of a codebase on ["main"]: the branch is new, for
    no other version is on it, and the search for the latest version of
    ["main"] excludes no version, so it finds the new version itself. *)
Lemma new_main_branch_links_version_to_itself linkID codebaseID w v :
  index_sorted (cache w) →
  v ∈ versions_of codebaseID w →
  Version.Branch v = "main" → Version.ID v ≠ "" →
  (∀ u, u ∈ versions_of codebaseID w →
        Version.Branch u = "main" → Version.ID u = Version.ID v) →
  VersionMapping (cache w) !! Version.ID v = None →
  VersionMapping
    (cache (UploadService.establishLinkage linkID codebaseID (Version.ID v)
              "main" None w).2) !! Version.ID v
  = Some (versionMappingRecord.mk linkID codebaseID "main" (Version.ID v)
            (Version.ID v) LinkageTypeBranchFrom).
Proof.
  intros Hsorted Hv Hb Hid Honly Hfree.
  pose proof (establishLinkage_auto linkID codebaseID (Version.ID v) "main" w
                Hsorted Hfree) as Hl.
  cbv zeta in Hl.
  destruct (List.find (JSONFileProvider.on_branch "main" (Version.ID v))
              (versions_of codebaseID w)) as [p|] eqn:Hfind.
  { destruct Hl as (_ & Hin & Hpb & Hpid & _). by specialize (Honly p Hin Hpb). }
  destruct (List.find (JSONFileProvider.on_branch "main" "")
              (versions_of codebaseID w)) as [p|] eqn:Hmain.
  - destruct Hl as (-> & Hin & Hpb & _).
    rewrite lookup_insert_eq. by rewrite (Honly p Hin Hpb).
  - exfalso. apply list_elem_of_In in Hv.
    pose proof (List.find_none _ _ Hmain v Hv) as Hf.
    assert (Ht : JSONFileProvider.on_branch "main" "" v = true)
      by (by apply on_branch_true).
    congruence.
Qed.

Section FirstSnapshot.
Context `{!Utils}.

(** C1.  In a codebase that has no version yet, the first snapshot on
    ["main"] with automatic linkage and no source named is stored, and
    the linkage gives it a [branch_from] link whose parent is the new
    version itself: the branch is found to be new, and the latest version
    of ["main"] is looked up without excluding the version just
    created. *)
Theorem first_snapshot_on_main_is_linked_to_itself :
  versionsByCodebase (cache proj_world) = ∅
  ∧ VersionMapping (cache proj_world) = ∅
  ∧ let out :=
      UploadService.ProcessSnapshot rnd1 "cb1" "v1" "main" "first"
        [("a.png", Upload ab)] None true proj_world in
    is_Ok out.1 = true
    ∧ map Version.ID (versions_of "cb1" out.2) = ["v1"]
    ∧ VersionMapping (cache out.2) !! "v1"
      = Some (versionMappingRecord.mk "l1" "cb1" "main" "v1" "v1"
                LinkageTypeBranchFrom).
Proof.
  split; [reflexivity|]. split; [reflexivity|].
  split; [vm_compute; reflexivity|]. split; vm_compute; reflexivity.
Qed.

End FirstSnapshot.

(* ================================================================== *)
(** * Further properties of the stores and the services                *)
(* ================================================================== *)

(* ------------------------------------------------------------------ *)
(** ** Strings *)
(* ------------------------------------------------------------------ *)

Lemma string_app_assoc (a b c : string) : (a ++ b) ++ c = a ++ b ++ c.
Proof.
  induction a as [|x a IH]; [done|].
  change (String x ((a ++ b) ++ c) = String x (a ++ b ++ c)). by f_equal.
Qed.

Lemma String_prefix_nil s : String.prefix "" s = true.
Proof. by destruct s. Qed.

Lemma String_prefix_cons a s1 b s2 :
  String.prefix (String a s1) (String b s2)
  = if ascii_dec a b then String.prefix s1 s2 else false.
Proof. done. Qed.

Lemma String_prefix_app a b : String.prefix a (a ++ b) = true.
Proof.
  induction a as [|c a IH]; [by destruct b|].
  change (String c a ++ b) with (String c (a ++ b)). cbn.
  by destruct (ascii_dec c c).
Qed.

Lemma String_prefix_app_head a b c :
  String.prefix (a ++ b) (a ++ c) = String.prefix b c.
Proof.
  induction a as [|x a IH]; [done|].
  change (String x a ++ b) with (String x (a ++ b)).
  change (String x a ++ c) with (String x (a ++ c)). cbn.
  by destruct (ascii_dec x x).
Qed.

(* ------------------------------------------------------------------ *)
(** ** Metadata store: what a write leaves behind *)
(* ------------------------------------------------------------------ *)

Lemma save_Ok f w w1 :
  save f w = (Ok tt, w1) →
  cache w1 = cache w ∧ basePath w1 = basePath w ∧ objects w1 = objects w
  ∧ spawned w1 = spawned w
  ∧ history_cache (db w1) = history_cache (db w)
  ∧ match f with
    | codebases_file =>
        codebases_json (db w1) = Codebases (cache w)
        ∧ versions_json (db w1) = versions_json (db w)
        ∧ file_indexes_json (db w1) = file_indexes_json (db w)
        ∧ version_mapping_json (db w1) = version_mapping_json (db w)
    | versions_file =>
        codebases_json (db w1) = codebases_json (db w)
        ∧ versions_json (db w1) = Versions (cache w)
        ∧ file_indexes_json (db w1) = file_indexes_json (db w)
        ∧ version_mapping_json (db w1) = version_mapping_json (db w)
    | file_indexes_file =>
        codebases_json (db w1) = codebases_json (db w)
        ∧ versions_json (db w1) = versions_json (db w)
        ∧ file_indexes_json (db w1) = FileIndexes (cache w)
        ∧ version_mapping_json (db w1) = version_mapping_json (db w)
    | version_mapping_file =>
        codebases_json (db w1) = codebases_json (db w)
        ∧ versions_json (db w1) = versions_json (db w)
        ∧ file_indexes_json (db w1) = file_indexes_json (db w)
        ∧ version_mapping_json (db w1) = VersionMapping (cache w)
    end.
Proof.
  unfold save. intros E.
  apply bind_Ok_inv in E as ([] & w0 & Hs & E).
  apply syscall_Ok in Hs as (Hc & Hd & Hb & Ho & Hsp).
  unfold modify in E. injection E as <-.
  destruct f; cbn; rewrite ?Hc, ?Hd, ?Hb, ?Ho, ?Hsp; done.
Qed.

(** X1.  [CreateCodebase] refuses an id that is taken and changes nothing
    then.  When it succeeds the id was free, [GetCodebaseByID] returns
    the codebase, the file of the codebases holds it, and the lookup of
    every other id answers as before. *)
Theorem CreateCodebase_then_GetCodebaseByID (codebase : Codebase.t) (w : World) :
  (∀ existing,
     Codebases (cache w) !! Codebase.ID codebase = Some existing →
     JSONFileProvider.CreateCodebase codebase w
     = (Err ("codebase " ++ Codebase.ID codebase ++ " already exists"), w))
  ∧ (∀ w1,
       JSONFileProvider.CreateCodebase codebase w = (Ok tt, w1) →
       Codebases (cache w) !! Codebase.ID codebase = None
       ∧ JSONFileProvider.GetCodebaseByID (Codebase.ID codebase) w1
         = (Ok codebase, w1)
       ∧ codebases_json (db w1) !! Codebase.ID codebase = Some codebase
       ∧ ∀ id, id ≠ Codebase.ID codebase →
           (JSONFileProvider.GetCodebaseByID id w1).1
           = (JSONFileProvider.GetCodebaseByID id w).1).
Proof.
  split.
  - intros existing E.
    unfold JSONFileProvider.CreateCodebase, bind, gets. by rewrite E.
  - intros w1 E. unfold JSONFileProvider.CreateCodebase in E.
    unfold bind at 1, gets in E.
    destruct (Codebases (cache w) !! Codebase.ID codebase) as [x|] eqn:El;
      [discriminate|].
    apply bind_Ok_inv in E as ([] & w0 & Hm & Hs).
    unfold modify_cache, modify in Hm. injection Hm as <-.
    apply save_Ok in Hs as (Hc & _ & _ & _ & _ & Hj & _). cbn in Hc, Hj.
    split; [done|].
    assert (Hl : ∀ id, Codebases (cache w1) !! id
                 = <[Codebase.ID codebase := codebase]> (Codebases (cache w)) !! id)
      by (intros id; by rewrite Hc).
    split; [| split].
    + unfold JSONFileProvider.GetCodebaseByID, bind, gets.
      by rewrite Hl, lookup_insert_eq.
    + by rewrite Hj, lookup_insert_eq.
    + intros id Hne. unfold JSONFileProvider.GetCodebaseByID, bind, gets.
      rewrite Hl, lookup_insert_ne by done.
      by destruct (Codebases (cache w) !! id).
Qed.

(** The theorem at the first codebase of an empty store. *)
Lemma CreateCodebase_then_GetCodebaseByID_witness :
  JSONFileProvider.GetCodebaseByID "cb1" proj_world = (Ok proj_codebase, proj_world)
  ∧ codebases_json (db proj_world) !! "cb1" = Some proj_codebase.
Proof.
  destruct (proj2 (CreateCodebase_then_GetCodebaseByID proj_codebase
                     (new_world "cvcs_data/oss" [])) proj_world)
    as (_ & H1 & H2 & _); [vm_compute; reflexivity|].
  exact (conj H1 H2).
Defined.

Lemma CreateVersion_Ok_cache v files w w1 :
  JSONFileProvider.CreateVersion v files w = (Ok tt, w1) →
  Versions (cache w) !! Version.ID v = None
  ∧ cache w1
    = (let c := cache w in
       let cid := Version.CodebaseID v in
       mkCache (Codebases c)
         (<[Version.ID v := v]> (Versions c))
         (<[Version.TreeID v := files]> (FileIndexes c))
         (VersionMapping c)
         (<[cid := sort_Slice
                     (default [] (versionsByCodebase c !! cid) ++ [v])]>
            (versionsByCodebase c))
         (<[version_key cid (Version.Branch v) (Version.Version v)
            := Version.ID v]> (versionIDByBranchAndName c)))
  ∧ versions_json (db w1) = Versions (cache w1)
  ∧ file_indexes_json (db w1) = FileIndexes (cache w1)
  ∧ codebases_json (db w1) = codebases_json (db w)
  ∧ version_mapping_json (db w1) = version_mapping_json (db w)
  ∧ basePath w1 = basePath w ∧ objects w1 = objects w.
Proof.
  intros E. unfold JSONFileProvider.CreateVersion in E.
  unfold bind at 1, gets in E.
  destruct (Versions (cache w) !! Version.ID v) as [x|] eqn:El; [discriminate|].
  apply bind_Ok_inv in E as ([] & w0 & Hm & E).
  unfold modify_cache, modify in Hm. injection Hm as <-.
  apply bind_Ok_inv in E as ([] & w2 & Hs1 & Hs2).
  apply save_Ok in Hs1 as (Hc1 & Hb1 & Ho1 & _ & _ & H1a & H1b & H1c & H1d).
  apply save_Ok in Hs2 as (Hc2 & Hb2 & Ho2 & _ & _ & H2a & H2b & H2c & H2d).
  cbn in Hc1, Hb1, Ho1, H1a, H1b, H1c, H1d.
  split; [done|]. split; [rewrite Hc2, Hc1; reflexivity|].
  split; [by rewrite H2b, H1b, Hc2, Hc1|]. split; [by rewrite H2c, Hc2|].
  split; [by rewrite H2a, H1a|]. split; [by rewrite H2d, H1d|].
  split; [by rewrite Hb2, Hb1 | by rewrite Ho2, Ho1].
Qed.

(** X2.  [CreateVersion] refuses an id that is taken and changes nothing
    then.  When it succeeds, [GetVersion] finds the version under its
    codebase, branch and version name, [GetFileIndexesByTreeID] returns
    its files under its tree id, the version is in the slice of its
    codebase, and the two files hold the version and its files. *)
Theorem CreateVersion_then_lookups (version : Version.t) (files : list File.t)
  (w : World) :
  (∀ existing,
     Versions (cache w) !! Version.ID version = Some existing →
     JSONFileProvider.CreateVersion version files w
     = (Err ("version " ++ Version.ID version ++ " already exists"), w))
  ∧ (∀ w1,
       JSONFileProvider.CreateVersion version files w = (Ok tt, w1) →
       JSONFileProvider.GetVersion (Version.CodebaseID version)
         (Version.Branch version) (Version.Version version) w1
       = (Ok version, w1)
       ∧ JSONFileProvider.GetFileIndexesByTreeID (Version.TreeID version) w1
         = (Ok files, w1)
       ∧ version ∈ versions_of (Version.CodebaseID version) w1
       ∧ versions_json (db w1) !! Version.ID version = Some version
       ∧ file_indexes_json (db w1) !! Version.TreeID version = Some files).
Proof.
  split.
  - intros existing E.
    unfold JSONFileProvider.CreateVersion, bind, gets. by rewrite E.
  - intros w1 E.
    apply CreateVersion_Ok_cache in E as (_ & Hc & Hv & Hf & _).
    cbn zeta in Hc.
    split; [| split; [| split; [| split]]].
    + unfold JSONFileProvider.GetVersion, bind, gets. rewrite Hc. cbn.
      by rewrite !lookup_insert_eq.
    + unfold JSONFileProvider.GetFileIndexesByTreeID, bind, gets. rewrite Hc.
      cbn. by rewrite lookup_insert_eq.
    + unfold versions_of. rewrite Hc. cbn. rewrite lookup_insert_eq. cbn.
      apply elem_of_sort_Slice, elem_of_app. right. apply list_elem_of_singleton.
      done.
    + rewrite Hv, Hc. cbn. by rewrite lookup_insert_eq.
    + rewrite Hf, Hc. cbn. by rewrite lookup_insert_eq.
Qed.

(** The theorem at the first version of a codebase. *)
Lemma CreateVersion_then_lookups_witness :
  JSONFileProvider.GetVersion "cb1" "main" "v1" v1_main_world
  = (Ok v1_main, v1_main_world)
  ∧ JSONFileProvider.GetFileIndexesByTreeID "t1" v1_main_world
    = (Ok [a_png_file], v1_main_world).
Proof.
  destruct (proj2 (CreateVersion_then_lookups v1_main [a_png_file] proj_world)
              v1_main_world) as (H1 & H2 & _); [vm_compute; reflexivity|].
  exact (conj H1 H2).
Defined.

(** X3.  [CreateVersion] stores the version in memory before it writes the
    files.  When the first write fails the call returns that error, the
    version stays in memory, where [GetVersion] finds it, and the same
    call made again is refused because the id is taken. *)
Theorem CreateVersion_failed_save_keeps_version_in_memory
  (version : Version.t) (files : list File.t) (w : World) (e : error)
  (f : list (option error)) :
  Versions (cache w) !! Version.ID version = None →
  faults w = Some e :: f →
  ∃ w1,
    JSONFileProvider.CreateVersion version files w = (Err e, w1)
    ∧ JSONFileProvider.GetVersion (Version.CodebaseID version)
        (Version.Branch version) (Version.Version version) w1
      = (Ok version, w1)
    ∧ JSONFileProvider.CreateVersion version files w1
      = (Err ("version " ++ Version.ID version ++ " already exists"), w1).
Proof.
  intros Hn Hf.
  unfold JSONFileProvider.CreateVersion at 1.
  unfold bind at 1, gets. rewrite Hn.
  unfold bind at 1, modify_cache, modify.
  unfold bind at 1, save at 1, bind at 1, syscall. cbn [faults set_cache].
  rewrite Hf. eexists. split; [reflexivity|].
  split.
  - unfold JSONFileProvider.GetVersion, bind, gets. cbn.
    by rewrite !lookup_insert_eq.
  - unfold JSONFileProvider.CreateVersion, bind, gets. cbn.
    by rewrite lookup_insert_eq.
Qed.

(** The theorem when the disk is full. *)
Lemma CreateVersion_failed_save_keeps_version_in_memory_witness :
  ∃ w1,
    JSONFileProvider.CreateVersion v1_main [a_png_file] full_disk_world
    = (Err "no space left on device", w1)
    ∧ JSONFileProvider.GetVersion "cb1" "main" "v1" w1 = (Ok v1_main, w1)
    ∧ JSONFileProvider.CreateVersion v1_main [a_png_file] w1
      = (Err "version v1 already exists", w1).
Proof.
  exact (CreateVersion_failed_save_keeps_version_in_memory v1_main [a_png_file]
           full_disk_world "no space left on device" [] eq_refl eq_refl).
Defined.

(* ------------------------------------------------------------------ *)
(** ** Metadata store: the newest version of a branch *)
(* ------------------------------------------------------------------ *)

Lemma find_None_all {A} (f : A → bool) l :
  List.find f l = None → ∀ u, u ∈ l → f u = false.
Proof.
  induction l as [|x l IH]; simpl; intros E u Hu.
  - by apply elem_of_nil in Hu.
  - destruct (f x) eqn:Ex; [discriminate|].
    apply elem_of_cons in Hu as [->|Hu]; [done | by apply IH].
Qed.

Lemma branch_heads_fold l : ∀ (heads : gmap string string) b,
  fold_left
    (λ heads v,
       match heads !! Version.Branch v with
       | Some _ => heads
       | None => <[Version.Branch v := Version.ID v]> heads
       end) l heads !! b
  = match heads !! b with
    | Some id => Some id
    | None =>
        Version.ID <$> List.find (λ v, String.eqb (Version.Branch v) b) l
    end.
Proof.
  induction l as [|x l IH]; intros heads b; simpl.
  - by destruct (heads !! b).
  - rewrite IH. destruct (String.eqb_spec (Version.Branch x) b) as [->|Hne].
    + destruct (heads !! b) eqn:Eb; [by rewrite Eb|].
      by rewrite lookup_insert_eq.
    + destruct (heads !! Version.Branch x) eqn:Ex; [done|].
      by rewrite lookup_insert_ne.
Qed.

Lemma branch_heads_lookup l b :
  JSONFileProvider.branch_heads l !! b
  = Version.ID <$> List.find (λ v, String.eqb (Version.Branch v) b) l.
Proof. unfold JSONFileProvider.branch_heads. by rewrite branch_heads_fold, lookup_empty. Qed.

Section NewestOfBranch.
Context `{!Utils}.


(** X4.  In every reachable state [FindLatestVersionInBranch] returns
    without error or change.  The version it returns is stored, belongs
    to the codebase and to the branch, is not the excluded one, and no
    other such version of the codebase was created after it.  It returns
    none only when every version of the codebase on the branch is the
    excluded one. *)
Theorem FindLatestVersionInBranch_returns_newest (w : World)
  (codebaseID branch excludeVersionID : string) :
  reachable w →
  ∃ found,
    JSONFileProvider.FindLatestVersionInBranch codebaseID branch
      excludeVersionID w = (Ok found, w)
    ∧ match found with
      | Some p =>
          Versions (cache w) !! Version.ID p = Some p
          ∧ Version.CodebaseID p = codebaseID
          ∧ Version.Branch p = branch
          ∧ Version.ID p ≠ excludeVersionID
          ∧ ∀ u, u ∈ versions_of codebaseID w →
                 Version.Branch u = branch →
                 Version.ID u ≠ excludeVersionID →
                 (Version.CreatedAt u <= Version.CreatedAt p)%Z
      | None =>
          ∀ u, u ∈ versions_of codebaseID w →
               Version.Branch u = branch → Version.ID u = excludeVersionID
      end.
Proof.
  intros Hr. apply reachable_inv in Hr as [(_ & _ & Hs & Hso) _].
  eexists. split; [apply FindLatestVersionInBranch_value|].
  unfold versions_of.
  destruct (versionsByCodebase (cache w) !! codebaseID) as [l|] eqn:El; cbn.
  - destruct (List.find _ l) as [p|] eqn:Ef.
    + destruct (find_newest _ _ _ (Hso _ _ El) Ef) as (Hp & Hin & Hnew).
      apply on_branch_true in Hp as [Hb Hx].
      destruct (Hs _ _ _ El Hin) as [Hv Hc].
      do 4 (split; [done|]). intros u Hu Hub Hux.
      apply (Hnew u Hu). by apply on_branch_true.
    + intros u Hu Hub.
      pose proof (find_None_all _ _ Ef u Hu) as Hf.
      destruct (decide (Version.ID u = excludeVersionID)) as [|Hne]; [done|].
      assert (JSONFileProvider.on_branch branch excludeVersionID u = true)
        by by apply on_branch_true.
      congruence.
  - intros u Hu. by apply elem_of_nil in Hu.
Qed.

End NewestOfBranch.


(** The theorem after three snapshots on a branch, the last one excluded. *)
Lemma FindLatestVersionInBranch_returns_newest_witness :
  ∃ found,
    JSONFileProvider.FindLatestVersionInBranch "cb1" "dev" "v3" dev3_world
    = (Ok found, dev3_world)
    ∧ match found with
      | Some p =>
          Versions (cache dev3_world) !! Version.ID p = Some p
          ∧ Version.CodebaseID p = "cb1"
          ∧ Version.Branch p = "dev"
          ∧ Version.ID p ≠ "v3"
          ∧ ∀ u, u ∈ versions_of "cb1" dev3_world →
                 Version.Branch u = "dev" →
                 Version.ID u ≠ "v3" →
                 (Version.CreatedAt u <= Version.CreatedAt p)%Z
      | None =>
          ∀ u, u ∈ versions_of "cb1" dev3_world →
               Version.Branch u = "dev" → Version.ID u = "v3"
      end.
Proof.
  exact (FindLatestVersionInBranch_returns_newest (H := example_utils)
           dev3_world "cb1" "dev" "v3" dev3_world_reachable).
Defined.

(** X5.  [IsNewBranch] and [FindLatestVersionInBranch] agree: the branch
    is reported new exactly when no latest version is found, for the same
    codebase, branch and excluded id.  Neither changes the state. *)
Theorem IsNewBranch_iff_no_latest_version
  (codebaseID branch excludeVersionID : string) (w : World) :
  ∃ isNew found,
    JSONFileProvider.IsNewBranch codebaseID branch excludeVersionID w
    = (Ok isNew, w)
    ∧ JSONFileProvider.FindLatestVersionInBranch codebaseID branch
        excludeVersionID w = (Ok found, w)
    ∧ (isNew = true ↔ found = None).
Proof.
  do 2 eexists. split; [apply IsNewBranch_value|].
  split; [apply FindLatestVersionInBranch_value|].
  by destruct (List.find _ _).
Qed.

Section BranchHeads.
Context `{!Utils}.


(** X6.  In every reachable state the map of [GetBranchHeadsForMap] gives
    for each branch the id of a version of the codebase on that branch
    after which no other version of the branch was created, and it has no
    entry for a branch exactly when the codebase has no version on
    it. *)
Theorem GetBranchHeadsForMap_heads_are_newest (w : World) (codebaseID : string) :
  reachable w →
  ∃ heads,
    JSONFileProvider.GetBranchHeadsForMap codebaseID w = (Ok heads, w)
    ∧ (∀ b id,
         heads !! b = Some id →
         ∃ p, p ∈ versions_of codebaseID w
              ∧ Version.ID p = id ∧ Version.Branch p = b
              ∧ ∀ u, u ∈ versions_of codebaseID w → Version.Branch u = b →
                     (Version.CreatedAt u <= Version.CreatedAt p)%Z)
    ∧ (∀ b, heads !! b = None ↔
            ∀ u, u ∈ versions_of codebaseID w → Version.Branch u ≠ b).
Proof.
  intros Hr. apply reachable_inv in Hr as [(_ & _ & _ & Hso) _].
  exists (JSONFileProvider.branch_heads (versions_of codebaseID w)).
  assert (Hsorted : StronglySorted newer_or_same (versions_of codebaseID w)).
  { unfold versions_of.
    destruct (versionsByCodebase (cache w) !! codebaseID) as [l|] eqn:El; cbn;
      [exact (Hso _ _ El) | constructor]. }
  split; [| split].
  - unfold JSONFileProvider.GetBranchHeadsForMap, bind, gets, versions_of.
    by destruct (versionsByCodebase (cache w) !! codebaseID).
  - intros b id. rewrite branch_heads_lookup.
    destruct (List.find _ _) as [p|] eqn:Ef; [|discriminate].
    intros [= <-].
    destruct (find_newest _ _ _ Hsorted Ef) as (Hp & Hin & Hnew).
    apply String.eqb_eq in Hp.
    exists p. do 3 (split; [done|]). intros u Hu Hub.
    apply (Hnew u Hu). by apply String.eqb_eq.
  - intros b. rewrite branch_heads_lookup.
    destruct (List.find _ _) as [p|] eqn:Ef; cbn.
    + split; [discriminate|]. intros Hall.
      destruct (find_newest _ _ _ Hsorted Ef) as (Hp & Hin & _).
      apply String.eqb_eq in Hp. by destruct (Hall p Hin).
    + split; [|done]. intros _ u Hu Hub.
      pose proof (find_None_all _ _ Ef u Hu) as Hf. cbn in Hf.
      apply String.eqb_neq in Hf. done.
Qed.

End BranchHeads.


(** The theorem after three snapshots on a branch. *)
Lemma GetBranchHeadsForMap_heads_are_newest_witness :
  ∃ heads,
    JSONFileProvider.GetBranchHeadsForMap "cb1" dev3_world = (Ok heads, dev3_world)
    ∧ (∀ b id,
         heads !! b = Some id →
         ∃ p, p ∈ versions_of "cb1" dev3_world
              ∧ Version.ID p = id ∧ Version.Branch p = b
              ∧ ∀ u, u ∈ versions_of "cb1" dev3_world → Version.Branch u = b →
                     (Version.CreatedAt u <= Version.CreatedAt p)%Z)
    ∧ (∀ b, heads !! b = None ↔
            ∀ u, u ∈ versions_of "cb1" dev3_world → Version.Branch u ≠ b).
Proof.
  exact (GetBranchHeadsForMap_heads_are_newest (H := example_utils)
           dev3_world "cb1" dev3_world_reachable).
Defined.

(* ------------------------------------------------------------------ *)
(** ** Metadata store: deletion of a codebase *)
(* ------------------------------------------------------------------ *)




Lemma DeleteCodebaseByID_cache id w :
  cache (JSONFileProvider.DeleteCodebaseByID id w).2
  = JSONFileProvider.delete_codebase id (cache w).
Proof.
  unfold JSONFileProvider.DeleteCodebaseByID.
  unfold bind at 1, modify_cache at 1, modify.
  match goal with |- cache (?k ?w0).2 = _ =>
    assert (K : keeps cache k) by (apply keeps_intro; intros x; frame);
    rewrite (K w0) end.
  done.
Qed.


Section Deletion.
Context `{!Utils}.



End Deletion.



(* ------------------------------------------------------------------ *)
(** ** Metadata store: files and memory *)
(* ------------------------------------------------------------------ *)




(* ------------------------------------------------------------------ *)
(** ** Metadata store: the indexes *)
(* ------------------------------------------------------------------ *)

Lemma index_inv_frame {A} (c : M A) :
  preserves store_inv c → keeps version_indexes c → preserves index_inv c.
Proof.
  intros Hp Hk w [Hs [Hn Hc]]. split; [by apply Hp|].
  specialize (Hk w). unfold version_indexes in Hk. injection Hk as E1 E2 E3.
  split.
  - intros k id. rewrite E3, E1. apply Hn.
  - intros k v. rewrite E1, E2. apply Hc.
Qed.

Lemma syscall_preserves_index_inv : preserves index_inv syscall.
Proof. apply preserves_syscall. intros f w Hi. exact Hi. Qed.

Lemma save_preserves_index_inv f : preserves index_inv (save f).
Proof.
  apply index_inv_frame; [apply save_preserves_inv|].
  apply keeps_intro; intros x. destruct f; frame.
Qed.

Lemma modify_db_history_preserves_index_inv
  (g : gmap string bytes → gmap string bytes) :
  preserves index_inv
    (modify_db (λ d, set_history_cache (g (history_cache d)) d)).
Proof. apply preserves_modify. intros w Hi. exact Hi. Qed.

Lemma modify_spawned_preserves_index_inv (g : World → list string) :
  preserves index_inv (modify (λ w, set_spawned (g w) w)).
Proof. apply preserves_modify. intros w Hi. exact Hi. Qed.

Lemma CreateCodebase_preserves_index_inv cb :
  preserves index_inv (JSONFileProvider.CreateCodebase cb).
Proof.
  apply index_inv_frame; [apply CreateCodebase_preserves_inv|].
  apply keeps_intro; intros x. frame.
Qed.

Lemma UpdateCodebaseTimestamp_preserves_index_inv id t :
  preserves index_inv (JSONFileProvider.UpdateCodebaseTimestamp id t).
Proof.
  apply index_inv_frame; [apply UpdateCodebaseTimestamp_preserves_inv|].
  apply keeps_intro; intros x. frame.
Qed.

Lemma CreateVersionLink_preserves_index_inv l cid child parent branch ty :
  preserves index_inv
    (JSONFileProvider.CreateVersionLink l cid child parent branch ty).
Proof.
  apply index_inv_frame; [apply CreateVersionLink_preserves_inv|].
  apply keeps_intro; intros x. frame.
Qed.

Lemma UpdateHistoryCache_preserves_index_inv cid data :
  preserves index_inv (JSONFileProvider.UpdateHistoryCache cid data).
Proof.
  apply index_inv_frame; [apply UpdateHistoryCache_preserves_inv|].
  apply keeps_intro; intros x. frame.
Qed.

Lemma PutObject_preserves_index_inv k data :
  preserves index_inv (LocalStorage.PutObject k data).
Proof.
  apply index_inv_frame; [apply PutObject_preserves_inv|].
  apply keeps_intro; intros x. frame.
Qed.

Lemma GetObject_preserves_index_inv k :
  preserves index_inv (LocalStorage.GetObject k).
Proof.
  apply index_inv_frame; [apply GetObject_preserves_inv|].
  apply keeps_intro; intros x. frame.
Qed.

Lemma DeleteObjectsWithPrefix_preserves_index_inv prefix :
  preserves index_inv (LocalStorage.DeleteObjectsWithPrefix prefix).
Proof.
  apply index_inv_frame; [apply DeleteObjectsWithPrefix_preserves_inv|].
  apply keeps_intro; intros x. frame.
Qed.

Lemma CreateVersion_preserves_index_inv v files :
  preserves index_inv (JSONFileProvider.CreateVersion v files).
Proof.
  intros w Hi.
  assert (Hs : store_inv (JSONFileProvider.CreateVersion v files w).2)
    by (apply CreateVersion_preserves_inv, Hi).
  split; [exact Hs|]. clear Hs. destruct Hi as (_ & Hn & Hc).
  destruct (Versions (cache w) !! Version.ID v) eqn:Hfresh.
  { assert (E : JSONFileProvider.CreateVersion v files w
                = (Err ("version " ++ Version.ID v ++ " already exists"), w)).
    { unfold JSONFileProvider.CreateVersion, bind, gets. by rewrite Hfresh. }
    by rewrite E. }
  assert (E : cache (JSONFileProvider.CreateVersion v files w).2
              = (let c := cache w in
                 let cid := Version.CodebaseID v in
                 mkCache (Codebases c)
                   (<[Version.ID v := v]> (Versions c))
                   (<[Version.TreeID v := files]> (FileIndexes c))
                   (VersionMapping c)
                   (<[cid := sort_Slice
                               (default [] (versionsByCodebase c !! cid)
                                  ++ [v])]> (versionsByCodebase c))
                   (<[version_key cid (Version.Branch v) (Version.Version v)
                      := Version.ID v]> (versionIDByBranchAndName c)))).
  { unfold JSONFileProvider.CreateVersion. unfold bind at 1, gets.
    rewrite Hfresh. unfold bind at 1, modify_cache, modify.
    match goal with
    | |- cache (?k ?w').2 = _ =>
        assert (K : keeps cache k) by apply saves_keep_cache;
        rewrite (K w')
    end.
    reflexivity. }
  rewrite E. clear E.
  cbn [cache set_cache]. split.
  - intros k id. cbn. rewrite lookup_insert. case_decide as Hk.
    + intros [= <-]. exists v. by rewrite lookup_insert_eq.
    + intros Hl. destruct (Hn _ _ Hl) as (u & Hu & Hku). exists u.
      split; [|done]. rewrite lookup_insert_ne; [done|].
      intros <-. by rewrite Hfresh in Hu.
  - intros k u. cbn. rewrite lookup_insert. case_decide as Hk.
    + intros [= <-]. rewrite lookup_insert_eq. cbn.
      apply elem_of_sort_Slice, elem_of_app. right.
      by apply list_elem_of_singleton.
    + intros Hl. specialize (Hc _ _ Hl).
      rewrite lookup_insert. case_decide as Hcid; [|done]. cbn.
      apply elem_of_sort_Slice, elem_of_app. left. by rewrite Hcid.
Qed.

Lemma fold_delete_version_names l : ∀ c k id,
  versionIDByBranchAndName (fold_left JSONFileProvider.delete_version l c) !! k
  = Some id →
  versionIDByBranchAndName c !! k = Some id ∧ ∀ u, u ∈ l → key_of u ≠ k.
Proof.
  induction l as [|x l IH]; intros c k id H.
  - split; [done|]. intros u Hu. by apply elem_of_nil in Hu.
  - cbn [fold_left] in H. apply IH in H as [H Hl].
    cbn in H. apply lookup_delete_Some in H as [Hne H].
    split; [done|]. intros u Hu. apply elem_of_cons in Hu as [->|Hu]; auto.
Qed.

Lemma delete_codebase_index_inv id c :
  cache_inv c → names_sound c → index_complete c →
  names_sound (JSONFileProvider.delete_codebase id c)
  ∧ index_complete (JSONFileProvider.delete_codebase id c).
Proof.
  intros (_ & Hvk & Hs & _) Hn Hc. unfold JSONFileProvider.delete_codebase.
  set (l := default [] (versionsByCodebase c !! id)).
  set (c0 := mkCache (delete id (Codebases c)) (Versions c) (FileIndexes c)
               (VersionMapping c) (versionsByCodebase c)
               (versionIDByBranchAndName c)).
  assert (E0v : Versions c0 = Versions c) by reflexivity.
  assert (E0i : versionsByCodebase c0 = versionsByCodebase c) by reflexivity.
  assert (E0n : versionIDByBranchAndName c0 = versionIDByBranchAndName c)
    by reflexivity.
  clearbody c0.
  destruct (fold_delete_version l c0) as (Hi & Hvs & _).
  pose proof (fold_delete_version_names l c0) as Hnames.
  set (c1 := fold_left JSONFileProvider.delete_version l c0) in *.
  assert (Hl : ∀ u, u ∈ l →
            Versions c !! Version.ID u = Some u ∧ Version.CodebaseID u = id).
  { intros u Hu. subst l.
    destruct (versionsByCodebase c !! id) as [l'|] eqn:El;
      cbn in Hu; [| by apply elem_of_nil in Hu].
    exact (Hs _ _ _ El Hu). }
  split.
  - intros k vid. cbn. intros Hk.
    apply Hnames in Hk as [Hk Hkeys]. rewrite E0n in Hk.
    destruct (Hn _ _ Hk) as (v & Hv & Hkv). exists v. split; [|done].
    rewrite Hvs, E0v. destruct (decide (vid ∈ map Version.ID l)) as [Hin|]; [|done].
    exfalso. apply list_elem_of_In, in_map_iff in Hin as (u & Hu & Hin).
    apply list_elem_of_In in Hin. destruct (Hl u Hin) as [Hlook _].
    rewrite Hu, Hv in Hlook. injection Hlook as ->. by apply (Hkeys u Hin).
  - intros k v. cbn. rewrite Hvs, E0v, Hi, E0i.
    destruct (decide (k ∈ map Version.ID l)) as [Hin|Hnin]; [done|].
    intros Hk. specialize (Hc _ _ Hk).
    destruct (decide (Version.CodebaseID v = id)) as [Hcid|Hcid].
    + exfalso. apply Hnin. rewrite Hcid in Hc. fold l in Hc.
      apply list_elem_of_In, in_map_iff. exists v.
      split; [by apply Hvk | by apply list_elem_of_In].
    + by rewrite lookup_delete_ne.
Qed.

Lemma DeleteCodebaseByID_preserves_index_inv id :
  preserves index_inv (JSONFileProvider.DeleteCodebaseByID id).
Proof.
  intros w Hi.
  assert (Hs : store_inv (JSONFileProvider.DeleteCodebaseByID id w).2)
    by (apply DeleteCodebaseByID_preserves_inv, Hi).
  split; [exact Hs|]. rewrite DeleteCodebaseByID_cache.
  destruct Hi as ([Hc _] & Hn & Hic). by apply delete_codebase_index_inv.
Qed.

Lemma names_fold visited : ∀ (m : gmap string string) k id,
  fold_left (λ (m : gmap string string) v, <[key_of v := Version.ID v]> m)
    visited m !! k = Some id →
  m !! k = Some id ∨ ∃ v, v ∈ visited ∧ key_of v = k ∧ Version.ID v = id.
Proof.
  induction visited as [|u visited IH]; intros m k id H; [by left|].
  cbn [fold_left] in H. apply IH in H as [H|(v & Hv & Hk & Hid)].
  - rewrite lookup_insert in H. case_decide as Hk.
    + injection H as <-. right. exists u. split; [by left | done].
    + by left.
  - right. exists v. split; [by right | done].
Qed.

Lemma group_complete visited : ∀ (m : gmap string (list Version.t)) v,
  v ∈ visited ∨ v ∈ default [] (m !! Version.CodebaseID v) →
  v ∈ default []
        (fold_left
           (λ (m : gmap string (list Version.t)) v,
              <[Version.CodebaseID v
                := (default [] (m !! Version.CodebaseID v) ++ [v])%list]> m)
           visited m !! Version.CodebaseID v).
Proof.
  induction visited as [|u visited IH]; intros m v H.
  - destruct H as [H|H]; [by apply elem_of_nil in H | done].
  - cbn [fold_left]. apply IH. destruct H as [H|H].
    + apply elem_of_cons in H as [->|H]; [|by left]. right.
      rewrite lookup_insert_eq. cbn. apply elem_of_app. right.
      by apply list_elem_of_singleton.
    + right. rewrite lookup_insert. case_decide as Hc; [|done]. cbn.
      apply elem_of_app. left. by rewrite Hc.
Qed.

Lemma NewJSONFileProvider_preserves_index_inv iter :
  preserves index_inv (NewJSONFileProvider iter).
Proof.
  intros w Hi.
  assert (Hs : store_inv (NewJSONFileProvider iter w).2)
    by (apply NewJSONFileProvider_preserves_inv, Hi).
  split; [exact Hs|]. destruct Hi as ([_ [_ Hvj]] & _ & _).
  unfold NewJSONFileProvider, modify. cbn.
  assert (Hvis : ∀ v, v ∈ map snd (JSONFileProvider.range_order iter
                                     (versions_json (db w)))
                 ↔ versions_json (db w) !! Version.ID v = Some v).
  { intros v. split.
    - intros Hin. apply list_elem_of_In, in_map_iff in Hin as ([k v'] & <- & Hkv).
      apply list_elem_of_In, elem_of_range_order in Hkv. cbn.
      by rewrite (Hvj _ _ Hkv).
    - intros Hl. apply list_elem_of_In, in_map_iff.
      exists (Version.ID v, v). split; [done|].
      by apply list_elem_of_In, elem_of_range_order. }
  split.
  - intros k id Hk. cbn in Hk |- *.
    apply names_fold in Hk as [Hk|(v & Hv & Hkv & <-)].
    { by rewrite lookup_empty in Hk. }
    exists v. split; [by apply Hvis | done].
  - intros k v Hk. cbn in Hk |- *. rewrite lookup_fmap.
    assert (Hin : v ∈ map snd (JSONFileProvider.range_order iter
                                 (versions_json (db w)))).
    { apply Hvis. by rewrite (Hvj _ _ Hk). }
    pose proof (group_complete _ ∅ v (or_introl Hin)) as Hg.
    destruct (fold_left _ _ ∅ !! Version.CodebaseID v) as [l|]; cbn in Hg |- *;
      [| by apply elem_of_nil in Hg].
    by apply elem_of_sort_Slice.
Qed.

Create HintDb go_index.
#[local] Hint Resolve syscall_preserves_index_inv save_preserves_index_inv
  modify_db_history_preserves_index_inv modify_spawned_preserves_index_inv
  CreateCodebase_preserves_index_inv UpdateCodebaseTimestamp_preserves_index_inv
  CreateVersionLink_preserves_index_inv UpdateHistoryCache_preserves_index_inv
  PutObject_preserves_index_inv GetObject_preserves_index_inv
  DeleteObjectsWithPrefix_preserves_index_inv CreateVersion_preserves_index_inv
  DeleteCodebaseByID_preserves_index_inv NewJSONFileProvider_preserves_index_inv
  : go_index.

Ltac keep_index :=
  repeat (first [ assumption | solve [auto 1 with go_index nocore]
                | inv_step | unfold_head ]).

Section Indexes.
Context `{!Utils}.


Lemma run_units_preserves_index_inv files name :
  ∀ g, preserves index_inv (run_units files name g).
Proof.
  induction files as [|[p h] rest IH]; intros g; simpl; [apply preserves_ret|].
  apply preserves_bind.
  - apply preserves_attempt. unfold processFile. keep_index.
  - intros r. apply IH.
Qed.

#[local] Hint Resolve run_units_preserves_index_inv : go_index.


Lemma do_event_preserves_index_inv e w : index_inv w → index_inv (do_event e w).
Proof.
  revert w. change (∀ w, index_inv w → index_inv (do_event e w)).
  destruct e as [id now name d b| rnd cid ver b msg files bf auto | iter cid
                | l cid ch pa | cid | cid b v p | iter | c | f | iter];
    unfold do_event, discard.
  - fold (preserves index_inv (InitService.InitializeCodebase id now name d b)).
    keep_index.
  - fold (preserves index_inv
            (UploadService.ProcessSnapshot rnd cid ver b msg files bf auto)).
    keep_index.
  - fold (preserves index_inv (HistoryService.GetVersionMap iter cid)). keep_index.
  - fold (preserves index_inv (HistoryService.CreateVersionLink l cid ch pa)).
    keep_index.
  - fold (preserves index_inv (DeleteService.DeleteCodebase cid)). keep_index.
  - fold (preserves index_inv (ArchiveService.GetSingleFile cid b v p)).
    keep_index.
  - fold (preserves index_inv (HistoryService.run_spawned iter)). keep_index.
  - destruct c; unfold do_store_call, discard;
      match goal with |- ∀ w, index_inv w → index_inv (?c w).2 =>
        fold (preserves index_inv c) end; auto 1 with go_index nocore.
  - intros w Hi. exact Hi.
  - fold (preserves index_inv (NewJSONFileProvider iter)). keep_index.
Qed.

Lemma reachable_index_inv w : reachable w → index_inv w.
Proof.
  intros Hr. induction Hr as [base f | w e Hr IH].
  - split; [apply reachable_inv; constructor|].
    split; intros k x Hk; cbn in Hk; by rewrite lookup_empty in Hk.
  - by apply do_event_preserves_index_inv.
Qed.

(** X9.  In every reachable state a name of the index leads to a stored
    version: [GetVersion] returns a version whose id is the one the index
    holds for the key, whose own key is that key, and which is in the
    slice of its codebase; or the key is not in the index and the call
    reports that the version was not found.  The error for a name that
    leads to no version does not occur. *)
Theorem GetVersion_never_meets_a_dangling_name (w : World)
  (codebaseID branch version : string) :
  reachable w →
  match versionIDByBranchAndName (cache w)
        !! version_key codebaseID branch version with
  | Some id =>
      ∃ v, JSONFileProvider.GetVersion codebaseID branch version w = (Ok v, w)
           ∧ Version.ID v = id
           ∧ key_of v = version_key codebaseID branch version
           ∧ v ∈ versions_of (Version.CodebaseID v) w
  | None =>
      JSONFileProvider.GetVersion codebaseID branch version w
      = (Err ("version " ++ branch ++ "/" ++ version ++ " not found"), w)
  end.
Proof.
  intros Hr. pose proof (reachable_inv _ Hr) as [(_ & Hvk & _) _].
  apply reachable_index_inv in Hr as (_ & Hn & Hc).
  unfold JSONFileProvider.GetVersion, bind, gets.
  destruct (versionIDByBranchAndName (cache w) !! _) as [id|] eqn:Ek; [|done].
  destruct (Hn _ _ Ek) as (v & Hv & Hk). exists v. rewrite Hv.
  split; [done|]. split; [by apply Hvk in Hv|]. split; [done|].
  by apply (Hc _ _ Hv).
Qed.

(** X10.  In every reachable state the slice of a codebase in
    [versionsByCodebase], from which the nodes of its graph are made,
    lists exactly the stored versions whose [CodebaseID] is that
    codebase. *)
Theorem index_of_a_codebase_lists_its_stored_versions (w : World)
  (codebaseID : string) (v : Version.t) :
  reachable w →
  v ∈ versions_of codebaseID w
  ↔ Versions (cache w) !! Version.ID v = Some v
    ∧ Version.CodebaseID v = codebaseID.
Proof.
  intros Hr. pose proof (reachable_inv _ Hr) as [(_ & _ & Hs & _) _].
  apply reachable_index_inv in Hr as (_ & _ & Hc).
  unfold versions_of. split.
  - intros Hv.
    destruct (versionsByCodebase (cache w) !! codebaseID) as [l|] eqn:El;
      cbn in Hv; [| by apply elem_of_nil in Hv].
    exact (Hs _ _ _ El Hv).
  - intros [Hv <-]. by apply (Hc _ _ Hv).
Qed.

End Indexes.


(** The theorem at the second of three snapshots. *)
Lemma GetVersion_never_meets_a_dangling_name_witness :
  match versionIDByBranchAndName (cache dev3_world)
        !! version_key "cb1" "dev" "v2" with
  | Some id =>
      ∃ v, JSONFileProvider.GetVersion "cb1" "dev" "v2" dev3_world
           = (Ok v, dev3_world)
           ∧ Version.ID v = id
           ∧ key_of v = version_key "cb1" "dev" "v2"
           ∧ v ∈ versions_of (Version.CodebaseID v) dev3_world
  | None =>
      JSONFileProvider.GetVersion "cb1" "dev" "v2" dev3_world
      = (Err ("version " ++ "dev" ++ "/" ++ "v2" ++ " not found"), dev3_world)
  end.
Proof.
  exact (GetVersion_never_meets_a_dangling_name (H := example_utils)
           dev3_world "cb1" "dev" "v2" dev3_world_reachable).
Defined.

(** The theorem at the second of three snapshots. *)
Lemma index_of_a_codebase_lists_its_stored_versions_witness :
  Version.mk "v2" "cb1" "v2" "dev" "t2" "" 300
    (VersionStats.mk 1 2 2 (FDiv 2 2)) ∈ versions_of "cb1" dev3_world.
Proof.
  apply (index_of_a_codebase_lists_its_stored_versions (H := example_utils)
           dev3_world "cb1" _ dev3_world_reachable).
  split; vm_compute; reflexivity.
Defined.

(* ------------------------------------------------------------------ *)
(** ** Version graph *)
(* ------------------------------------------------------------------ *)





(** X11.  An answer of [GetVersionMap] is kept: the call leaves the
    provider's memory as it is, returns the cached bytes and changes
    nothing when the cache file exists, returns the serialized graph of
    the state otherwise, and every later call returns the same bytes
    without a change, whatever the order of its loop would be. *)
Theorem GetVersionMap_answer_is_kept (iter : list string) (codebaseID : string)
  (w w1 : World) (blob : bytes) :
  HistoryService.GetVersionMap iter codebaseID w = (Ok blob, w1) →
  cache w1 = cache w
  ∧ match history_cache (db w) !! codebaseID with
    | Some cached => blob = cached ∧ w1 = w
    | None => blob = Json.Marshal (graph_of iter codebaseID (cache w))
    end
  ∧ ∀ iter', HistoryService.GetVersionMap iter' codebaseID w1 = (Ok blob, w1).
Proof.
  intros E.
  destruct (history_cache (db w) !! codebaseID) as [cached|] eqn:Eh.
  - rewrite (GetVersionMap_hit _ _ _ _ Eh) in E. injection E as <- <-.
    split; [done|]. split; [done|]. intros iter'. by apply GetVersionMap_hit.
  - rewrite (GetVersionMap_miss _ _ _ Eh) in E.
    apply bind_Ok_inv in E as (g & w0 & Hr & Hg).
    apply wrap_Ok_inv in Hr, Hg.
    apply RebuildHistoryCache_Ok in Hr as (-> & Hc & Hh & _).
    assert (Hl : history_cache (db w0) !! codebaseID
                 = Some (Json.Marshal (graph_of iter codebaseID (cache w))))
      by by rewrite Hh, lookup_insert_eq.
    rewrite (GetHistoryCache_hit _ _ _ Hl) in Hg. injection Hg as <- <-.
    split; [done|]. split; [done|]. intros iter'. by apply GetVersionMap_hit.
Qed.

(** The theorem at the first read of the graph of a new codebase. *)
Lemma GetVersionMap_answer_is_kept_witness :
  ∃ blob,
    HistoryService.GetVersionMap [] "cb1" proj_world = (Ok blob, main0_world)
    ∧ ∀ iter', HistoryService.GetVersionMap iter' "cb1" main0_world
               = (Ok blob, main0_world).
Proof.
  assert (E : ∃ blob, HistoryService.GetVersionMap [] "cb1" proj_world
                      = (Ok blob, main0_world))
    by (vm_compute; eexists; reflexivity).
  destruct E as [blob E]. exists blob. split; [exact E|].
  exact (proj2 (proj2 (GetVersionMap_answer_is_kept [] "cb1" proj_world
                         main0_world blob E))).
Defined.



(** X13.  A link requested by hand between two versions that exist, for a
    child without a link, is stored with the type [sequential] and the
    branch of the child, and one rebuild is scheduled.  When the rebuild
    has run with success, the graph it returns has the edge from the
    parent to the child and [GetVersionMap] answers with that graph
    serialized. *)
Theorem manual_link_is_in_the_graph_after_the_rebuild
  (linkID codebaseID : string) (child parent : VersionIdentifier)
  (iter : list string) (w w1 w2 : World) (childVersion parentVersion : Version.t)
  (g : VersionMapResponse.t) :
  JSONFileProvider.GetVersion codebaseID (vi_Branch child) (vi_Version child) w
  = (Ok childVersion, w) →
  JSONFileProvider.GetVersion codebaseID (vi_Branch parent) (vi_Version parent) w
  = (Ok parentVersion, w) →
  VersionMapping (cache w) !! Version.ID childVersion = None →
  HistoryService.CreateVersionLink linkID codebaseID child parent w
  = (Ok tt, w1) →
  HistoryService.RebuildHistoryCache iter codebaseID w1 = (Ok g, w2) →
  spawned w1 = (spawned w ++ [codebaseID])%list
  ∧ VersionMapping (cache w1) !! Version.ID childVersion
    = Some (versionMappingRecord.mk linkID codebaseID (vi_Branch child)
              (Version.ID childVersion) (Version.ID parentVersion)
              LinkageTypeSequential)
  ∧ VersionEdge.mk (Version.ID parentVersion) (Version.ID childVersion)
      LinkageTypeSequential ∈ VersionMapResponse.Edges g
  ∧ ∀ iter', HistoryService.GetVersionMap iter' codebaseID w2
             = (Ok (Json.Marshal g), w2).
Proof.
  intros Hc Hp Hn El Hr.
  set (record := versionMappingRecord.mk linkID codebaseID (vi_Branch child)
                   (Version.ID childVersion) (Version.ID parentVersion)
                   LinkageTypeSequential).
  destruct (manual_link_schedules_rebuild _ _ _ _ _ _ El) as [Hsp _].
  assert (Hm : VersionMapping (cache w1)
               = <[Version.ID childVersion := record]> (VersionMapping (cache w))).
  { unfold HistoryService.CreateVersionLink,
      HistoryService.CreateVersionLinkWithType in El.
    rewrite (bind_Ok _ _ _ _ _ (wrap_Ok _ _ _ _ _ Hc)) in El.
    rewrite (bind_Ok _ _ _ _ _ (wrap_Ok _ _ _ _ _ Hp)) in El.
    apply bind_Ok_inv in El as ([] & wa & Hl & El).
    apply wrap_Ok_inv in Hl.
    pose proof (CreateVersionLink_new linkID codebaseID
                  (Version.ID childVersion) (Version.ID parentVersion)
                  (vi_Branch child) LinkageTypeSequential w Hn) as Hnew.
    rewrite Hl in Hnew. cbn [snd] in Hnew.
    apply bind_Ok_inv in El as ([] & wb & Hgo & El).
    unfold ret in El. injection El as <-.
    unfold HistoryService.go_RebuildHistoryCache, modify in Hgo.
    injection Hgo as <-. exact Hnew. }
  apply RebuildHistoryCache_Ok in Hr as (-> & _ & Hh & _).
  split; [done|]. split; [by rewrite Hm, lookup_insert_eq|]. split.
  - unfold graph_of. cbn. rewrite Hm.
    apply list_elem_of_In, in_map_iff. exists record. split; [done|].
    apply filter_In. split; [| by apply String.eqb_refl].
    apply in_map_iff. exists (Version.ID childVersion, record). split; [done|].
    apply list_elem_of_In, elem_of_range_order. by rewrite lookup_insert_eq.
  - intros iter'. apply GetVersionMap_hit. by rewrite Hh, lookup_insert_eq.
Qed.

(** The theorem at two snapshots taken without automatic linkage. *)
Lemma manual_link_is_in_the_graph_after_the_rebuild_witness :
  VersionEdge.mk "v1" "v2" LinkageTypeSequential
  ∈ VersionMapResponse.Edges (graph_of [] "cb1" (cache linked_world))
  ∧ ∀ iter', HistoryService.GetVersionMap iter' "cb1" rebuilt_world
             = (Ok (Json.Marshal (graph_of [] "cb1" (cache linked_world))),
                rebuilt_world).
Proof.
  assert (Ec : ∃ v, JSONFileProvider.GetVersion "cb1" "main" "v2" main2_world
                    = (Ok v, main2_world) ∧ Version.ID v = "v2")
    by (vm_compute; eexists; split; reflexivity).
  assert (Ep : ∃ v, JSONFileProvider.GetVersion "cb1" "main" "v1" main2_world
                    = (Ok v, main2_world) ∧ Version.ID v = "v1")
    by (vm_compute; eexists; split; reflexivity).
  destruct Ec as (cv & Ec & Hcv). destruct Ep as (pv & Ep & Hpv).
  assert (Hn : VersionMapping (cache main2_world) !! Version.ID cv = None)
    by (rewrite Hcv; vm_compute; reflexivity).
  assert (El : HistoryService.CreateVersionLink "l9" "cb1"
                 (mkVersionIdentifier "main" "v2")
                 (mkVersionIdentifier "main" "v1") main2_world
               = (Ok tt, linked_world)) by (vm_compute; reflexivity).
  assert (Er : HistoryService.RebuildHistoryCache [] "cb1" linked_world
               = (Ok (graph_of [] "cb1" (cache linked_world)), rebuilt_world))
    by (vm_compute; reflexivity).
  destruct (manual_link_is_in_the_graph_after_the_rebuild "l9" "cb1"
              (mkVersionIdentifier "main" "v2") (mkVersionIdentifier "main" "v1")
              [] main2_world linked_world rebuilt_world cv pv
              (graph_of [] "cb1" (cache linked_world)) Ec Ep Hn El Er)
    as (_ & _ & H3 & H4).
  rewrite Hcv, Hpv in H3. exact (conj H3 H4).
Defined.

(** X14.  A link requested by hand for a child or, the child existing,
    for a parent that [GetVersion] does not find is refused with an error
    that names the missing version, and nothing changes: no link, no
    write, no rebuild. *)
Theorem manual_link_of_an_unknown_version_changes_nothing
  (linkID codebaseID : string) (child parent : VersionIdentifier) (w : World) :
  (versionIDByBranchAndName (cache w)
   !! version_key codebaseID (vi_Branch child) (vi_Version child) = None →
   HistoryService.CreateVersionLink linkID codebaseID child parent w
   = (Err ("child version '" ++ vi_Version child ++ "' (branch: "
             ++ vi_Branch child ++ ") not found: version "
             ++ vi_Branch child ++ "/" ++ vi_Version child ++ " not found"),
      w))
  ∧ (∀ childVersion,
       JSONFileProvider.GetVersion codebaseID (vi_Branch child)
         (vi_Version child) w = (Ok childVersion, w) →
       versionIDByBranchAndName (cache w)
       !! version_key codebaseID (vi_Branch parent) (vi_Version parent) = None →
       HistoryService.CreateVersionLink linkID codebaseID child parent w
       = (Err ("parent version '" ++ vi_Version parent ++ "' (branch: "
                 ++ vi_Branch parent ++ ") not found: version "
                 ++ vi_Branch parent ++ "/" ++ vi_Version parent
                 ++ " not found"),
          w)).
Proof.
  assert (Hmiss : ∀ b v,
            versionIDByBranchAndName (cache w) !! version_key codebaseID b v
            = None →
            JSONFileProvider.GetVersion codebaseID b v w
            = (Err ("version " ++ b ++ "/" ++ v ++ " not found"), w)).
  { intros b v E. unfold JSONFileProvider.GetVersion, bind, gets. by rewrite E. }
  split.
  - intros E. unfold HistoryService.CreateVersionLink,
      HistoryService.CreateVersionLinkWithType.
    erewrite bind_Err; [reflexivity|].
    erewrite wrap_Err; [|by apply Hmiss].
    f_equal. f_equal. by rewrite !string_app_assoc.
  - intros childVersion Hc E. unfold HistoryService.CreateVersionLink,
      HistoryService.CreateVersionLinkWithType.
    rewrite (bind_Ok _ _ _ _ _ (wrap_Ok _ _ _ _ _ Hc)).
    erewrite bind_Err; [reflexivity|].
    erewrite wrap_Err; [|by apply Hmiss].
    f_equal. f_equal. by rewrite !string_app_assoc.
Qed.

(** The theorem at a child that does not exist. *)
Lemma manual_link_of_an_unknown_version_changes_nothing_witness :
  HistoryService.CreateVersionLink "l9" "cb1" (mkVersionIdentifier "main" "v7")
    (mkVersionIdentifier "main" "v1") main2_world
  = (Err "child version 'v7' (branch: main) not found: version main/v7 not found",
     main2_world).
Proof.
  apply (proj1 (manual_link_of_an_unknown_version_changes_nothing "l9" "cb1"
                  (mkVersionIdentifier "main" "v7")
                  (mkVersionIdentifier "main" "v1") main2_world)).
  vm_compute; reflexivity.
Defined.

(* ------------------------------------------------------------------ *)
(** ** Snapshot pipeline: the statistics *)
(* ------------------------------------------------------------------ *)

Lemma wrap64_add_l a b : wrap64 (wrap64 a + b) = wrap64 (a + b).
Proof.
  unfold wrap64.
  replace ((a + 2 ^ 63) mod 2 ^ 64 - 2 ^ 63 + b + 2 ^ 63)%Z
    with ((a + 2 ^ 63) mod 2 ^ 64 + b)%Z by lia.
  rewrite Zplus_mod_idemp_l. f_equal. f_equal. lia.
Qed.

Lemma sum_sizes_app l1 l2 : sum_sizes (l1 ++ l2) = (sum_sizes l1 + sum_sizes l2)%Z.
Proof. unfold sum_sizes. induction l1 as [|x l1 IH]; cbn; [done|]. rewrite IH. lia. Qed.

Section Statistics.
Context `{!Utils}.


Lemma add_file_sums_ok g f : sums_ok g → sums_ok (add_file g f).
Proof.
  unfold sums_ok. intros (H1 & H2 & H3 & H4). cbn.
  rewrite H1, H2, H3, !wrap64_add_l, length_app, !map_app, !sum_sizes_app. cbn.
  split; [f_equal; lia|]. split; [f_equal; lia|]. split; [f_equal; lia|]. done.
Qed.

Lemma run_units_sums_ok files name : ∀ g w g' w',
  run_units files name g w = (Ok g', w') → sums_ok g → sums_ok g'.
Proof.
  induction files as [|[p h] rest IH]; intros g w g' w' E Hg; cbn in E.
  - unfold ret in E. by injection E as <- <-.
  - unfold bind at 1, attempt in E.
    destruct (processFile p h name w) as [[f|e] w1].
    + eapply IH; [exact E|]. by apply add_file_sums_ok.
    + eapply IH; [exact E|]. exact Hg.
Qed.

Lemma errors_of_nil_oks {A} (l : list (res A)) :
  errors_of l = [] → l = map Ok (oks_of l).
Proof.
  induction l as [|[a|e] l IH]; cbn; intros E; [done| |discriminate].
  f_equal. by apply IH.
Qed.

Lemma unit_results_paths files name : ∀ w,
  Forall2 (λ pf r, ∀ f, r = Ok f →
             File.Path f = Filepath.ToSlash pf.1
             ∧ (0 <= File.Size f)%Z ∧ (0 <= File.CompressedSize f)%Z)
    files (unit_results files name w).
Proof.
  induction files as [|[p h] rest IH]; intros w; cbn; [constructor|].
  destruct (processFile p h name w) as [r w1] eqn:E. constructor; [|apply IH].
  intros f ->. apply processFile_Ok in E as (data & content & _ & _ & -> & _).
  cbn. unfold len64. split; [done|]. lia.
Qed.

Lemma processFiles_Ok_gathered files codebaseName w processed s w1 :
  processFiles files codebaseName w = (Ok (processed, s), w1) →
  ∃ g, sums_ok g ∧ processed = processedFiles g
       ∧ s = (let s := stats g in
              if (0 <? VersionStats.TotalSize s)%Z
              then VersionStats.mk (VersionStats.TotalFiles s)
                     (VersionStats.TotalSize s) (VersionStats.CompressedSize s)
                     (FDiv (VersionStats.CompressedSize s)
                           (VersionStats.TotalSize s))
              else s)
       ∧ Forall2 (λ pf f, File.Path f = Filepath.ToSlash pf.1
                          ∧ (0 <= File.Size f)%Z
                          ∧ (0 <= File.CompressedSize f)%Z)
           files processed.
Proof.
  intros E. unfold processFiles in E.
  apply bind_Ok_inv in E as (g & w0 & Hu & E).
  destruct (run_units_gathers files codebaseName
              (mkGathered [] VersionStats.zero []) w)
    as (g' & w' & Hu' & Herr & Hfs & _).
  rewrite Hu in Hu'. injection Hu' as <- <-. cbn in Herr, Hfs.
  assert (Hs : sums_ok g).
  { eapply run_units_sums_ok; [exact Hu|]. by unfold sums_ok. }
  destruct (errChan g) as [|e0 es] eqn:Ee; [|discriminate].
  unfold ret in E. injection E as <- <- <-.
  symmetry in Herr. apply errors_of_nil_oks in Herr.
  pose proof (unit_results_paths files codebaseName w) as Hp.
  rewrite Herr, <- Hfs in Hp.
  exists g. do 3 (split; [done|]).
  apply Forall2_fmap_r in Hp. eapply Forall2_impl; [exact Hp|].
  cbn. intros pf f Hf. by apply Hf.
Qed.

Lemma processFiles_Ok_paths files codebaseName w ps w1 :
  processFiles files codebaseName w = (Ok ps, w1) →
  map File.Path ps.1 = map (λ pf, Filepath.ToSlash pf.1) files.
Proof.
  destruct ps as [processed s]. intros E.
  apply processFiles_Ok_gathered in E as (g & _ & _ & _ & Hfacts). cbn.
  induction Hfacts as [|pf f l1 l2 (Hx & _) _ IH]; cbn; [done|].
  by rewrite Hx, IH.
Qed.

(** X15.  When [processFiles] succeeds it returns one file for each
    upload, with the path of the upload in slash form and sizes that are
    not negative; the statistics count the uploads and sum the sizes and
    the stored sizes of the files (in 64 bits), and the ratio is the
    quotient of the two sums when the total size is positive and zero
    otherwise. *)
Theorem processFiles_statistics_are_the_sums
  (files : list (string * FileHeader)) (codebaseName : string) (w w1 : World)
  (processed : list File.t) (s : VersionStats.t) :
  processFiles files codebaseName w = (Ok (processed, s), w1) →
  map File.Path processed = map (λ pf, Filepath.ToSlash pf.1) files
  ∧ Forall (λ f, (0 <= File.Size f)%Z ∧ (0 <= File.CompressedSize f)%Z) processed
  ∧ VersionStats.TotalFiles s = wrap64 (Z.of_nat (length files))
  ∧ VersionStats.TotalSize s = wrap64 (sum_sizes (map File.Size processed))
  ∧ VersionStats.CompressedSize s
    = wrap64 (sum_sizes (map File.CompressedSize processed))
  ∧ VersionStats.CompressionRatio s
    = (if (0 <? VersionStats.TotalSize s)%Z
       then FDiv (VersionStats.CompressedSize s) (VersionStats.TotalSize s)
       else FZero).
Proof.
  intros E. pose proof (processFiles_Ok_paths _ _ _ _ _ E) as Hpaths.
  apply processFiles_Ok_gathered in E as (g & Hs & -> & -> & Hfacts).
  assert (Hlen : length (processedFiles g) = length files)
    by (symmetry; by eapply Forall2_length).
  destruct Hs as (H1 & H2 & H3 & H4). cbn zeta.
  split; [exact Hpaths|]. split.
  { clear -Hfacts. induction Hfacts as [|pf f l1 l2 (_ & Hx) _ IH];
      constructor; done. }
  destruct (0 <? VersionStats.TotalSize (stats g))%Z eqn:Ez; cbn;
    rewrite ?Ez, H1, Hlen; done.
Qed.

End Statistics.


(** The theorem at an upload of one image. *)
Lemma processFiles_statistics_are_the_sums_witness :
  VersionStats.TotalFiles (VersionStats.mk 1 2 2 (FDiv 2 2)) = wrap64 1
  ∧ VersionStats.TotalSize (VersionStats.mk 1 2 2 (FDiv 2 2))
    = wrap64 (sum_sizes (map File.Size [a_png_file])).
Proof.
  destruct (processFiles_statistics_are_the_sums (H := example_utils)
              [("a.png", Upload ab)] "proj" proj_world a_png_world
              [a_png_file] (VersionStats.mk 1 2 2 (FDiv 2 2)))
    as (_ & _ & H1 & H2 & _); [vm_compute; reflexivity|].
  exact (conj H1 H2).
Defined.

(* ------------------------------------------------------------------ *)
(** ** Snapshot requests *)
(* ------------------------------------------------------------------ *)

Section Snapshots.
Context `{!Utils}.


(** X16.  [ProcessSnapshot] for an id that no codebase has returns an
    error that names the id, before any file is processed: the state is
    unchanged. *)
Theorem ProcessSnapshot_of_unknown_codebase_stores_nothing
  (rnd : Rand.t) (codebaseID ver branch message : string)
  (files : list (string * FileHeader)) (branchFrom : option VersionIdentifier)
  (autoLinkage : bool) (w : World) :
  Codebases (cache w) !! codebaseID = None →
  UploadService.ProcessSnapshot rnd codebaseID ver branch message files
    branchFrom autoLinkage w
  = (Err ("invalid codebase_id: " ++ codebaseID ++ ", error: codebase "
            ++ codebaseID ++ " not found"), w).
Proof.
  intros E. unfold UploadService.ProcessSnapshot.
  erewrite bind_Err; [reflexivity|].
  erewrite wrap_Err; [|by apply GetCodebaseByID_missing].
  f_equal. f_equal. by rewrite !string_app_assoc.
Qed.

Lemma ProcessSnapshot_cases rnd cid ver branch msg files w :
  (∃ e w', ∀ bf auto,
     UploadService.ProcessSnapshot rnd cid ver branch msg files bf auto w
     = (Err e, w'))
  ∨ (∃ cb vt, ∀ bf auto, ∃ h w',
       UploadService.ProcessSnapshot rnd cid ver branch msg files bf auto w
       = (Ok (SnapshotResponse.mk
                (Codebase.with_UpdatedAt cb (Rand.respondedAt rnd))
                (Version.with_CodebaseID vt.1 cid) vt.2 h), w')).
Proof.
  unfold UploadService.ProcessSnapshot.
  destruct (wrap ("invalid codebase_id: " ++ cid ++ ", error: ")
              (JSONFileProvider.GetCodebaseByID cid) w) as [[cb|e] w0] eqn:E0.
  2:{ left. exists e, w0. intros. by rewrite (bind_Err _ _ _ _ _ E0). }
  destruct (CreateSnapshot rnd files (Codebase.Name cb) branch ver msg w0)
    as [[vt|e] w1] eqn:E1.
  2:{ left. exists e, w1. intros. rewrite (bind_Ok _ _ _ _ _ E0).
      by rewrite (bind_Err _ _ _ _ _ E1). }
  destruct (UploadService.persistMetadata (Rand.updatedAt rnd) cb
              (Version.with_CodebaseID vt.1 cid) vt.2 w1) as [[[]|e] w2] eqn:E2.
  2:{ left. exists e, w2. intros. rewrite (bind_Ok _ _ _ _ _ E0).
      rewrite (bind_Ok _ _ _ _ _ E1). by rewrite (bind_Err _ _ _ _ _ E2). }
  right. exists cb, vt. intros bf auto.
  rewrite (bind_Ok _ _ _ _ _ E0), (bind_Ok _ _ _ _ _ E1).
  rewrite (bind_Ok _ _ _ _ _ E2).
  unfold bind, attempt, ret.
  destruct auto.
  - destruct (UploadService.establishLinkage _ _ _ _ _ w2) as [r3 w3].
    destruct (HistoryService.GetVersionMap _ _ w3) as [h w4].
    by do 2 eexists.
  - destruct (HistoryService.GetVersionMap _ _ w2) as [h w4].
    by do 2 eexists.
Qed.

(** X17.  Whether [ProcessSnapshot] succeeds does not depend on the
    linkage: with any [branchFrom] and [autoLinkage] it succeeds exactly
    when it does without linkage, with the same codebase, version and file
    tree in the response, and fails with the same error in the same state
    otherwise.  A failure of the linkage or of the graph never fails the
    snapshot. *)
Theorem snapshot_outcome_does_not_depend_on_linkage
  (rnd : Rand.t) (codebaseID ver branch message : string)
  (files : list (string * FileHeader)) (branchFrom : option VersionIdentifier)
  (autoLinkage : bool) (w : World) :
  let with_linkage :=
    UploadService.ProcessSnapshot rnd codebaseID ver branch message files
      branchFrom autoLinkage w in
  let without :=
    UploadService.ProcessSnapshot rnd codebaseID ver branch message files
      None false w in
  match with_linkage.1, without.1 with
  | Ok a, Ok b =>
      SnapshotResponse.Codebase_ a = SnapshotResponse.Codebase_ b
      ∧ SnapshotResponse.Version_ a = SnapshotResponse.Version_ b
      ∧ SnapshotResponse.FileTree_ a = SnapshotResponse.FileTree_ b
  | Err ea, Err eb => ea = eb ∧ with_linkage.2 = without.2
  | _, _ => False
  end.
Proof.
  cbn zeta.
  destruct (ProcessSnapshot_cases rnd codebaseID ver branch message files w)
    as [(e & w' & H1)|(cb & vt & H1)].
  - by rewrite (H1 branchFrom autoLinkage), (H1 None false).
  - destruct (H1 branchFrom autoLinkage) as (h & w' & ->).
    destruct (H1 None false) as (h' & w'' & ->). done.
Qed.












End Snapshots.


(** The theorem at an id that no codebase has. *)
Lemma ProcessSnapshot_of_unknown_codebase_stores_nothing_witness :
  UploadService.ProcessSnapshot (H := example_utils) rnd1 "cb9" "v1" "main" ""
    [("a.png", Upload ab)] None true proj_world
  = (Err "invalid codebase_id: cb9, error: codebase cb9 not found", proj_world).
Proof.
  exact (ProcessSnapshot_of_unknown_codebase_stores_nothing
           (H := example_utils) rnd1 "cb9" "v1" "main" ""
           [("a.png", Upload ab)] None true proj_world eq_refl).
Defined.



(* ------------------------------------------------------------------ *)
(** ** Blob store: objects and clean paths *)
(* ------------------------------------------------------------------ *)



Lemma Split_nonempty s : ∃ h t, Strings.Split s = h :: t.
Proof.
  induction s as [|c r (h & t & IH)]; cbn; [by eauto|].
  destruct (Ascii.eqb c "/"); [by eauto|]. rewrite IH. eauto.
Qed.

Lemma Split_app a b :
  Strings.Split (a ++ "/" ++ b) = (Strings.Split a ++ Strings.Split b)%list.
Proof.
  induction a as [|c a IH]; [done|].
  change (String c a ++ "/" ++ b) with (String c (a ++ "/" ++ b)).
  cbn [Strings.Split]. rewrite IH.
  destruct (Ascii.eqb c "/"); [done|].
  by destruct (Split_nonempty a) as (h & t & ->).
Qed.

Lemma Split_no_separator s : no_separator s = true → Strings.Split s = [s].
Proof.
  unfold no_separator. induction s as [|c r IH]; cbn; [done|].
  intros [Hc Hr]%andb_true_iff. apply negb_true_iff in Hc. rewrite Hc.
  by rewrite (IH Hr).
Qed.

Lemma String_concat_cons sep x y l :
  String.concat sep (x :: y :: l) = x ++ sep ++ String.concat sep (y :: l).
Proof. done. Qed.

Lemma Join_Split s : Strings.Join (Strings.Split s) = s.
Proof.
  unfold Strings.Join. induction s as [|c r IH]; [done|]. cbn [Strings.Split].
  destruct (Split_nonempty r) as (h & t & E). rewrite E in IH |- *.
  destruct (Ascii.eqb_spec c "/") as [->|_].
  - rewrite String_concat_cons, IH. done.
  - destruct t as [|y t]; cbn in IH |- *; [by rewrite IH|].
    rewrite <- IH. done.
Qed.

Lemma Split_Join l :
  l ≠ [] → Forall (λ e, no_separator e = true) l →
  Strings.Split (Strings.Join l) = l.
Proof.
  unfold Strings.Join. induction l as [|x [|y l] IH]; intros Hne Hall; [done| |].
  - cbn. apply Split_no_separator. by inversion Hall.
  - rewrite String_concat_cons, Split_app. inversion Hall as [|? ? Hx Hrest]; subst.
    rewrite (Split_no_separator _ Hx), IH; done.
Qed.

Lemma Join_app l1 l2 :
  l1 ≠ [] → l2 ≠ [] →
  Strings.Join (l1 ++ l2) = Strings.Join l1 ++ "/" ++ Strings.Join l2.
Proof.
  unfold Strings.Join. intros H1 H2.
  induction l1 as [|x [|y l1] IH]; [done| |].
  - destruct l2; [done|]. done.
  - change ((x :: y :: l1) ++ l2)%list with (x :: y :: (l1 ++ l2))%list.
    rewrite !String_concat_cons.
    change (y :: (l1 ++ l2))%list with ((y :: l1) ++ l2)%list.
    rewrite IH by done. by rewrite !string_app_assoc.
Qed.

Lemma plain_true e :
  plain e = true →
  e ≠ "" ∧ e ≠ "." ∧ e ≠ ".." ∧ no_separator e = true.
Proof.
  unfold plain. intros [[[H1 H2]%andb_true_iff H3]%andb_true_iff H4]%andb_true_iff.
  apply negb_true_iff, String.eqb_neq in H1, H2, H3. done.
Qed.

Lemma clean_step_plain rooted st e :
  plain e = true → Filepath.clean_step rooted st e = e :: st.
Proof.
  intros (H1 & H2 & H3 & _)%plain_true. unfold Filepath.clean_step.
  apply String.eqb_neq in H1, H2, H3. by rewrite H1, H2, H3.
Qed.

Lemma fold_clean_plain rooted l : ∀ st,
  Forall (λ e, plain e = true ∨ e = "") l →
  fold_left (Filepath.clean_step rooted) l st
  = (rev (List.filter (λ e, negb (String.eqb e "")) l) ++ st)%list.
Proof.
  induction l as [|e l IH]; intros st Hall; [done|].
  inversion Hall as [|? ? He Hrest]; subst. cbn [fold_left List.filter].
  destruct He as [He| ->].
  - rewrite clean_step_plain, IH by done.
    destruct (plain_true _ He) as (Hne & _). apply String.eqb_neq in Hne.
    rewrite Hne. cbn. by rewrite <- app_assoc.
  - cbn. by rewrite IH.
Qed.

Lemma filter_plain l :
  Forall (λ e, plain e = true) l →
  List.filter (λ e, negb (String.eqb e "")) l = l.
Proof.
  induction 1 as [|e l He _ IH]; [done|]. cbn.
  destruct (plain_true _ He) as (Hne & _). apply String.eqb_neq in Hne.
  by rewrite Hne, IH.
Qed.

Lemma forallb_true_Forall {A} (f : A → bool) l :
  forallb f l = true → Forall (λ e, f e = true) l.
Proof.
  induction l as [|x l IH]; cbn; [constructor|].
  intros [Hx Hl]%andb_true_iff. constructor; auto.
Qed.

Lemma Join_below (base : string) (l : list string) :
  plain_path base = true →
  Forall (λ e, plain e = true ∨ e = "") l →
  List.filter (λ e, negb (String.eqb e "")) l ≠ [] →
  Filepath.Join base (Strings.Join l)
  = base ++ "/"
    ++ Strings.Join (List.filter (λ e, negb (String.eqb e "")) l).
Proof.
  intros Hb Hl Hne.
  set (l' := List.filter _ l) in *.
  assert (Hl0 : l ≠ []) by (intros ->; by apply Hne).
  assert (Hsep : Forall (λ e, no_separator e = true) l).
  { eapply Forall_impl; [exact Hl|]. intros e [He| ->]; [|done].
    by apply plain_true in He as (_ & _ & _ & He). }
  destruct base as [|c r]; [done|]. unfold Filepath.Join.
  change (String.eqb (String c r) "") with false. cbn iota.
  change (String c r ++ "/" ++ Strings.Join l)
    with (String c (r ++ "/" ++ Strings.Join l)).
  unfold Filepath.Clean. cbn zeta. cbn [plain_path] in Hb.
  destruct (Ascii.eqb_spec c "/") as [->|Hc].
  - cbn [Strings.Split]. change (Ascii.eqb "/" "/") with true. cbn iota.
    rewrite Split_app, (Split_Join _ Hl0 Hsep).
    cbn [fold_left]. change (Filepath.clean_step true [] "") with (@nil string).
    apply forallb_true_Forall in Hb.
    rewrite fold_clean_plain.
    2:{ apply Forall_app. split; [|done].
        eapply Forall_impl; [exact Hb|]. by left. }
    rewrite List.filter_app, (filter_plain _ Hb). fold l'.
    rewrite app_nil_r, rev_involutive.
    destruct (Split_nonempty r) as (h & t & Er).
    rewrite Join_app by (by rewrite ?Er). by rewrite Join_Split.
  - assert (Hs : Strings.Split (String c (r ++ "/" ++ Strings.Join l))
                 = (Strings.Split (String c r) ++ l)%list).
    { change (String c (r ++ "/" ++ Strings.Join l))
        with (String c r ++ "/" ++ Strings.Join l).
      by rewrite Split_app, (Split_Join _ Hl0 Hsep). }
    rewrite Hs. apply forallb_true_Forall in Hb.
    rewrite fold_clean_plain.
    2:{ apply Forall_app. split; [|done].
        eapply Forall_impl; [exact Hb|]. by left. }
    rewrite List.filter_app, (filter_plain _ Hb). fold l'.
    rewrite app_nil_r.
    destruct (Split_nonempty (String c r)) as (h & t & Er).
    destruct (rev (Strings.Split (String c r) ++ l')) as [|x st] eqn:Est.
    { apply (f_equal length) in Est. rewrite length_rev, length_app, Er in Est.
      cbn in Est. lia. }
    rewrite <- Est, rev_involutive.
    rewrite Join_app by (by rewrite ?Er). by rewrite Join_Split.
Qed.

Lemma no_separator_app a b : no_separator (a ++ "/" ++ b) = false.
Proof.
  unfold no_separator. rewrite list_ascii_of_string_app. cbn.
  rewrite forallb_app. cbn. by rewrite andb_false_r.
Qed.

Lemma prefix_sep n n' h :
  no_separator n = true → no_separator n' = true →
  String.prefix (n ++ "/") (n' ++ "/" ++ h) = true → n = n'.
Proof.
  unfold no_separator. revert n'.
  induction n as [|c n IH]; intros [|c' n'] Hn Hn'.
  - done.
  - change ("" ++ "/") with (String "/" "").
    change (String c' n' ++ "/" ++ h) with (String c' (n' ++ "/" ++ h)).
    rewrite String_prefix_cons. cbn in Hn'.
    destruct (ascii_dec "/" c') as [<-|]; [|done]. by cbn in Hn'.
  - change (String c n ++ "/") with (String c (n ++ "/")).
    change ("" ++ "/" ++ h) with (String "/" h).
    rewrite String_prefix_cons. cbn in Hn.
    destruct (ascii_dec c "/") as [->|]; [|done]. by cbn in Hn.
  - change (String c n ++ "/") with (String c (n ++ "/")).
    change (String c' n' ++ "/" ++ h) with (String c' (n' ++ "/" ++ h)).
    rewrite String_prefix_cons.
    cbn in Hn, Hn'. apply andb_true_iff in Hn as [_ Hn].
    apply andb_true_iff in Hn' as [_ Hn'].
    destruct (ascii_dec c c') as [->|]; [|done].
    intros Hp. f_equal. by apply IH.
Qed.

Lemma rev_app_chars s1 : ∀ s2,
  list_ascii_of_string (String.rev_app s1 s2)
  = (rev (list_ascii_of_string s1) ++ list_ascii_of_string s2)%list.
Proof.
  induction s1 as [|c s1 IH]; intros s2; cbn; [done|].
  rewrite IH. cbn. by rewrite <- app_assoc.
Qed.

Lemma TrimLeft_keeps_other_bytes s :
  existsb (λ c, negb (Strings.isSpace c)) (list_ascii_of_string (Strings.TrimLeft s))
  = existsb (λ c, negb (Strings.isSpace c)) (list_ascii_of_string s).
Proof.
  induction s as [|c s IH]; [done|]. cbn [Strings.TrimLeft].
  destruct (Strings.isSpace c) eqn:Ec; [|done].
  rewrite IH. cbn [list_ascii_of_string existsb]. by rewrite Ec.
Qed.

Lemma existsb_of_rev {A} (f : A → bool) l : existsb f (rev l) = existsb f l.
Proof.
  induction l as [|x l IH]; [done|]. cbn. rewrite existsb_app, IH. cbn.
  rewrite orb_false_r. apply orb_comm.
Qed.

Lemma TrimSpace_not_empty s :
  existsb (λ c, negb (Strings.isSpace c)) (list_ascii_of_string s) = true →
  Strings.TrimSpace s ≠ "".
Proof.
  intros H E.
  assert (K : existsb (λ c, negb (Strings.isSpace c))
                (list_ascii_of_string (Strings.TrimSpace s)) = true).
  { unfold Strings.TrimSpace, String.rev.
    rewrite rev_app_chars, app_nil_r, existsb_of_rev, TrimLeft_keeps_other_bytes.
    rewrite rev_app_chars, app_nil_r, existsb_of_rev, TrimLeft_keeps_other_bytes.
    done. }
  by rewrite E in K.
Qed.

Lemma string_app_not_sep a b : b ≠ "" → String.eqb (a ++ "/" ++ b) "/" = false.
Proof.
  intros Hb. apply String.eqb_neq. destruct a as [|c a].
  - intros [= E]. done.
  - change (String c a ++ "/" ++ b) with (String c (a ++ "/" ++ b)).
    intros [= _ E]. by destruct a.
Qed.

Lemma paths_of_plain_names base name :
  plain_path base = true → plain name = true →
  Filepath.Join base (name ++ "/") = base ++ "/" ++ name
  ∧ ∀ h, plain h = true →
         Filepath.Join base (name ++ "/" ++ h) = base ++ "/" ++ name ++ "/" ++ h.
Proof.
  intros Hb Hn. pose proof (plain_true _ Hn) as (Hne & _).
  apply String.eqb_neq in Hne. split.
  - pose proof (Join_below base [name; ""] Hb) as H. cbn in H.
    rewrite Hne in H. cbn in H. apply H; [|done].
    constructor; [by left|]. constructor; [by right | constructor].
  - intros h Hh. pose proof (plain_true _ Hh) as (Hhe & _).
    apply String.eqb_neq in Hhe.
    pose proof (Join_below base [name; h] Hb) as H. cbn in H.
    rewrite Hne, Hhe in H. cbn in H. apply H; [|done].
    constructor; [by left|]. constructor; [by left | constructor].
Qed.

(** X21.  For a store root of plain elements and a codebase name that is
    one plain element, the prefix [name/] passes the guard of
    [DeleteObjectsWithPrefix] and resolves to the directory of that name
    below the root.  When the call succeeds, the objects of that name
    are gone, the objects of every other plain name answer as before, and
    the metadata is unchanged. *)
Theorem DeleteObjectsWithPrefix_removes_one_codebase_only
  (name : string) (w w1 : World) :
  plain_path (basePath w) = true →
  plain name = true →
  LocalStorage.DeleteObjectsWithPrefix (name ++ "/") w = (Ok tt, w1) →
  Filepath.Join (basePath w) (name ++ "/") = basePath w ++ "/" ++ name
  ∧ LocalStorage.DeleteObjectsWithPrefix (name ++ "/") w
    = RemoveAll (basePath w ++ "/" ++ name) w
  ∧ (∀ h, plain h = true →
          LocalStorage.GetObject (name ++ "/" ++ h) w1
          = (Err ("object not found: " ++ name ++ "/" ++ h), w1))
  ∧ (∀ name' h, plain name' = true → name' ≠ name → plain h = true →
          (LocalStorage.GetObject (name' ++ "/" ++ h) w1).1
          = (LocalStorage.GetObject (name' ++ "/" ++ h) w).1)
  ∧ metadata w1 = metadata w.
Proof.
  intros Hb Hn E.
  destruct (paths_of_plain_names _ _ Hb Hn) as [Hdir Hobj].
  pose proof (plain_true _ Hn) as (Hne & _ & _ & Hsep).
  assert (Hcall : LocalStorage.DeleteObjectsWithPrefix (name ++ "/") w
                  = RemoveAll (basePath w ++ "/" ++ name) w).
  { unfold LocalStorage.DeleteObjectsWithPrefix, bind at 1, gets.
    rewrite Hdir. unfold Strings.HasPrefix. rewrite String_prefix_app.
    assert (Ht : String.eqb (Strings.TrimSpace (name ++ "/")) "" = false).
    { apply String.eqb_neq, TrimSpace_not_empty.
      rewrite list_ascii_of_string_app, existsb_app. cbn.
      by rewrite orb_true_r. }
    by rewrite Ht. }
  split; [done|]. split; [done|].
  rewrite Hcall in E. unfold RemoveAll in E.
  apply bind_Ok_inv in E as ([] & w0 & Hs & E).
  apply syscall_Ok in Hs as (Hc0 & Hd0 & Hb0 & Ho0 & _).
  unfold modify in E. injection E as <-.
  assert (Hbase : basePath (set_objects
                     (filter (λ kv, under (basePath w ++ "/" ++ name) kv.1 = false)
                        (objects w0)) w0) = basePath w) by done.
  split; [| split].
  - intros h Hh. unfold LocalStorage.GetObject, bind, gets.
    rewrite Hbase, (Hobj h Hh). cbn.
    rewrite map_lookup_filter_None_2; [done|]. right. intros x _. cbn.
    unfold under, Strings.HasPrefix.
    rewrite (string_app_not_sep _ _ Hne).
    replace (basePath w ++ "/" ++ name ++ "/" ++ h)
      with ((basePath w ++ "/" ++ name) ++ "/" ++ h)
      by by rewrite !string_app_assoc.
    replace ((basePath w ++ "/" ++ name) ++ "/")
      with ((basePath w ++ "/" ++ name) ++ "/" ++ "")
      by done.
    rewrite String_prefix_app_head.
    change ("/" ++ "") with (String "/" "").
    change ("/" ++ h) with (String "/" h).
    rewrite String_prefix_cons, String_prefix_nil.
    destruct (ascii_dec "/" "/"); [|done]. by rewrite orb_true_r.
  - intros name' h Hn' Hdiff Hh.
    pose proof (plain_true _ Hn') as (_ & _ & _ & Hsep').
    destruct (paths_of_plain_names _ _ Hb Hn') as [_ Hobj'].
    unfold LocalStorage.GetObject, bind, gets.
    rewrite Hbase, (Hobj' h Hh). cbn. rewrite Ho0.
    set (p := basePath w ++ "/" ++ name' ++ "/" ++ h).
    assert (Hu : under (basePath w ++ "/" ++ name) p = false).
    { unfold under, Strings.HasPrefix, p.
      rewrite (string_app_not_sep _ _ Hne).
      apply orb_false_iff. split.
      - apply String.eqb_neq. intros Heq.
        apply (inj (String.append (basePath w))) in Heq.
        apply (inj (String.append "/")) in Heq.
        pose proof (no_separator_app name' h) as Hx. rewrite Heq in Hx.
        congruence.
      - replace ((basePath w ++ "/" ++ name) ++ "/")
          with ((basePath w ++ "/") ++ name ++ "/")
          by by rewrite !string_app_assoc.
        replace (basePath w ++ "/" ++ name' ++ "/" ++ h)
          with ((basePath w ++ "/") ++ name' ++ "/" ++ h)
          by by rewrite !string_app_assoc.
        rewrite String_prefix_app_head.
        destruct (String.prefix (name ++ "/") (name' ++ "/" ++ h)) eqn:Ep;
          [|done].
        apply prefix_sep in Ep; [|done..]. by subst. }
    destruct (objects w !! p) as [x|] eqn:El.
    + by rewrite (map_lookup_filter_Some_2 _ _ _ _ El Hu).
    + rewrite map_lookup_filter_None_2; [done|]. by left.
  - unfold metadata. cbn. by rewrite Hc0, Hd0.
Qed.

(** The theorem at a store with the objects of two codebases. *)
Lemma DeleteObjectsWithPrefix_removes_one_codebase_only_witness :
  let w1 := (LocalStorage.DeleteObjectsWithPrefix "proj/" two_codebases_store).2 in
  LocalStorage.GetObject "proj/6162" w1 = (Err "object not found: proj/6162", w1)
  ∧ (LocalStorage.GetObject "other/63" w1).1 = Ok [Byte.x63].
Proof.
  intros w1.
  destruct (DeleteObjectsWithPrefix_removes_one_codebase_only "proj"
              two_codebases_store w1 eq_refl eq_refl)
    as (_ & _ & H1 & H2 & _); [vm_compute; reflexivity|].
  split.
  - exact (H1 "6162" eq_refl).
  - refine (eq_trans (H2 "other" "63" eq_refl _ eq_refl) _);
      [discriminate | vm_compute; reflexivity].
Defined.

(* ------------------------------------------------------------------ *)
(** ** Downloads and the handler of deletions *)
(* ------------------------------------------------------------------ *)

Section Downloads.
Context `{!Utils}.


(** X22.  [GetSingleFile], [getFilesForVersion] and [GetCodebaseName]
    never change the state.  [GetSingleFile] for a path that no file of
    the version has fails with an error that names the path and the
    version. *)
Theorem downloads_leave_the_state_alone
  (codebaseID branch version filePath : string) (w : World) :
  (ArchiveService.GetSingleFile codebaseID branch version filePath w).2 = w
  ∧ (ArchiveService.getFilesForVersion codebaseID branch version w).2 = w
  ∧ (ArchiveService.GetCodebaseName codebaseID w).2 = w
  ∧ (∀ v files,
       JSONFileProvider.GetVersion codebaseID branch version w = (Ok v, w) →
       FileIndexes (cache w) !! Version.TreeID v = Some files →
       Forall (λ f, File.Path f ≠ filePath) files →
       ArchiveService.GetSingleFile codebaseID branch version filePath w
       = (Err ("file '" ++ filePath ++ "' not found in version " ++ version),
          w)).
Proof.
  split; [| split; [| split]].
  - assert (K : keeps id (ArchiveService.GetSingleFile codebaseID branch
                            version filePath))
      by (apply keeps_intro; intros x; frame).
    apply K.
  - assert (K : keeps id (ArchiveService.getFilesForVersion codebaseID branch
                            version))
      by (apply keeps_intro; intros x;
          unfold ArchiveService.getFilesForVersion; frame).
    apply K.
  - assert (K : keeps id (ArchiveService.GetCodebaseName codebaseID))
      by (apply keeps_intro; intros x;
          unfold ArchiveService.GetCodebaseName; frame).
    apply K.
  - intros v files Hv Hf Hall. unfold ArchiveService.GetSingleFile.
    rewrite (bind_Ok _ _ _ _ _ (wrap_Ok _ _ _ _ _ Hv)).
    assert (Hidx : JSONFileProvider.GetFileIndexesByTreeID (Version.TreeID v) w
                   = (Ok files, w)).
    { unfold JSONFileProvider.GetFileIndexesByTreeID, bind, gets. by rewrite Hf. }
    rewrite (bind_Ok _ _ _ _ _ (wrap_Ok _ _ _ _ _ Hidx)).
    assert (Hfind : List.find (λ f, String.eqb (File.Path f) filePath) files
                    = None).
    { clear -Hall. induction Hall as [|f l Hne _ IH]; [done|]. cbn.
      apply String.eqb_neq in Hne. by rewrite Hne. }
    by rewrite Hfind.
Qed.

End Downloads.


(** The theorem at a path that the snapshot does not hold. *)
Lemma downloads_leave_the_state_alone_witness :
  ArchiveService.GetSingleFile (H := example_utils) "cb1" "dev" "v1" "b.txt"
    dev1_world
  = (Err "file 'b.txt' not found in version v1", dev1_world).
Proof.
  assert (Ev : ∃ v, JSONFileProvider.GetVersion "cb1" "dev" "v1" dev1_world
                    = (Ok v, dev1_world) ∧ Version.TreeID v = "t1")
    by (vm_compute; eexists; split; reflexivity).
  destruct Ev as (v & Ev & Ht).
  refine (proj2 (proj2 (proj2 (downloads_leave_the_state_alone
                                 (H := example_utils) "cb1" "dev" "v1" "b.txt"
                                 dev1_world))) v [a_png_file] Ev _ _).
  - rewrite Ht. vm_compute; reflexivity.
  - constructor; [discriminate | constructor].
Defined.

Lemma Contains_prefix s sub :
  String.prefix sub s = true → Strings.Contains s sub = true.
Proof. intros H. destruct s; cbn [Strings.Contains]; by rewrite H. Qed.

Lemma Contains_app a s sub :
  Strings.Contains s sub = true → Strings.Contains (a ++ s) sub = true.
Proof.
  intros H. induction a as [|c a IH]; [done|].
  change (String c a ++ s) with (String c (a ++ s)).
  cbn [Strings.Contains]. rewrite IH. apply orb_true_r.
Qed.

(** X23.  The handler of deletions answers 404 with the error of the
    service for an id that no codebase has, and changes nothing; 500 with
    the error behind a fixed prefix when the blob store refuses the
    prefix of the codebase; and 200 with a message that names the id when
    the service succeeds. *)
Theorem DeleteHandler_answers (codebaseID : string) (w : World) :
  (Codebases (cache w) !! codebaseID = None →
   DeleteHandler.DeleteCodebase codebaseID w
   = (Ok (404%Z, "codebase with ID " ++ codebaseID
                   ++ " not found: codebase " ++ codebaseID ++ " not found"),
      w))
  ∧ (∀ codebase w1,
       Codebases (cache w) !! codebaseID = Some codebase →
       LocalStorage.DeleteObjectsWithPrefix (Codebase.Name codebase ++ "/") w
       = (Err "not allowed to delete root directory or use empty prefix", w1) →
       DeleteHandler.DeleteCodebase codebaseID w
       = (Ok (500%Z,
              "Internal error occurred while deleting codebase: "
              ++ "failed to delete files from storage: "
              ++ "not allowed to delete root directory or use empty prefix"),
          w1))
  ∧ (∀ w1,
       DeleteService.DeleteCodebase codebaseID w = (Ok tt, w1) →
       DeleteHandler.DeleteCodebase codebaseID w
       = (Ok (200%Z, "Codebase " ++ codebaseID
                       ++ " has been successfully deleted"), w1)).
Proof.
  split; [| split].
  - intros E. unfold DeleteHandler.DeleteCodebase, bind, attempt.
    assert (Hs : DeleteService.DeleteCodebase codebaseID w
                 = (Err ("codebase with ID " ++ codebaseID
                           ++ " not found: codebase " ++ codebaseID
                           ++ " not found"), w)).
    { unfold DeleteService.DeleteCodebase.
      erewrite bind_Err; [reflexivity|].
      erewrite wrap_Err; [|by apply GetCodebaseByID_missing].
      f_equal. f_equal. by rewrite !string_app_assoc. }
    rewrite Hs.
    assert (Hc : Strings.Contains
                   ("codebase with ID " ++ codebaseID
                      ++ " not found: codebase " ++ codebaseID ++ " not found")
                   "not found" = true).
    { do 2 apply Contains_app.
      apply (Contains_app " "), Contains_prefix. reflexivity. }
    by rewrite Hc.
  - intros codebase w1 Hcb Hd.
    unfold DeleteHandler.DeleteCodebase, bind, attempt.
    assert (Hs : DeleteService.DeleteCodebase codebaseID w
                 = (Err ("failed to delete files from storage: "
                           ++ "not allowed to delete root directory or use empty prefix"),
                    w1)).
    { unfold DeleteService.DeleteCodebase.
      rewrite (bind_Ok _ _ _ _ _
                 (wrap_Ok _ _ _ _ _ (GetCodebaseByID_found _ _ _ Hcb))).
      cbn zeta. erewrite bind_Err; [reflexivity|]. by apply wrap_Err. }
    rewrite Hs. reflexivity.
  - intros w1 E. unfold DeleteHandler.DeleteCodebase, bind, attempt.
    by rewrite E.
Qed.

(** The theorem at an id that no codebase has. *)
Lemma DeleteHandler_answers_witness :
  DeleteHandler.DeleteCodebase "cb9" proj_world
  = (Ok (404%Z, "codebase with ID cb9 not found: codebase cb9 not found"),
     proj_world).
Proof.
  exact (proj1 (DeleteHandler_answers "cb9" proj_world) eq_refl).
Defined.
